(** * Timelytics: the delivery-time estimator and its derivations

    A shallow embedding of [timelytics_app.py]: the rate tables, the
    estimator [predict_delivery_time], the sample-data synthesizer
    [generate_sample_data], the duration formatter [hours_to_readable] and
    the insight rules [get_delivery_insights].

    Python numbers are modelled as they are at run time: an [int] is a [Z],
    a [float] is an IEEE-754 binary64 value (Rocq's primitive [float], whose
    operations are specified by [SpecFloat]).  Python strings are modelled
    as [string]s holding their UTF-8 bytes.  A raised exception is the left
    injection of a sum; the process-wide random generator is threaded as
    explicit state. *)

From Stdlib Require Import ZArith QArith Qround Floats String Ascii List Lia Bool DecimalString.
Import ListNotations.

Set Warnings "-inexact-float".

Local Open Scope string_scope.
Local Open Scope Z_scope.

(** ** Python run-time model *)

Module Py.

(** Exceptions the modelled code can raise. *)
Inductive exn : Type :=
| KeyError (key : string)
| ValueError
| OverflowError
| ZeroDivisionError.

(** A Python number as the program handles it: [int] or [float]. *)
Inductive num : Type :=
| Int (z : Z)
| Float (f : float).

(** The outcome of a pure computation that may raise. *)
Definition result (A : Type) : Type := (exn + A)%type.

Definition rbind {A B} (m : result A) (k : A -> result B) : result B :=
  match m with
  | inl e => inl e
  | inr a => k a
  end.

(** *** Exact values of floats *)

(** The rational a finite [spec_float] denotes; [0] for the others. *)
Definition SF2Q (x : spec_float) : Q :=
  match x with
  | S754_finite s m e =>
      match e with
      | Zneg p => Qmake (cond_Zopp s (Zpos m)) (2 ^ p)%positive
      | _ => inject_Z (cond_Zopp s (Zpos m) * 2 ^ e)
      end
  | _ => 0%Q
  end.

Definition F2Q (x : float) : Q := SF2Q (Prim2SF x).

(** [int -> float] conversion ([PyLong_AsDouble]): the nearest binary64
    value, ties to even. *)
Definition of_int (z : Z) : float :=
  SF2Prim (binary_normalize prec emax z 0 false).

(** Rounding a rational to the nearest integer, ties to the even one. *)
Definition round_half_even (q : Q) : Z :=
  let f := Qfloor q in
  match Qcompare (q - inject_Z f) (1 # 2) with
  | Lt => f
  | Eq => if Z.even f then f else f + 1
  | Gt => f + 1
  end.

(** The float nearest to the decimal [(-1)^s * d / 10^ndigits], as
    [strtod] reads it: the correctly rounded quotient. *)
Definition of_decimal (s : bool) (d : positive) (ndigits : N) : float :=
  SF2Prim (SF64div (S754_finite s d 0)
                   (S754_finite false (Z.to_pos (10 ^ Z.of_N ndigits)) 0)).

(** [round(x, ndigits)] on a float, for [ndigits >= 0]: CPython prints the
    exact binary value to [ndigits] decimals, correctly rounded with ties to
    even, and reads the decimal string back as the nearest float.  Zeros,
    infinities and NaN round to themselves. *)
Definition round (x : float) (ndigits : N) : float :=
  match Prim2SF x with
  | S754_finite s m e =>
      let scale := inject_Z (10 ^ Z.of_N ndigits) in
      match round_half_even (SF2Q (S754_finite false m e) * scale) with
      | Zpos d => of_decimal s d ndigits
      | _ => if s then PrimFloat.neg_zero else PrimFloat.zero
      end
  | _ => x
  end.

(** *** Comparisons *)

(** A float against an integer, compared exactly as CPython does. *)
Definition SFcompare_Z (x : spec_float) (z : Z) : option comparison :=
  match x with
  | S754_nan => None
  | S754_infinity s => Some (if s then Lt else Gt)
  | S754_zero _ => Some (0 ?= z)
  | S754_finite _ _ _ => Some (SF2Q x ?= inject_Z z)%Q
  end.

Definition compare (x y : num) : option comparison :=
  match x, y with
  | Int a, Int b => Some (a ?= b)
  | Float a, Float b => SFcompare (Prim2SF a) (Prim2SF b)
  | Float a, Int b => SFcompare_Z (Prim2SF a) b
  | Int a, Float b => option_map CompOpp (SFcompare_Z (Prim2SF b) a)
  end.

(** [x < y] and [x > y]. *)
Definition lt (x y : num) : bool :=
  match compare x y with Some Lt => true | _ => false end.

Definition gt (x y : num) : bool :=
  match compare x y with Some Gt => true | _ => false end.

(** [x <= y] and [x >= y]. *)
Definition le (x y : num) : bool :=
  match compare x y with Some (Lt | Eq) => true | _ => false end.

Definition ge (x y : num) : bool :=
  match compare x y with Some (Gt | Eq) => true | _ => false end.

(** [max(a, b)]: the first argument is kept unless the second is greater. *)
Definition max (a b : num) : num := if gt b a then b else a.

(** *** Conversions to [int] and to [str] *)

(** [int(x)]: truncation toward zero; NaN and the infinities raise. *)
Definition int (x : num) : result Z :=
  match x with
  | Int z => inr z
  | Float f =>
      match Prim2SF f with
      | S754_nan => inl ValueError
      | S754_infinity _ => inl OverflowError
      | S754_zero _ => inr 0
      | S754_finite s m e =>
          inr (cond_Zopp s (match e with
                            | Zneg p => Zpos m / 2 ^ Zpos p
                            | _ => Zpos m * 2 ^ e
                            end))
      end
  end.

(** The decimal numeral of an integer: its digits, with a leading minus
    sign. *)
Definition numeral (z : Z) : string := NilEmpty.string_of_int (Z.to_int z).

(** The limit CPython sets on the digits of an [int] converted to text,
    [sys.get_int_max_str_digits()] at its default, and the least magnitude
    that has more digits: [10 ^ 4300]. *)
Definition int_max_str_digits : Z := 4300.

Definition int_max_str_bound : Z := Eval vm_compute in 10 ^ int_max_str_digits.

(** [str(z)] of an [int], which is also what a replacement field [{z}] of
    an f-string yields: the numeral, or ValueError when the [int] has more
    digits than the limit. *)
Definition str (z : Z) : result string :=
  if int_max_str_bound <=? Z.abs z then inl ValueError else inr (numeral z).

(** *** Floor division and remainder *)

(** Truth value of a C [double]: anything but a zero (NaN included). *)
Definition nonzero (x : float) : bool := negb (x =? 0)%float.

(** [copysign(0.0, x)] *)
Definition signed_zero (x : float) : float :=
  if get_sign x then PrimFloat.neg_zero else PrimFloat.zero.

(** C's [fmod]: the exact remainder of the truncated quotient, which has
    the sign of [x] and is always representable. *)
Definition fmod (x y : float) : float :=
  match Prim2SF x with
  | S754_nan | S754_infinity _ => nan
  | S754_zero _ =>
      match Prim2SF y with
      | S754_nan | S754_zero _ => nan
      | _ => x
      end
  | S754_finite sx mx ex =>
      match Prim2SF y with
      | S754_nan | S754_zero _ => nan
      | S754_infinity _ => x
      | S754_finite _ my ey =>
          let ez := Z.min ex ey in
          let a := (Zpos mx * 2 ^ (ex - ez))%Z in
          let b := (Zpos my * 2 ^ (ey - ez))%Z in
          match (a mod b)%Z with
          | Z0 => if sx then PrimFloat.neg_zero else PrimFloat.zero
          | r => SF2Prim (binary_normalize prec emax (cond_Zopp sx r) ez false)
          end
      end
  end.

(** C's [floor]: the largest integral float not above [x]. *)
Definition floor (x : float) : float :=
  match Prim2SF x with
  | S754_finite s m (Zneg p) =>
      match (cond_Zopp s (Zpos m) / 2 ^ Zpos p)%Z with
      | Z0 => PrimFloat.zero
      | n => SF2Prim (binary_normalize prec emax n 0 false)
      end
  | _ => x
  end.

(** CPython's [_float_div_mod]: floored quotient and remainder of two
    floats, for a non-zero divisor. *)
Definition float_div_mod (vx wx : float) : float * float :=
  let rem := fmod vx wx in
  let div := ((vx - rem) / wx)%float in
  let '(rem, div) :=
    if nonzero rem then
      if xorb (wx <? 0)%float (rem <? 0)%float
      then ((rem + wx)%float, (div - 1)%float)
      else (rem, div)
    else (signed_zero wx, div) in
  let floordiv :=
    if nonzero div then
      let floordiv := floor div in
      if (0.5 <? div - floordiv)%float then (floordiv + 1)%float else floordiv
    else signed_zero (vx / wx)%float in
  (floordiv, rem).

(** The float an operand of a mixed operation is converted to. *)
Definition to_float (x : num) : result float :=
  match x with
  | Float f => inr f
  | Int z =>
      let f := of_int z in
      if is_infinity f then inl OverflowError else inr f
  end.

(** [x // y] *)
Definition floordiv (x y : num) : result num :=
  match x, y with
  | Int a, Int b =>
      if b =? 0 then inl ZeroDivisionError else inr (Int (a / b))
  | _, _ =>
      rbind (to_float x) (fun vx =>
      rbind (to_float y) (fun wx =>
      if (wx =? 0)%float then inl ZeroDivisionError
      else inr (Float (fst (float_div_mod vx wx)))))
  end.

(** [x % y] *)
Definition modulo (x y : num) : result num :=
  match x, y with
  | Int a, Int b =>
      if b =? 0 then inl ZeroDivisionError else inr (Int (a mod b))
  | _, _ =>
      rbind (to_float x) (fun vx =>
      rbind (to_float y) (fun wx =>
      if (wx =? 0)%float then inl ZeroDivisionError
      else inr (Float (snd (float_div_mod vx wx)))))
  end.

End Py.

Notation "x <-? m ;; k" := (Py.rbind m (fun x => k))
  (at level 61, m at next level, right associativity).

(** ** The random generator

    [np.random.uniform] draws from a process-wide generator.  Its state is
    modelled as the sequence of floats the coming calls will return. *)

Definition rng : Type := nat -> float.

Definition rng_tail (g : rng) : rng := fun n => g (S n).

(** A computation that may raise and may draw random numbers. *)
Definition M (A : Type) : Type := rng -> Py.result A * rng.

Definition ret {A} (a : A) : M A := fun g => (inr a, g).

Definition raise {A} (e : Py.exn) : M A := fun g => (inl e, g).

Definition bind {A B} (m : M A) (k : A -> M B) : M B :=
  fun g =>
    match m g with
    | (inl e, g') => (inl e, g')
    | (inr a, g') => k a g'
    end.

Notation "x <- m ;; k" := (bind m (fun x => k))
  (at level 61, m at next level, right associativity).

(** [np.random.uniform(low, high)]: the next number of the generator. *)
Definition np_random_uniform (low high : float) : M float :=
  fun g => (inr (g 0%nat), rng_tail g).

(** ** Dictionaries *)

Definition dict (V : Type) : Type := list (string * V).

Fixpoint dict_lookup {V} (d : dict V) (k : string) : option V :=
  match d with
  | [] => None
  | (k', v) :: d' => if String.eqb k k' then Some v else dict_lookup d' k
  end.

(** [d.get(k, default)] *)
Definition dict_get {V} (d : dict V) (k : string) (default : V) : V :=
  match dict_lookup d k with
  | Some v => v
  | None => default
  end.

(** [d[k]], which raises [KeyError] on a missing key. *)
Definition dict_getitem {V} (d : dict V) (k : string) : M V :=
  match dict_lookup d k with
  | Some v => ret v
  | None => raise (Py.KeyError k)
  end.

(** ** The estimator *)

Definition create_prediction_model : dict Z * dict float * dict float :=
  let category_times :=
    [ ("Electronics", 48);
      ("Clothing", 36);
      ("Books", 24);
      ("Home & Garden", 72);
      ("Sports", 48);
      ("Beauty", 36);
      ("Toys", 48) ] in
  let location_multipliers :=
    [ ("Urban", 0.8%float);
      ("Suburban", 1.0%float);
      ("Rural", 1.3%float) ] in
  let shipping_multipliers :=
    [ ("Overnight", 0.3%float);
      ("Express", 0.6%float);
      ("Standard", 1.0%float);
      ("Economy", 1.4%float) ] in
  (category_times, location_multipliers, shipping_multipliers).

Definition predict_delivery_time (category location shipping : string) : M Py.num :=
  let '(category_times, location_multipliers, shipping_multipliers) :=
    create_prediction_model in
  let base_time := dict_get category_times category 48 in
  location_multiplier <- dict_getitem location_multipliers location ;;
  let predicted_time := (Py.of_int base_time * location_multiplier)%float in
  shipping_multiplier <- dict_getitem shipping_multipliers shipping ;;
  let predicted_time := (predicted_time * shipping_multiplier)%float in
  variation <- np_random_uniform 0.9 1.1 ;;
  let predicted_time := (predicted_time * variation)%float in
  ret (Py.max (Py.Int 2) (Py.Float (Py.round predicted_time 1))).

(** ** The sample-data synthesizer *)

(** One record of the list handed to [pd.DataFrame]. *)
Record row : Type := {
  Product_Category : string;
  Location : string;
  Shipping_Method : string;
  Delivery_Time_Hours : Py.num
}.

(** A [for] loop over a list, threading the variables the body updates. *)
Fixpoint for_each {A S} (xs : list A) (body : A -> S -> M S) (s : S) : M S :=
  match xs with
  | [] => ret s
  | x :: xs' => s' <- body x s ;; for_each xs' body s'
  end.

Definition categories : list string :=
  ["Electronics"; "Clothing"; "Books"; "Home & Garden"; "Sports"; "Beauty"; "Toys"].

Definition locations : list string := ["Urban"; "Suburban"; "Rural"].

Definition shipping_methods : list string :=
  ["Standard"; "Express"; "Overnight"; "Economy"].

Definition generate_sample_data : M (list row) :=
  let data : list row := [] in
  for_each categories (fun category data =>
    for_each locations (fun location data =>
      for_each shipping_methods (fun shipping data =>
        delivery_time <- predict_delivery_time category location shipping ;;
        ret (data ++ [ {| Product_Category := category;
                          Location := location;
                          Shipping_Method := shipping;
                          Delivery_Time_Hours := delivery_time |} ])%list)
      data)
    data)
  data.

(** ** The formatter *)

Definition hours_to_readable (hours : Py.num) : Py.result string :=
  if Py.lt hours (Py.Int 24) then
    h <-? Py.int hours ;;
    shown <-? Py.str h ;;
    inr (shown ++ " hours")
  else
    q <-? Py.floordiv hours (Py.Int 24) ;;
    days <-? Py.int q ;;
    r <-? Py.modulo hours (Py.Int 24) ;;
    remaining_hours <-? Py.int r ;;
    if remaining_hours =? 0 then
      shown_days <-? Py.str days ;;
      inr (shown_days ++ " day" ++ (if days >? 1 then "s" else ""))
    else
      shown_days <-? Py.str days ;;
      shown_hours <-? Py.str remaining_hours ;;
      inr (shown_days ++ " day" ++ (if days >? 1 then "s" else "")
           ++ " and " ++ shown_hours
           ++ " hour" ++ (if remaining_hours >? 1 then "s" else "")).

(** ** The insight rules *)

Definition get_delivery_insights
    (category location shipping : string) (predicted_hours : Py.num) : list string :=
  let insights : list string := [] in
  let insights :=
    if (shipping =? "Overnight")%string then
      (insights ++ ["🚀 Overnight shipping selected - fastest delivery option!"])%list
    else if (shipping =? "Economy")%string then
      (insights ++ ["💰 Economy shipping selected - budget-friendly option with longer delivery time"])%list
    else insights in
  let insights :=
    if (location =? "Rural")%string then
      (insights ++ ["🏞️ Rural delivery may take longer due to remote location"])%list
    else if (location =? "Urban")%string then
      (insights ++ ["🏙️ Urban delivery benefits from faster logistics networks"])%list
    else insights in
  let insights :=
    if (category =? "Home & Garden")%string then
      (insights ++ ["🏡 Large items may require special handling and longer processing time"])%list
    else if (category =? "Books")%string then
      (insights ++ ["📚 Books are typically lightweight and process quickly"])%list
    else insights in
  let insights :=
    if Py.gt predicted_hours (Py.Int 72) then
      (insights ++ ["⏳ Extended delivery time - consider express shipping for faster delivery"])%list
    else if Py.lt predicted_hours (Py.Int 24) then
      (insights ++ ["⚡ Fast delivery expected - your order will arrive quickly!"])%list
    else insights in
  insights.

(** ** The specification's vocabulary

    Definitions that follow the words of the specification, to be compared
    with the program above. *)

Module Spec.

Inductive Category : Type :=
  Electronics | Clothing | Books | Home_and_Garden | Sports | Beauty | Toys.

Inductive Location : Type := Urban | Suburban | Rural.

Inductive ShippingMethod : Type := Overnight | Express | Standard | Economy.

Definition all_categories : list Category :=
  [Electronics; Clothing; Books; Home_and_Garden; Sports; Beauty; Toys].

Definition all_locations : list Location := [Urban; Suburban; Rural].

Definition all_shippings : list ShippingMethod :=
  [Overnight; Express; Standard; Economy].

Definition category_name (c : Category) : string :=
  match c with
  | Electronics => "Electronics"
  | Clothing => "Clothing"
  | Books => "Books"
  | Home_and_Garden => "Home & Garden"
  | Sports => "Sports"
  | Beauty => "Beauty"
  | Toys => "Toys"
  end.

Definition location_name (l : Location) : string :=
  match l with
  | Urban => "Urban"
  | Suburban => "Suburban"
  | Rural => "Rural"
  end.

Definition shipping_name (s : ShippingMethod) : string :=
  match s with
  | Overnight => "Overnight"
  | Express => "Express"
  | Standard => "Standard"
  | Economy => "Economy"
  end.

(** Base duration of a category, in hours. *)
Definition base (c : Category) : Z :=
  match c with
  | Electronics => 48
  | Clothing => 36
  | Books => 24
  | Home_and_Garden => 72
  | Sports => 48
  | Beauty => 36
  | Toys => 48
  end.

Definition locationFactor (l : Location) : float :=
  match l with
  | Urban => 0.8
  | Suburban => 1.0
  | Rural => 1.3
  end.

Definition shippingFactor (s : ShippingMethod) : float :=
  match s with
  | Overnight => 0.3
  | Express => 0.6
  | Standard => 1.0
  | Economy => 1.4
  end.

(** The base used for a category string outside the enumeration. *)
Definition default_base : Z := 48.

Definition category_of (name : string) : option Category :=
  find (fun c => (name =? category_name c)%string) all_categories.

(** [RateTables.categoryHours]: the defaulted lookup. *)
Definition categoryHours (name : string) : Z :=
  match category_of name with
  | Some c => base c
  | None => default_base
  end.

Definition valid_category (name : string) : Prop :=
  In name (map category_name all_categories).

Definition valid_location (name : string) : Prop :=
  In name (map location_name all_locations).

Definition valid_shipping (name : string) : Prop :=
  In name (map shipping_name all_shippings).

(** [predicted = base * locFactor * shipFactor * jitter], before rounding. *)
Definition predicted (b : Z) (l : Location) (s : ShippingMethod) (j : float) : float :=
  (Py.of_int b * locationFactor l * shippingFactor s * j)%float.

(** The larger of two floats. *)
Definition fmax (a b : float) : float := if (a <? b)%float then b else a.

(** [result = max(2.0, round(predicted, 1 decimal place))] *)
Definition result (b : Z) (l : Location) (s : ShippingMethod) (j : float) : float :=
  fmax 2 (Py.round (predicted b l s j) 1).

(** The jitter interval. *)
Definition jitter_ok (j : float) : Prop :=
  (0.9 <=? j)%float = true /\ (j <=? 1.1)%float = true.

(** The four rule groups of the insight engine. *)
Definition overnight_note : string :=
  "🚀 Overnight shipping selected - fastest delivery option!".
Definition economy_note : string :=
  "💰 Economy shipping selected - budget-friendly option with longer delivery time".
Definition rural_note : string :=
  "🏞️ Rural delivery may take longer due to remote location".
Definition urban_note : string :=
  "🏙️ Urban delivery benefits from faster logistics networks".
Definition home_garden_note : string :=
  "🏡 Large items may require special handling and longer processing time".
Definition books_note : string :=
  "📚 Books are typically lightweight and process quickly".
Definition suggest_express_note : string :=
  "⏳ Extended delivery time - consider express shipping for faster delivery".
Definition fast_delivery_note : string :=
  "⚡ Fast delivery expected - your order will arrive quickly!".

Definition shipping_rule (shipping : string) : option string :=
  if (shipping =? "Overnight")%string then Some overnight_note
  else if (shipping =? "Economy")%string then Some economy_note
  else None.

Definition location_rule (location : string) : option string :=
  if (location =? "Rural")%string then Some rural_note
  else if (location =? "Urban")%string then Some urban_note
  else None.

Definition category_rule (category : string) : option string :=
  if (category =? "Home & Garden")%string then Some home_garden_note
  else if (category =? "Books")%string then Some books_note
  else None.

Definition duration_rule (predictedHours : Py.num) : option string :=
  if Py.gt predictedHours (Py.Int 72) then Some suggest_express_note
  else if Py.lt predictedHours (Py.Int 24) then Some fast_delivery_note
  else None.

(** The contribution of a rule group: at most one string. *)
Definition notes (r : option string) : list string :=
  match r with
  | Some n => [n]
  | None => []
  end.

End Spec.

(** ** Auxiliary definitions for the proofs *)

(** The record reached from [(m, false, false)] after [n] one-bit shifts. *)
Definition shr_state (m : Z) (n : nat) : shr_record :=
  {| shr_m := m / 2 ^ Z.of_nat n;
     shr_r := match n with O => false | S n' => Z.testbit m (Z.of_nat n') end;
     shr_s := match n with O => false | S n' => negb (m mod 2 ^ Z.of_nat n' =? 0) end |}.

(** Division by [2 ^ k] rounded to nearest, ties to even. *)
Definition rne_shift (m k : Z) : Z :=
  let q := m / 2 ^ k in
  match 2 * (m mod 2 ^ k) ?= 2 ^ k with
  | Lt => q
  | Eq => if Z.even q then q else q + 1
  | Gt => q + 1
  end.

(** A positive integer rounded to 53 significant bits (nearest, ties to even). *)
Definition round53 (m : Z) : Z :=
  let k := Zdigits2 m - 53 in rne_shift m k * 2 ^ k.

(** Mantissas of the jitter bounds: [0.9 = jitter_lo * 2^-53] and
    [1.1 = jitter_hi * 2^-52]. *)
Definition jitter_lo : positive := 8106479329266893.
Definition jitter_hi : positive := 4953959590107546.

(** A product [base * locFactor * shipFactor] whose multiples by a jitter
    stay between 5.184 and 145: the test is on the mantissa and exponent. *)
Definition product_ok (c : float) : bool :=
  match Prim2SF c with
  | S754_finite false mc ec =>
      (Zpos (digits2_pos mc) =? 53) && (-60 <=? ec) && (ec <=? -3)
      && (5184 * 2 ^ (53 - ec) <=? 1000 * round53 (Zpos (mc * jitter_lo)))
      && (round53 (Zpos (mc * jitter_hi)~0) <=? 145 * 2 ^ (53 - ec))
  | _ => false
  end.

(** What the estimator needs of a one-decimal float [d / 10]: above the
    floor of 2 (against the [int] and against the [float]) and at least 5.2. *)
Definition decimal_ok (d : positive) : bool :=
  Py.gt (Py.Float (Py.of_decimal false d 1)) (Py.Int 2)
  && (2 <? Py.of_decimal false d 1)%float
  && Qle_bool (52 # 10) (Py.F2Q (Py.of_decimal false d 1)).

(** The base hours the rate table can yield. *)
Definition base_hours : list Z := [48; 36; 24; 72].

(** The three rate tables of [create_prediction_model]. *)
Definition category_times : dict Z := fst (fst create_prediction_model).
Definition location_multipliers : dict float := snd (fst create_prediction_model).
Definition shipping_multipliers : dict float := snd create_prediction_model.

(** Calling a computation [n] times in a row and collecting the results. *)
Fixpoint repeat_call {A : Type} (n : nat) (m : M A) : M (list A) :=
  match n with
  | O => ret []
  | S n' => x <- m ;; xs <- repeat_call n' m ;; ret (x :: xs)
  end.


(** The generator after [n] draws. *)
Definition rng_drop (n : nat) (g : rng) : rng := Nat.iter n rng_tail g.

(** The value the estimator returns from the state [g]. *)
Definition estimate (category location shipping : string) (g : rng) : Py.num :=
  match fst (predict_delivery_time category location shipping g) with
  | inr v => v
  | inl _ => Py.Int 0
  end.

(** The rows a loop appends, when the pass for [x] from the state [g]
    appends [out x g] and draws [cost] numbers. *)
Fixpoint outs {A R : Type} (xs : list A) (out : A -> rng -> list R) (cost : nat)
    (g : rng) : list R :=
  match xs with
  | [] => []
  | x :: xs' => (out x g ++ outs xs' out cost (rng_drop cost g))%list
  end.

(** The combination a row is for. *)
Definition row_key (r : row) : string * string * string :=
  (Product_Category r, Location r, Shipping_Method r).

(** The cross-product in nested order: category outermost, location in
    the middle, shipping method innermost. *)
Definition combinations : list (string * string * string) :=
  flat_map (fun category =>
    flat_map (fun location =>
      map (fun shipping => (category, location, shipping)) shipping_methods)
    locations)
  categories.

(** The table the synthesizer is expected to build from the state [g]: the
    [i]-th combination with the estimate made after [i] draws. *)
Definition expected_rows (g : rng) : list row :=
  map (fun ik : nat * (string * string * string) =>
         let '(i, (category, location, shipping)) := ik in
         {| Product_Category := category;
            Location := location;
            Shipping_Method := shipping;
            Delivery_Time_Hours := estimate category location shipping (rng_drop i g) |})
      (combine (seq 0 (length combinations)) combinations).

Definition key_eq_dec (x y : string * string * string) : {x = y} + {x <> y}.
Proof. repeat decide equality. Defined.


(** ** Auxiliary definitions for the formatter *)

(** A number that is neither NaN nor an infinity. *)
Definition is_finite (x : Py.num) : bool :=
  match x with
  | Py.Int _ => true
  | Py.Float f =>
      match Prim2SF f with
      | S754_zero _ | S754_finite _ _ _ => true
      | _ => false
      end
  end.

(** The rational a finite number denotes. *)
Definition exact_value (x : Py.num) : Q :=
  match x with
  | Py.Int z => inject_Z z
  | Py.Float f => Py.F2Q f
  end.

(** The integer part of a rational: rounding toward zero. *)
Definition truncate (q : Q) : Z :=
  if Qle_bool 0 q then Qfloor q else Qceiling q.

(** A noun with its plural mark when the count is above one. *)
Definition pluralize (noun : string) (count : Z) : string :=
  if count >? 1 then noun ++ "s" else noun.

(** The number whose numeral the rendering of a duration starts with: the
    whole hours below a day, the whole days from a day on. *)
Definition leading_count (hours : Q) : Z :=
  if Qle_bool 24 hours then Qfloor (hours / 24) else truncate hours.

(** An integer of more digits than [str] accepts. *)
Definition too_long (z : Z) : bool := Py.int_max_str_bound <=? Z.abs z.

(** The rendering of a duration computed on exact values: whole hours
    below a day, days and whole remaining hours from a day on. *)
Definition readable_duration (hours : Q) : string :=
  if Qle_bool 24 hours then
    let days := Qfloor (hours / 24) in
    let remainderHours := Qfloor (hours - inject_Z (24 * days)) in
    if remainderHours =? 0 then
      Py.numeral days ++ " " ++ pluralize "day" days
    else
      Py.numeral days ++ " " ++ pluralize "day" days
      ++ " and " ++ Py.numeral remainderHours ++ " " ++ pluralize "hour" remainderHours
  else
    Py.numeral (truncate hours) ++ " hours".

(** The order of two positive normal floats, read on the exponents and the
    53-digit mantissas. *)
Definition normal_leb (x y : spec_float) : bool :=
  match x, y with
  | S754_finite false mx ex, S754_finite false my ey =>
      (Zpos (digits2_pos mx) =? 53) && (Zpos (digits2_pos my) =? 53)
      && ((ex <? ey) || ((ex =? ey) && (Zpos mx <=? Zpos my)))
  | _, _ => false
  end.

(** The number of tenths [round(p, 1)] keeps of a positive float [p]. *)
Definition tenths (p : float) : Z := Py.round_half_even (Py.F2Q p * inject_Z 10).

(** The float Python reads from the decimal [d / 10]. *)
Definition decimal (d : Z) : float := Py.of_decimal false (Z.to_pos d) 1.

(** The settings the rate tables allow: base hours, location, shipping
    method; and the product of the three rates. *)
Definition setting : Type := (Z * Spec.Location * Spec.ShippingMethod)%type.

Definition settings : list setting :=
  list_prod (list_prod base_hours Spec.all_locations) Spec.all_shippings.

Definition product (x : setting) : float :=
  let '(b, l, s) := x in
  (Py.of_int b * Spec.locationFactor l * Spec.shippingFactor s)%float.

(** No rate of [x] is above the corresponding rate of [y]. *)
Definition rates_leb (x y : setting) : bool :=
  let '(b1, l1, s1) := x in
  let '(b2, l2, s2) := y in
  (b1 <=? b2)
  && (Spec.locationFactor l1 <=? Spec.locationFactor l2)%float
  && (Spec.shippingFactor s1 <=? Spec.shippingFactor s2)%float.

(** Some rate of [x] is below the corresponding rate of [y]. *)
Definition rates_ltb (x y : setting) : bool :=
  let '(b1, l1, s1) := x in
  let '(b2, l2, s2) := y in
  (b1 <? b2)
  || (Spec.locationFactor l1 <? Spec.locationFactor l2)%float
  || (Spec.shippingFactor s1 <? Spec.shippingFactor s2)%float.

(** The products follow the rates. *)
Definition product_order_ok (x y : setting) : bool :=
  implb (rates_leb x y) (normal_leb (Prim2SF (product x)) (Prim2SF (product y))).

(** A lower rate outweighs the jitter: the slowest estimate of [x] is below
    the fastest of [y]. *)
Definition product_gap_ok (x y : setting) : bool :=
  implb (rates_leb x y && rates_ltb x y)
        (tenths (product x * 1.1) <? tenths (product y * 0.9)).

(** The tenths the estimator can return. *)
Definition decimals : list Z := map Z.of_nat (seq 52 1399).

(** The float of [d / 10] is below the float of [(d + 1) / 10]. *)
Definition decimal_step_ok (d : Z) : bool :=
  normal_leb (Prim2SF (decimal d)) (Prim2SF (decimal (d + 1)))
  && negb (normal_leb (Prim2SF (decimal (d + 1))) (Prim2SF (decimal d))).

(** The float of [d / 10] compares with 24 and with 72 as [d / 10] does. *)
Definition decimal_compare_ok (d : Z) : bool :=
  Bool.eqb (Py.gt (Py.Float (decimal d)) (Py.Int 72)) (720 <? d)
  && Bool.eqb (Py.lt (Py.Float (decimal d)) (Py.Int 24)) (d <? 240).

(** The formatter renders the float of [d / 10] as [d / 10] reads. *)
Definition decimal_text_ok (d : Z) : bool :=
  match hours_to_readable (Py.Float (decimal d)) with
  | inr s => (s =? readable_duration (d # 10))%string
  | inl _ => false
  end.

(** The tenths of every setting stay between 52 and 1441. *)
Definition product_range_ok (x : setting) : bool :=
  (52 <=? tenths (product x * 0.9)) && (tenths (product x * 1.1) <=? 1441).

(** What the duration rule can meet, by shipping method: at most 72 hours
    with Overnight and Express, at least 24 hours with Economy. *)
Definition product_shipping_ok (x : setting) : bool :=
  match snd x with
  | Spec.Overnight | Spec.Express => tenths (product x * 1.1) <=? 720
  | Spec.Standard => true
  | Spec.Economy => 240 <=? tenths (product x * 0.9)
  end.

(** ** Binary64 arithmetic

    Facts about the rounding performed by [SpecFloat]: the digits of a
    mantissa, the effect of the right shifts, and the shape of a product. *)

Lemma digits2_pos_size (p : positive) : digits2_pos p = Pos.size p.
Proof. induction p; simpl; congruence. Qed.

Lemma digits2_pos_bounds (p : positive) :
  2 ^ (Zpos (digits2_pos p) - 1) <= Zpos p < 2 ^ Zpos (digits2_pos p).
Proof.
  rewrite digits2_pos_size.
  pose proof (Pos.size_gt p) as Hgt.
  pose proof (Pos.size_le p) as Hle.
  apply Pos2Z.pos_lt_pos in Hgt.
  apply Pos2Z.pos_le_pos in Hle.
  rewrite Pos2Z.inj_pow in Hgt, Hle.
  split; [|exact Hgt].
  assert (E : 2 ^ Zpos (Pos.size p) = 2 * 2 ^ (Zpos (Pos.size p) - 1)).
  { rewrite <- Z.pow_succ_r by lia. f_equal. lia. }
  lia.
Qed.

Lemma digits2_pos_unique (p : positive) (d : Z) :
  2 ^ (d - 1) <= Zpos p < 2 ^ d -> Zpos (digits2_pos p) = d.
Proof.
  intros [Hlo Hhi].
  pose proof (digits2_pos_bounds p) as [Blo Bhi].
  set (n := Zpos (digits2_pos p)) in *.
  assert (Hn : 0 < n) by (unfold n; lia).
  destruct (Z.lt_trichotomy n d) as [Hlt | [Heq | Hgt]]; [exfalso | exact Heq | exfalso].
  - assert (2 ^ n <= 2 ^ (d - 1)) by (apply Z.pow_le_mono_r; lia). lia.
  - assert (0 <= d \/ d < 0) as [Hd | Hd] by lia.
    + assert (2 ^ d <= 2 ^ (n - 1)) by (apply Z.pow_le_mono_r; lia). lia.
    + rewrite (Z.pow_neg_r 2 d) in Hhi by lia. lia.
Qed.

Lemma iter_pos_nat {A : Type} (f : A -> A) (p : positive) (x : A) :
  iter_pos f p x = Nat.iter (Pos.to_nat p) f x.
Proof.
  revert x. induction p as [p IH | p IH | ]; intros x; cbn [iter_pos].
  - rewrite !IH, Pos2Nat.inj_xI.
    replace (S (2 * Pos.to_nat p)) with (Pos.to_nat p + (Pos.to_nat p + 1))%nat by lia.
    rewrite !Nat.iter_add. reflexivity.
  - rewrite !IH, Pos2Nat.inj_xO.
    replace (2 * Pos.to_nat p)%nat with (Pos.to_nat p + Pos.to_nat p)%nat by lia.
    rewrite Nat.iter_add. reflexivity.
  - reflexivity.
Qed.

Lemma shr_1_nonneg (m : Z) (r s : bool) :
  0 <= m ->
  shr_1 {| shr_m := m; shr_r := r; shr_s := s |} =
  {| shr_m := m / 2; shr_r := Z.odd m; shr_s := r || s |}.
Proof.
  intros Hm. destruct m as [ | [p | p | ] | p ]; try lia; simpl shr_1.
  - reflexivity.
  - f_equal. apply Z.div_unique with (r := 1); lia.
  - f_equal. apply Z.div_unique with (r := 0); lia.
  - reflexivity.
Qed.

Lemma mod_pow2_succ (m : Z) (n : Z) :
  0 <= n ->
  m mod 2 ^ (n + 1) = m mod 2 ^ n + 2 ^ n * Z.b2z (Z.testbit m n).
Proof.
  intros Hn.
  rewrite Z.pow_add_r, Z.pow_1_r by lia.
  rewrite Z.rem_mul_r by lia.
  rewrite Z.testbit_spec' by lia. reflexivity.
Qed.

Lemma iter_shr_1 (m : Z) (n : nat) :
  0 <= m ->
  Nat.iter n shr_1 {| shr_m := m; shr_r := false; shr_s := false |} = shr_state m n.
Proof.
  intros Hm. induction n as [ | n IH].
  - simpl. unfold shr_state. simpl. rewrite Z.div_1_r. reflexivity.
  - rewrite Nat.iter_succ, IH. unfold shr_state.
    rewrite shr_1_nonneg by (apply Z.div_pos; lia).
    f_equal.
    + rewrite Z.div_div by lia. rewrite Nat2Z.inj_succ, Z.pow_succ_r by lia.
      f_equal. lia.
    + rewrite <- Z.bit0_odd, Z.div_pow2_bits by lia. f_equal.
    + destruct n as [ | n'].
      * simpl. rewrite Z.mod_1_r. reflexivity.
      * rewrite (Nat2Z.inj_succ n'). unfold Z.succ.
        rewrite mod_pow2_succ by lia.
        pose proof (Z.mod_pos_bound m (2 ^ Z.of_nat n') ltac:(lia)).
        assert (0 < 2 ^ Z.of_nat n') by lia.
        destruct (Z.testbit m (Z.of_nat n')); simpl Z.b2z; simpl orb.
        -- symmetry. apply negb_true_iff. apply Z.eqb_neq. lia.
        -- f_equal. f_equal. lia.
Qed.

Lemma round_shr_state (m : Z) (n : nat) :
  0 <= m ->
  round_nearest_even (shr_m (shr_state m n)) (loc_of_shr_record (shr_state m n))
  = rne_shift m (Z.of_nat n).
Proof.
  intros Hm. unfold rne_shift. destruct n as [ | n'].
  - simpl. rewrite Z.mod_1_r. reflexivity.
  - unfold shr_state, shr_m, loc_of_shr_record.
    rewrite (Nat2Z.inj_succ n'). unfold Z.succ.
    rewrite mod_pow2_succ by lia.
    assert (Hp : 0 < 2 ^ Z.of_nat n') by lia.
    pose proof (Z.mod_pos_bound m (2 ^ Z.of_nat n') Hp) as Hb.
    rewrite (Z.pow_add_r 2 (Z.of_nat n') 1), Z.pow_1_r by lia.
    destruct (Z.testbit m (Z.of_nat n')); simpl Z.b2z.
    + destruct (Z.eqb_spec (m mod 2 ^ Z.of_nat n') 0) as [E | E]; simpl negb.
      * rewrite E. replace (2 * (0 + 2 ^ Z.of_nat n' * 1)) with (2 ^ Z.of_nat n' * 2) by lia.
        rewrite Z.compare_refl. reflexivity.
      * assert (C : (2 * (m mod 2 ^ Z.of_nat n' + 2 ^ Z.of_nat n' * 1) ?= 2 ^ Z.of_nat n' * 2) = Gt)
          by (apply Z.compare_gt_iff; lia).
        rewrite C. reflexivity.
    + assert (C : (2 * (m mod 2 ^ Z.of_nat n' + 2 ^ Z.of_nat n' * 0) ?= 2 ^ Z.of_nat n' * 2) = Lt)
        by (apply Z.compare_lt_iff; lia).
      rewrite C. destruct (negb _); reflexivity.
Qed.

Lemma shr_from_exact (m e k : Z) :
  0 <= m -> 0 <= k ->
  shr {| shr_m := m; shr_r := false; shr_s := false |} e k
  = (shr_state m (Z.to_nat k), e + k).
Proof.
  intros Hm Hk. destruct k as [ | p | p]; try lia.
  - simpl. unfold shr_state. simpl. rewrite Z.div_1_r, Z.add_0_r. reflexivity.
  - unfold shr. rewrite iter_pos_nat, iter_shr_1 by assumption.
    rewrite Z2Nat.inj_pos. reflexivity.
Qed.

Lemma rne_shift_bounds (m k : Z) :
  m / 2 ^ k <= rne_shift m k <= m / 2 ^ k + 1.
Proof.
  unfold rne_shift. destruct (_ ?= _); [destruct (Z.even _)| | ]; lia.
Qed.

Lemma rne_shift_exact (m k : Z) :
  0 <= k -> m mod 2 ^ k = 0 -> rne_shift m k = m / 2 ^ k.
Proof.
  intros Hk E. unfold rne_shift. rewrite E.
  assert (C : (2 * 0 ?= 2 ^ k) = Lt) by (apply Z.compare_lt_iff; lia).
  rewrite C. reflexivity.
Qed.

(** The quotient of a number of [k + 53] binary digits by [2 ^ k] has 53. *)
Lemma shifted_mantissa_bounds (m : positive) (k : Z) :
  0 <= k -> Zpos (digits2_pos m) = k + 53 ->
  2 ^ 52 <= Zpos m / 2 ^ k < 2 ^ 53.
Proof.
  intros Hk Hd. pose proof (digits2_pos_bounds m) as [Blo Bhi].
  rewrite Hd in Blo, Bhi.
  replace (k + 53 - 1) with (52 + k) in Blo by lia.
  replace (k + 53) with (53 + k) in Bhi by lia.
  rewrite Z.pow_add_r in Blo, Bhi by lia.
  assert (Hp : 0 < 2 ^ k) by lia.
  split.
  - apply Z.div_le_lower_bound; lia.
  - apply Z.div_lt_upper_bound; lia.
Qed.

(** Rounding an exactly known positive mantissa of at least 53 digits,
    away from the subnormal and overflow ranges. *)
Lemma binary_round_aux_pos (s : bool) (m : positive) (e k : Z) :
  Zpos (digits2_pos m) = k + 53 -> 0 <= k ->
  -1074 <= e + k -> e + k + 1 <= 971 ->
  exists (m' : positive) (e' : Z),
    binary_round_aux prec emax s (Zpos m) e loc_Exact = S754_finite s m' e'
    /\ Zpos (digits2_pos m') = 53
    /\ e + k <= e' <= e + k + 1
    /\ Zpos m' * 2 ^ (e' - (e + k)) = rne_shift (Zpos m) k.
Proof.
  intros Hd Hk Hlo Hhi.
  pose proof (shifted_mantissa_bounds m k Hk Hd) as Hq.
  pose proof (rne_shift_bounds (Zpos m) k) as Hr.
  unfold binary_round_aux, shr_fexp, fexp, emin. cbn [Zdigits2 shr_record_of_loc].
  rewrite Hd. change prec with 53. change emax with 1024.
  replace (Z.max (k + 53 + e - 53) (3 - 1024 - 53) - e) with k by lia.
  rewrite shr_from_exact by lia.
  rewrite round_shr_state by lia.
  rewrite Z2Nat.id by lia.
  set (m1 := rne_shift (Zpos m) k) in *.
  destruct m1 as [ | m1p | m1p] eqn:Em1; try lia.
  assert (Hcases : Zpos m1p < 2 ^ 53 \/ Zpos m1p = 2 ^ 53) by lia.
  destruct Hcases as [Hlt | Heq].
  - assert (D1 : Zpos (digits2_pos m1p) = 53)
      by (apply digits2_pos_unique; change (53 - 1) with 52; lia).
    cbn [Zdigits2]. rewrite D1.
    replace (Z.max (53 + (e + k) - 53) (3 - 1024 - 53) - (e + k)) with 0 by lia.
    cbn [shr shr_m].
    assert (L : (e + k <=? 1024 - 53) = true) by (apply Z.leb_le; lia).
    rewrite L.
    exists m1p, (e + k). repeat split; try lia.
    rewrite Z.sub_diag. simpl. lia.
  - assert (D1 : Zpos (digits2_pos m1p) = 54).
    { apply digits2_pos_unique. rewrite Heq. change (54 - 1) with 53.
      split; [lia | apply Z.pow_lt_mono_r; lia]. }
    cbn [Zdigits2]. rewrite D1.
    replace (Z.max (54 + (e + k) - 53) (3 - 1024 - 53) - (e + k)) with 1 by lia.
    rewrite shr_from_exact by lia.
    change (Z.to_nat 1) with 1%nat. unfold shr_state. cbn [shr_m].
    rewrite Heq. change (2 ^ 53 / 2 ^ Z.of_nat 1) with (Zpos (2 ^ 52)).
    assert (L : (e + k + 1 <=? 1024 - 53) = true) by (apply Z.leb_le; lia).
    rewrite L.
    exists (2 ^ 52)%positive, (e + k + 1).
    split; [reflexivity | ]. split; [reflexivity | ]. split; [lia | ].
    replace (e + k + 1 - (e + k)) with 1 by lia. reflexivity.
Qed.

Lemma rne_shift_mono (m1 m2 k : Z) :
  0 <= k -> m1 <= m2 -> rne_shift m1 k <= rne_shift m2 k.
Proof.
  intros Hk Hm.
  assert (Hp : 0 < 2 ^ k) by lia.
  pose proof (Z.div_le_mono m1 m2 (2 ^ k) Hp Hm) as Hq.
  pose proof (rne_shift_bounds m1 k) as B1.
  pose proof (rne_shift_bounds m2 k) as B2.
  assert (Hc : m1 / 2 ^ k < m2 / 2 ^ k \/ m1 / 2 ^ k = m2 / 2 ^ k) by lia.
  destruct Hc as [Hlt | Heq]; [lia | ].
  pose proof (Z.div_mod m1 (2 ^ k) ltac:(lia)) as D1.
  pose proof (Z.div_mod m2 (2 ^ k) ltac:(lia)) as D2.
  assert (Hr : m1 mod 2 ^ k <= m2 mod 2 ^ k) by nia.
  unfold rne_shift. rewrite Heq.
  destruct (Z.compare_spec (2 * (m1 mod 2 ^ k)) (2 ^ k));
    destruct (Z.compare_spec (2 * (m2 mod 2 ^ k)) (2 ^ k));
    try destruct (Z.even (m2 / 2 ^ k)); lia.
Qed.

Lemma rne_shift_double (m k : Z) :
  0 <= k -> rne_shift (2 * m) (k + 1) = rne_shift m k.
Proof.
  intros Hk. unfold rne_shift.
  assert (Hp : 0 < 2 ^ k) by lia.
  rewrite Z.pow_add_r, Z.pow_1_r by lia.
  rewrite (Z.mul_comm (2 ^ k) 2).
  rewrite Z.div_mul_cancel_l by lia.
  rewrite Z.mul_mod_distr_l by lia.
  destruct (Z.compare_spec (2 * (m mod 2 ^ k)) (2 ^ k));
    destruct (Z.compare_spec (2 * (2 * (m mod 2 ^ k))) (2 * 2 ^ k)); try lia; reflexivity.
Qed.

Lemma digits2_pos_mono (p q : positive) :
  (p <= q)%positive -> Zpos (digits2_pos p) <= Zpos (digits2_pos q).
Proof.
  intros Hpq.
  pose proof (digits2_pos_bounds p) as [Lp Hp].
  pose proof (digits2_pos_bounds q) as [Lq Hq].
  destruct (Z_le_gt_dec (Zpos (digits2_pos p)) (Zpos (digits2_pos q))) as [H | H]; [exact H | exfalso].
  assert (2 ^ Zpos (digits2_pos q) <= 2 ^ (Zpos (digits2_pos p) - 1))
    by (apply Z.pow_le_mono_r; lia).
  lia.
Qed.

Lemma round53_mono (p q : positive) :
  53 <= Zpos (digits2_pos p) -> (p <= q)%positive ->
  round53 (Zpos p) <= round53 (Zpos q).
Proof.
  intros Hd Hpq. unfold round53. cbn [Zdigits2].
  pose proof (digits2_pos_mono p q Hpq) as Hdm.
  set (dp := Zpos (digits2_pos p)) in *.
  set (dq := Zpos (digits2_pos q)) in *.
  assert (Hc : dp = dq \/ dp < dq) by lia.
  destruct Hc as [Heq | Hlt].
  - rewrite <- Heq. apply Z.mul_le_mono_nonneg_r; [lia | ].
    apply rne_shift_mono; lia.
  - pose proof (shifted_mantissa_bounds p (dp - 53) ltac:(lia) ltac:(unfold dp; lia)) as Bp.
    pose proof (shifted_mantissa_bounds q (dq - 53) ltac:(lia) ltac:(unfold dq; lia)) as Bq.
    pose proof (rne_shift_bounds (Zpos p) (dp - 53)) as Rp.
    pose proof (rne_shift_bounds (Zpos q) (dq - 53)) as Rq.
    assert (Hpow : 2 ^ (dq - 53) = 2 ^ (dq - dp - 1) * 2 * 2 ^ (dp - 53)).
    { rewrite <- (Z.pow_1_r 2) at 3. rewrite <- !Z.pow_add_r by lia. f_equal. lia. }
    assert (0 < 2 ^ (dp - 53)) by lia.
    assert (1 <= 2 ^ (dq - dp - 1)) by lia.
    rewrite Hpow.
    transitivity (2 ^ 53 * 2 ^ (dp - 53)); [nia | ].
    transitivity (2 ^ 52 * (2 ^ (dq - dp - 1) * 2 * 2 ^ (dp - 53))); [ | nia].
    change (2 ^ 53) with (2 ^ 52 * 2). nia.
Qed.

Lemma round53_double (p : positive) :
  53 <= Zpos (digits2_pos p) -> round53 (Zpos p~0) = 2 * round53 (Zpos p).
Proof.
  intros Hd. unfold round53. cbn [Zdigits2 digits2_pos].
  rewrite Pos2Z.inj_succ. unfold Z.succ.
  replace (Zpos (digits2_pos p) + 1 - 53) with (Zpos (digits2_pos p) - 53 + 1) by lia.
  change (Zpos p~0) with (2 * Zpos p).
  rewrite rne_shift_double by lia.
  rewrite Z.pow_add_r, Z.pow_1_r by lia. lia.
Qed.

Lemma digits2_pos_mul (p q : positive) :
  Zpos (digits2_pos p) = 53 -> Zpos (digits2_pos q) = 53 ->
  Zpos (digits2_pos (p * q)) = 105 \/ Zpos (digits2_pos (p * q)) = 106.
Proof.
  intros Hp Hq.
  pose proof (digits2_pos_bounds p) as [Lp Up]. rewrite Hp in Lp, Up.
  pose proof (digits2_pos_bounds q) as [Lq Uq]. rewrite Hq in Lq, Uq.
  change (53 - 1) with 52 in *.
  assert (Hlo : 2 ^ 104 <= Zpos (p * q)).
  { rewrite Pos2Z.inj_mul. change (2 ^ 104) with (2 ^ 52 * 2 ^ 52).
    apply Z.mul_le_mono_nonneg; lia. }
  assert (Hhi : Zpos (p * q) < 2 ^ 106).
  { rewrite Pos2Z.inj_mul. change (2 ^ 106) with (2 ^ 53 * 2 ^ 53).
    apply Z.mul_lt_mono_nonneg; lia. }
  destruct (Z_lt_le_dec (Zpos (p * q)) (2 ^ 105)) as [H | H].
  - left. apply digits2_pos_unique. change (105 - 1) with 104. lia.
  - right. apply digits2_pos_unique. change (106 - 1) with 105. lia.
Qed.

(** The product of two positive normal floats, away from underflow and
    overflow: a normal float whose mantissa is the product of the mantissas
    rounded to 53 bits. *)
Lemma SF64mul_pos (mx my : positive) (ex ey : Z) :
  Zpos (digits2_pos mx) = 53 -> Zpos (digits2_pos my) = 53 ->
  -1126 <= ex + ey <= 917 ->
  exists (m' : positive) (e' : Z),
    SF64mul (S754_finite false mx ex) (S754_finite false my ey) = S754_finite false m' e'
    /\ Zpos (digits2_pos m') = 53
    /\ ex + ey + 52 <= e' <= ex + ey + 54
    /\ Zpos m' * 2 ^ (e' - (ex + ey)) = round53 (Zpos mx * Zpos my).
Proof.
  intros Hx Hy He.
  unfold SF64mul, SFmul. cbn [xorb].
  pose proof (digits2_pos_mul mx my Hx Hy) as Hd.
  set (k := Zpos (digits2_pos (mx * my)) - 53).
  destruct (binary_round_aux_pos false (mx * my) (ex + ey) k) as (m' & e' & E & D & B & V);
    try (unfold k; lia).
  exists m', e'. split; [exact E | ]. split; [exact D | ]. split; [unfold k in B; lia | ].
  unfold round53. rewrite <- Pos2Z.inj_mul. cbn [Zdigits2]. fold k.
  rewrite <- V.
  rewrite <- Z.mul_assoc, <- Z.pow_add_r by (unfold k in *; lia).
  f_equal. f_equal. lia.
Qed.

Lemma Prim2SF_jitter_lo : Prim2SF 0.9 = S754_finite false jitter_lo (-53).
Proof. vm_compute. reflexivity. Qed.

Lemma Prim2SF_jitter_hi : Prim2SF 1.1 = S754_finite false jitter_hi (-52).
Proof. vm_compute. reflexivity. Qed.

(** A valid finite float is canonical: a 53-digit mantissa, or the least
    exponent with a shorter one. *)
Lemma Prim2SF_finite_canonical (x : float) (s : bool) (m : positive) (e : Z) :
  Prim2SF x = S754_finite s m e ->
  -1074 <= e <= 971 /\
  (Zpos (digits2_pos m) = 53 \/ (e = -1074 /\ Zpos (digits2_pos m) < 53)).
Proof.
  intros Hx. pose proof (Prim2SF_valid x) as Hv. rewrite Hx in Hv.
  unfold SpecFloat.valid_binary, bounded, canonical_mantissa, fexp, emin in Hv.
  change prec with 53 in Hv. change emax with 1024 in Hv.
  apply andb_true_iff in Hv. destruct Hv as [Hc Hb].
  apply Z.eqb_eq in Hc. apply Z.leb_le in Hb. lia.
Qed.

Lemma jitter_ok_inv (j : float) :
  Spec.jitter_ok j ->
  exists (mj : positive) (ej : Z),
    Prim2SF j = S754_finite false mj ej
    /\ Zpos (digits2_pos mj) = 53
    /\ ((ej = -53 /\ (jitter_lo <= mj)%positive) \/ (ej = -52 /\ (mj <= jitter_hi)%positive)).
Proof.
  intros [Hlo Hhi].
  rewrite leb_spec, Prim2SF_jitter_lo in Hlo.
  rewrite leb_spec, Prim2SF_jitter_hi in Hhi.
  destruct (Prim2SF j) as [s | s | | s m e] eqn:Hj; try discriminate.
  - destruct s; discriminate.
  - unfold SFleb, SFcompare in Hlo, Hhi.
    destruct s; [discriminate | ].
    destruct (Prim2SF_finite_canonical j false m e Hj) as [Hr Hc].
    exists m, e. split; [reflexivity | ].
    destruct (Z.compare_spec (-53) e) as [E1 | E1 | E1]; try discriminate;
    destruct (Z.compare_spec e (-52)) as [E2 | E2 | E2]; try discriminate;
      try (exfalso; clear Hlo Hhi; lia).
    + subst e. split; [clear Hlo Hhi; lia | ]. left. split; [reflexivity | ].
      unfold Pos.le. change (Pos.compare jitter_lo m) with (Pos.compare_cont Eq jitter_lo m).
      destruct (Pos.compare_cont Eq jitter_lo m); discriminate.
    + subst e. split; [clear Hlo Hhi; lia | ]. right. split; [reflexivity | ].
      unfold Pos.le. change (Pos.compare m jitter_hi) with (Pos.compare_cont Eq m jitter_hi).
      destruct (Pos.compare_cont Eq m jitter_hi); discriminate.
Qed.

(** Multiplying a positive normal float [c = mc * 2^ec] by a float [j]
    lying between [lo * 2^-53] and [hi * 2^-52]: the product is a normal
    float between the roundings of the products by the two bounds, here
    scaled by [2^(53 - ec)]. *)
Lemma SF64mul_between (mc mj lo hi : positive) (ec ej : Z) :
  Zpos (digits2_pos mc) = 53 -> Zpos (digits2_pos mj) = 53 ->
  Zpos (digits2_pos lo) = 53 -> Zpos (digits2_pos hi) = 53 ->
  -1000 <= ec <= 900 ->
  (ej = -53 /\ (lo <= mj)%positive) \/ (ej = -52 /\ (mj <= hi)%positive) ->
  exists (m' : positive) (e' : Z),
    SF64mul (S754_finite false mc ec) (S754_finite false mj ej) = S754_finite false m' e'
    /\ Zpos (digits2_pos m') = 53
    /\ ec - 1 <= e' <= ec + 2
    /\ round53 (Zpos (mc * lo)) <= Zpos m' * 2 ^ (e' - (ec - 53))
       <= round53 (Zpos (mc * hi)~0).
Proof.
  intros Hd Dj Dlo Dhi He Cj.
  destruct (SF64mul_pos mc mj ec ej Hd Dj) as (m' & e' & E & D & B & V);
    [destruct Cj as [[-> _] | [-> _]]; lia | ].
  exists m', e'. split; [exact E | ]. split; [exact D | ].
  pose proof (digits2_pos_bounds mj) as [Lj Uj]. rewrite Dj in Lj, Uj.
  pose proof (digits2_pos_bounds lo) as [Llo Ulo]. rewrite Dlo in Llo, Ulo.
  pose proof (digits2_pos_bounds hi) as [Lhi Uhi]. rewrite Dhi in Lhi, Uhi.
  change (53 - 1) with 52 in *.
  assert (E53 : 2 ^ 53 = 2 * 2 ^ 52) by reflexivity.
  generalize dependent (2 ^ 53). generalize dependent (2 ^ 52). intros P52 Lj Llo Lhi P53 Uj Ulo Uhi E53.
  assert (D1 : 53 <= Zpos (digits2_pos (mc * lo))).
  { destruct (digits2_pos_mul mc lo Hd Dlo); lia. }
  assert (Dmj : 53 <= Zpos (digits2_pos (mc * mj))).
  { destruct (digits2_pos_mul mc mj Hd Dj); lia. }
  assert (D2 : 53 <= Zpos (digits2_pos (mc * hi))).
  { destruct (digits2_pos_mul mc hi Hd Dhi); lia. }
  rewrite <- Pos2Z.inj_mul in V.
  destruct Cj as [[-> Hm] | [-> Hm]].
  - split; [lia | ].
    replace (e' - (ec - 53)) with (e' - (ec + -53)) by lia. rewrite V.
    split.
    + apply round53_mono; [exact D1 | ].
      apply Pos.mul_le_mono_l. exact Hm.
    + apply round53_mono; [exact Dmj | ].
      change (Zpos (mc * mj) <= 2 * Zpos (mc * hi)).
      rewrite !Pos2Z.inj_mul.
      assert (Zpos mj <= 2 * Zpos hi) by lia.
      rewrite Z.mul_assoc, (Z.mul_comm 2), <- Z.mul_assoc.
      apply Z.mul_le_mono_nonneg_l; lia.
  - split; [lia | ].
    replace (e' - (ec - 53)) with (e' - (ec + -52) + 1) by lia.
    rewrite Z.pow_add_r, Z.pow_1_r by lia.
    rewrite Z.mul_assoc, V.
    rewrite Z.mul_comm, <- round53_double by exact Dmj.
    split.
    + apply round53_mono; [exact D1 | ].
      change (Zpos (mc * lo) <= 2 * Zpos (mc * mj)).
      rewrite !Pos2Z.inj_mul.
      assert (Zpos lo <= 2 * Zpos mj) by lia.
      rewrite Z.mul_assoc, (Z.mul_comm 2), <- Z.mul_assoc.
      apply Z.mul_le_mono_nonneg_l; lia.
    + apply round53_mono; [cbn [digits2_pos]; lia | ].
      change (2 * Zpos (mc * mj) <= 2 * Zpos (mc * hi)).
      rewrite !Pos2Z.inj_mul.
      apply Pos2Z.pos_le_pos in Hm.
      apply Z.mul_le_mono_nonneg_l; [lia | ].
      apply Z.mul_le_mono_nonneg_l; lia.
Qed.

Lemma mul_jitter (c j : float) (mc : positive) (ec : Z) :
  Prim2SF c = S754_finite false mc ec ->
  Zpos (digits2_pos mc) = 53 -> -1000 <= ec <= 900 ->
  Spec.jitter_ok j ->
  exists (m' : positive) (e' : Z),
    Prim2SF (c * j) = S754_finite false m' e'
    /\ Zpos (digits2_pos m') = 53
    /\ ec - 1 <= e' <= ec + 2
    /\ round53 (Zpos (mc * jitter_lo)) <= Zpos m' * 2 ^ (e' - (ec - 53))
       <= round53 (Zpos (mc * jitter_hi)~0).
Proof.
  intros Hc Hd He Hj.
  destruct (jitter_ok_inv j Hj) as (mj & ej & Ej & Dj & Cj).
  rewrite mul_spec, Hc, Ej.
  apply SF64mul_between; try assumption; reflexivity.
Qed.
(** The value of a positive float, over the denominator [2 ^ (- E)]. *)
Lemma SF2Q_scaled (m : positive) (e E : Z) :
  E < 0 -> E <= e ->
  (Py.SF2Q (S754_finite false m e) == Qmake (Zpos m * 2 ^ (e - E)) (Z.to_pos (2 ^ (- E))))%Q.
Proof.
  intros HE He.
  assert (Hp : 0 < 2 ^ (- E)) by (apply Z.pow_pos_nonneg; lia).
  assert (Hs : 2 ^ (- E) = 2 ^ (e - E) * 2 ^ (- e) \/ 0 <= e).
  { destruct (Z_lt_le_dec e 0); [left | right; assumption].
    rewrite <- Z.pow_add_r by lia. f_equal; lia. }
  unfold Py.SF2Q, Qeq. cbn [cond_Zopp Qnum Qden inject_Z].
  rewrite Z2Pos.id by exact Hp.
  destruct e as [ | p | p].
  - rewrite Z.pow_0_r. cbn [Qnum Qden inject_Z]. replace (0 - E) with (- E) by lia. lia.
  - cbn [Qnum Qden inject_Z].
    assert (H : 2 ^ (Zpos p - E) = 2 ^ Zpos p * 2 ^ (- E)).
    { rewrite <- Z.pow_add_r by lia. f_equal; lia. }
    rewrite H. ring.
  - cbn [Qnum Qden]. rewrite Pos2Z.inj_pow.
    destruct Hs as [Hs | Hs]; [ | lia].
    rewrite Hs. change (- Zneg p) with (Zpos p). lia.
Qed.

Lemma round_half_even_bounds (q : Q) :
  Qfloor q <= Py.round_half_even q <= Qfloor q + 1.
Proof.
  unfold Py.round_half_even. destruct (Qcompare _ _); [destruct (Z.even _) | | ]; lia.
Qed.

Lemma round_half_even_mono (q1 q2 : Q) :
  (q1 <= q2)%Q -> Py.round_half_even q1 <= Py.round_half_even q2.
Proof.
  intros Hq.
  pose proof (Qfloor_resp_le q1 q2 Hq) as Hf.
  pose proof (round_half_even_bounds q1) as B1.
  pose proof (round_half_even_bounds q2) as B2.
  assert (Hc : Qfloor q1 < Qfloor q2 \/ Qfloor q1 = Qfloor q2) by lia.
  destruct Hc as [Hlt | Heq]; [lia | ].
  unfold Py.round_half_even. rewrite <- Heq.
  assert (Hd : (q1 - inject_Z (Qfloor q1) <= q2 - inject_Z (Qfloor q1))%Q).
  { apply Qplus_le_l. exact Hq. }
  assert (A : forall a b : Q, (a <= b)%Q -> (1 # 2 < a)%Q -> (b <= 1 # 2)%Q -> False).
  { intros a b H1 H2 H3. apply (Qlt_irrefl (1 # 2)).
    eapply Qlt_le_trans; [exact H2 | ]. eapply Qle_trans; eassumption. }
  assert (B : forall a b : Q, (a <= b)%Q -> (1 # 2 <= a)%Q -> (b < 1 # 2)%Q -> False).
  { intros a b H1 H2 H3. apply (Qlt_irrefl (1 # 2)).
    eapply Qle_lt_trans; [exact H2 | ]. eapply Qle_lt_trans; eassumption. }
  destruct (Qcompare_spec (q1 - inject_Z (Qfloor q1)) (1 # 2)) as [E1 | L1 | G1];
    destruct (Qcompare_spec (q2 - inject_Z (Qfloor q1)) (1 # 2)) as [E2 | L2 | G2];
    try destruct (Z.even (Qfloor q1)); try lia; exfalso;
    first [ eapply A; [exact Hd | exact G1 | rewrite E2; apply Qle_refl]
          | eapply A; [exact Hd | exact G1 | apply Qlt_le_weak; exact L2]
          | eapply B; [exact Hd | rewrite E1; apply Qle_refl | exact L2] ].
Qed.
Lemma product_ok_bounds (c j : float) :
  product_ok c = true -> Spec.jitter_ok j ->
  exists (m' : positive) (e' : Z),
    Prim2SF (c * j) = S754_finite false m' e'
    /\ (5184 # 1000 <= Py.SF2Q (S754_finite false m' e'))%Q
    /\ (Py.SF2Q (S754_finite false m' e') <= 145 # 1)%Q.
Proof.
  intros Hok Hj. unfold product_ok in Hok.
  destruct (Prim2SF c) as [ | | | [ | ] mc ec] eqn:Hc; try discriminate.
  repeat (apply andb_true_iff in Hok; destruct Hok as [Hok ?]).
  apply Z.eqb_eq in Hok.
  repeat match goal with H : (_ <=? _) = true |- _ => apply Z.leb_le in H end.
  destruct (mul_jitter c j mc ec Hc Hok ltac:(lia) Hj) as (m' & e' & E & D & B & V).
  exists m', e'. split; [exact E | ].
  assert (HE : ec - 53 < 0) by lia.
  pose proof (SF2Q_scaled m' e' (ec - 53) HE ltac:(lia)) as Hs.
  replace (- (ec - 53)) with (53 - ec) in Hs by lia.
  assert (Hp : 0 < 2 ^ (53 - ec)) by (apply Z.pow_pos_nonneg; lia).
  rewrite Hs. unfold Qle. cbn [Qnum Qden]. rewrite Z2Pos.id by exact Hp.
  split; lia.
Qed.

Lemma round_in_range (p : float) (m : positive) (e : Z) :
  Prim2SF p = S754_finite false m e ->
  (5184 # 1000 <= Py.SF2Q (S754_finite false m e))%Q ->
  (Py.SF2Q (S754_finite false m e) <= 145 # 1)%Q ->
  exists d : positive, 52 <= Zpos d <= 1450 /\ Py.round p 1 = Py.of_decimal false d 1.
Proof.
  intros Hp Hlo Hhi. unfold Py.round. rewrite Hp.
  set (q := Py.SF2Q (S754_finite false m e)) in *.
  assert (H10 : (0 <= inject_Z (10 ^ Z.of_N 1))%Q) by (vm_compute; discriminate).
  pose proof (round_half_even_mono _ _ (Qmult_le_compat_r _ _ _ Hlo H10)) as L.
  pose proof (round_half_even_mono _ _ (Qmult_le_compat_r _ _ _ Hhi H10)) as U.
  change (Py.round_half_even ((5184 # 1000) * inject_Z (10 ^ Z.of_N 1))) with 52 in L.
  change (Py.round_half_even ((145 # 1) * inject_Z (10 ^ Z.of_N 1))) with 1450 in U.
  destruct (Py.round_half_even (q * inject_Z (10 ^ Z.of_N 1))) as [ | d | d]; try lia.
  exists d. split; [lia | reflexivity].
Qed.

Lemma decimal_ok_all :
  forallb decimal_ok (map Pos.of_nat (seq 52 1399)) = true.
Proof. vm_compute. reflexivity. Qed.

Lemma decimal_ok_range (d : positive) :
  52 <= Zpos d <= 1450 -> decimal_ok d = true.
Proof.
  intros Hd. pose proof decimal_ok_all as H.
  rewrite forallb_forall in H. apply H.
  rewrite <- (Pos2Nat.id d). apply in_map. apply in_seq. lia.
Qed.

(** ** The rate tables against the specification *)

Lemma category_times_get (category : string) :
  dict_get category_times category 48 = Spec.categoryHours category.
Proof.
  unfold Spec.categoryHours, Spec.category_of, dict_get.
  cbn [category_times create_prediction_model fst snd dict_lookup
       Spec.all_categories find Spec.category_name].
  repeat (destruct (String.eqb category _); [reflexivity | ]).
  reflexivity.
Qed.

Lemma categoryHours_valid (c : Spec.Category) :
  Spec.categoryHours (Spec.category_name c) = Spec.base c.
Proof. destruct c; reflexivity. Qed.

Lemma categoryHours_cases (category : string) :
  In (Spec.categoryHours category) base_hours.
Proof.
  unfold Spec.categoryHours, Spec.category_of.
  cbn [Spec.all_categories find Spec.category_name].
  repeat (destruct (String.eqb category _); [cbn; tauto | ]).
  cbn; tauto.
Qed.

Lemma location_multipliers_lookup (l : Spec.Location) :
  dict_lookup location_multipliers (Spec.location_name l) = Some (Spec.locationFactor l).
Proof. destruct l; reflexivity. Qed.

Lemma shipping_multipliers_lookup (s : Spec.ShippingMethod) :
  dict_lookup shipping_multipliers (Spec.shipping_name s) = Some (Spec.shippingFactor s).
Proof. destruct s; reflexivity. Qed.

Lemma dict_lookup_none {V : Type} (d : dict V) (k : string) :
  ~ In k (map fst d) -> dict_lookup d k = None.
Proof.
  induction d as [ | [k' v] d IH]; intros Hk; [reflexivity | ].
  cbn [dict_lookup]. destruct (String.eqb_spec k k') as [-> | Hne].
  - exfalso. apply Hk. left. reflexivity.
  - apply IH. intros Hin. apply Hk. right. exact Hin.
Qed.

Lemma dict_lookup_some {V : Type} (d : dict V) (k : string) :
  In k (map fst d) -> exists v, dict_lookup d k = Some v.
Proof.
  induction d as [ | [k' v] d IH]; intros Hk; [destruct Hk | ].
  cbn [dict_lookup]. destruct (String.eqb_spec k k') as [-> | Hne].
  - exists v. reflexivity.
  - apply IH. destruct Hk as [Hk | Hk]; [cbn in Hk; congruence | exact Hk].
Qed.

(** The estimator, unfolded along its three lookups. *)
Lemma predict_delivery_time_unfold (category location shipping : string) (g : rng) :
  predict_delivery_time category location shipping g =
  match dict_lookup location_multipliers location with
  | None => (inl (Py.KeyError location), g)
  | Some lf =>
      match dict_lookup shipping_multipliers shipping with
      | None => (inl (Py.KeyError shipping), g)
      | Some sf =>
          (inr (Py.max (Py.Int 2)
                  (Py.Float (Py.round (Py.of_int (Spec.categoryHours category)
                                       * lf * sf * g 0%nat) 1))),
           rng_tail g)
      end
  end.
Proof.
  rewrite <- category_times_get.
  unfold predict_delivery_time, category_times, location_multipliers, shipping_multipliers.
  cbn [create_prediction_model fst snd].
  unfold bind, dict_getitem.
  destruct (dict_lookup _ location) as [lf | ]; [ | reflexivity].
  cbn [ret].
  destruct (dict_lookup _ shipping) as [sf | ]; reflexivity.
Qed.

Lemma product_ok_all (b : Z) (l : Spec.Location) (s : Spec.ShippingMethod) :
  In b base_hours ->
  product_ok (Py.of_int b * Spec.locationFactor l * Spec.shippingFactor s) = true.
Proof.
  intros Hb. cbn [base_hours In] in Hb.
  destruct Hb as [<- | [<- | [<- | [<- | []]]]]; destruct l, s; vm_compute; reflexivity.
Qed.

(** The estimator on a location and a shipping method of the enumerations,
    with a jitter in its interval: the clamp is not reached. *)
Lemma predict_delivery_time_valid
    (category : string) (l : Spec.Location) (s : Spec.ShippingMethod) (g : rng) :
  Spec.jitter_ok (g 0%nat) ->
  let p := Spec.predicted (Spec.categoryHours category) l s (g 0%nat) in
  predict_delivery_time category (Spec.location_name l) (Spec.shipping_name s) g
    = (inr (Py.Float (Py.round p 1)), rng_tail g)
  /\ (5184 # 1000 <= Py.F2Q p)%Q
  /\ (2 <? Py.round p 1)%float = true
  /\ (52 # 10 <= Py.F2Q (Py.round p 1))%Q.
Proof.
  intros Hj p.
  rewrite predict_delivery_time_unfold,
    location_multipliers_lookup, shipping_multipliers_lookup.
  fold (Spec.predicted (Spec.categoryHours category) l s (g 0%nat)). fold p.
  pose proof (product_ok_all _ l s (categoryHours_cases category)) as Hok.
  destruct (product_ok_bounds _ _ Hok Hj) as (m' & e' & E & Lo & Hi).
  fold (Spec.predicted (Spec.categoryHours category) l s (g 0%nat)) in E. fold p in E.
  destruct (round_in_range p m' e' E Lo Hi) as (d & Hd & Hr).
  pose proof (decimal_ok_range d Hd) as Hdec.
  unfold decimal_ok in Hdec.
  apply andb_true_iff in Hdec. destruct Hdec as [Hdec H3].
  apply andb_true_iff in Hdec. destruct Hdec as [H1 H2].
  rewrite Hr. unfold Py.max. rewrite H1.
  split; [reflexivity | ]. split; [unfold Py.F2Q; rewrite E; exact Lo | ].
  split; [exact H2 | ]. apply Qle_bool_iff. exact H3.
Qed.

Lemma Qcompare_Gt_lt (x y : Q) : (x ?= y)%Q = Gt -> (y < x)%Q.
Proof. intros H. apply Qgt_alt. exact H. Qed.

(** A float above the integer 2 is above the float 2.0. *)
Lemma gt_Int_2_ge_Float_2 (r : float) :
  Py.gt (Py.Float r) (Py.Int 2) = true -> Py.ge (Py.Float r) (Py.Float 2) = true.
Proof.
  unfold Py.gt, Py.ge, Py.compare, Py.SFcompare_Z.
  replace (Prim2SF 2) with (S754_finite false 4503599627370496 (-51))
    by (vm_compute; reflexivity).
  destruct (Prim2SF r) as [s | s | | s m e] eqn:Hr; try discriminate.
  - destruct s; intros H; [discriminate | reflexivity].
  - destruct (Py.SF2Q (S754_finite s m e) ?= inject_Z 2)%Q eqn:Hc; try discriminate.
    intros _. apply Qcompare_Gt_lt in Hc.
    destruct (Prim2SF_finite_canonical r s m e Hr) as [Hrange Hcan].
    pose proof (digits2_pos_bounds m) as [Lm Um].
    assert (Um' : Zpos m < 2 ^ 53).
    { eapply Z.lt_le_trans; [exact Um | ]. apply Z.pow_le_mono_r; lia. }
    clear Hr. destruct s.
    + exfalso. unfold Py.SF2Q, Qlt in Hc. cbn [cond_Zopp] in Hc.
      destruct e as [ | p | p]; cbn [Qnum Qden inject_Z] in Hc;
        try (assert (0 < 2 ^ Zpos p) by (apply Z.pow_pos_nonneg; lia)); nia.
    + unfold SFcompare.
      destruct (Z.compare_spec e (-51)) as [E | E | E]; [ | exfalso | reflexivity].
      * subst e. destruct Hcan as [Hd | [Hd _]]; [ | lia].
        rewrite Hd in Lm. change (2 ^ (53 - 1)) with 4503599627370496 in Lm.
        rewrite Pos.compare_cont_spec.
        destruct (Pos.compare_spec m 4503599627370496) as [Hc2 | Hc2 | Hc2];
          try reflexivity.
        exfalso. apply Pos2Z.pos_lt_pos in Hc2. clear - Hc2 Lm. lia.
      * destruct e as [ | p | p]; try lia.
        unfold Py.SF2Q, Qlt in Hc. cbn [cond_Zopp Qnum Qden inject_Z] in Hc.
        rewrite Pos2Z.inj_pow in Hc.
        assert (H52 : 2 ^ 52 <= 2 ^ Zpos p) by (apply Z.pow_le_mono_r; lia).
        change (2 ^ 53) with (2 * 2 ^ 52) in Um'.
        clear - Hc H52 Um'. lia.
Qed.

Lemma predict_delivery_time_ge_2
    (category : string) (l : Spec.Location) (s : Spec.ShippingMethod) (g : rng) :
  exists v : Py.num,
    predict_delivery_time category (Spec.location_name l) (Spec.shipping_name s) g
      = (inr v, rng_tail g)
    /\ Py.ge v (Py.Float 2) = true.
Proof.
  rewrite predict_delivery_time_unfold,
    location_multipliers_lookup, shipping_multipliers_lookup.
  eexists. split; [reflexivity | ].
  unfold Py.max.
  destruct (Py.gt (Py.Float _) (Py.Int 2)) eqn:Hgt.
  - apply gt_Int_2_ge_Float_2. exact Hgt.
  - vm_compute. reflexivity.
Qed.


Lemma categoryHours_unknown (category : string) :
  ~ Spec.valid_category category -> Spec.categoryHours category = Spec.default_base.
Proof.
  intros Hn. unfold Spec.categoryHours, Spec.category_of.
  cbn [Spec.all_categories find Spec.category_name].
  unfold Spec.valid_category in Hn.
  cbn [Spec.all_categories map Spec.category_name In] in Hn.
  repeat match goal with
         | |- context [String.eqb category ?k] =>
             destruct (String.eqb_spec category k) as [E | _];
               [exfalso; apply Hn; rewrite E; tauto | ]
         end.
  reflexivity.
Qed.


(** Comparing a number with two integers: below the smaller one excludes
    above the larger one. *)
Lemma SFcompare_Z_Lt_Gt (x : spec_float) (a b : Z) :
  a <= b -> Py.SFcompare_Z x a = Some Lt -> Py.SFcompare_Z x b = Some Gt -> False.
Proof.
  intros Hab. unfold Py.SFcompare_Z.
  destruct x as [s | s | | s m e]; try discriminate.
  - intros HA HB.
    assert (HA' : (0 ?= a) = Lt) by congruence.
    assert (HB' : (0 ?= b) = Gt) by congruence.
    change (0 < a) in HA'. apply Z.compare_gt_iff in HB'. lia.
  - destruct s; discriminate.
  - intros HA' HB'.
    assert (HA : (Py.SF2Q (S754_finite s m e) ?= inject_Z a)%Q = Lt) by congruence.
    assert (HB : (Py.SF2Q (S754_finite s m e) ?= inject_Z b)%Q = Gt) by congruence.
    apply Qlt_alt in HA. apply Qgt_alt in HB.
    apply (Qlt_irrefl (inject_Z a)).
    eapply Qle_lt_trans; [ | exact HA].
    eapply Qle_trans; [ | apply Qlt_le_weak; exact HB].
    rewrite <- Zle_Qle. exact Hab.
Qed.

Lemma lt_gt_exclusive (h : Py.num) (a b : Z) :
  a <= b -> Py.lt h (Py.Int a) = true -> Py.gt h (Py.Int b) = false.
Proof.
  intros Hab. unfold Py.lt, Py.gt. destruct h as [z | f]; cbn [Py.compare].
  - destruct (Z.compare_spec z a); try discriminate. intros _.
    destruct (Z.compare_spec z b); try reflexivity. lia.
  - destruct (Py.SFcompare_Z (Prim2SF f) a) as [[ | | ] | ] eqn:HA; try discriminate.
    intros _.
    destruct (Py.SFcompare_Z (Prim2SF f) b) as [[ | | ] | ] eqn:HB; try reflexivity.
    exfalso. exact (SFcompare_Z_Lt_Gt _ a b Hab HA HB).
Qed.


(** ** The synthesizer loop *)

Lemma rng_drop_drop (a b : nat) (g : rng) :
  rng_drop a (rng_drop b g) = rng_drop (b + a) g.
Proof. unfold rng_drop. rewrite Nat.add_comm. symmetry. apply Nat.iter_add. Qed.

Lemma for_each_append {A R : Type} (xs : list A) (body : A -> list R -> M (list R))
    (out : A -> rng -> list R) (cost : nat) :
  (forall x data g, In x xs ->
     body x data g = (inr (data ++ out x g)%list, rng_drop cost g)) ->
  forall data g,
    for_each xs body data g
    = (inr (data ++ outs xs out cost g)%list, rng_drop (length xs * cost) g).
Proof.
  induction xs as [ | x xs IH]; intros Hbody data g.
  - cbn. rewrite app_nil_r. reflexivity.
  - cbn [for_each]. unfold bind. rewrite Hbody by (left; reflexivity).
    rewrite IH by (intros; apply Hbody; right; assumption).
    cbn [outs length Nat.mul]. rewrite app_assoc, rng_drop_drop. reflexivity.
Qed.

Lemma predict_delivery_time_estimate (category location shipping : string) (g : rng) :
  In location locations -> In shipping shipping_methods ->
  predict_delivery_time category location shipping g
  = (inr (estimate category location shipping g), rng_tail g).
Proof.
  intros Hl Hs. unfold estimate. rewrite predict_delivery_time_unfold.
  destruct (dict_lookup_some location_multipliers location Hl) as (lf & ->).
  destruct (dict_lookup_some shipping_multipliers shipping) as (sf & ->).
  - cbn in Hs |- *. tauto.
  - reflexivity.
Qed.

Lemma generate_sample_data_rows (g : rng) :
  generate_sample_data g = (inr (expected_rows g), rng_drop 84 g).
Proof.
  unfold generate_sample_data.
  rewrite (for_each_append categories _
             (fun category g =>
                outs locations (fun location g =>
                  outs shipping_methods (fun shipping g =>
                    [ {| Product_Category := category;
                         Location := location;
                         Shipping_Method := shipping;
                         Delivery_Time_Hours := estimate category location shipping g |} ])
                  1 g)
                4 g)
             12).
  - reflexivity.
  - intros category data g0 _.
    apply (for_each_append locations _ _ 4).
    intros location data1 g1 Hl.
    apply (for_each_append shipping_methods _ _ 1).
    intros shipping data2 g2 Hs.
    unfold bind. rewrite predict_delivery_time_estimate by assumption.
    reflexivity.
Qed.

Lemma expected_rows_keys (g : rng) : map row_key (expected_rows g) = combinations.
Proof. reflexivity. Qed.

Lemma combinations_NoDup : NoDup combinations.
Proof.
  assert (H : nodup key_eq_dec combinations = combinations) by (vm_compute; reflexivity).
  rewrite <- H. apply NoDup_nodup.
Qed.

Lemma combinations_complete (c : Spec.Category) (l : Spec.Location) (s : Spec.ShippingMethod) :
  count_occ key_eq_dec combinations
    (Spec.category_name c, Spec.location_name l, Spec.shipping_name s) = 1%nat.
Proof. destruct c, l, s; vm_compute; reflexivity. Qed.

Lemma expected_rows_nth (g : rng) (i : nat) (r : row) :
  nth_error (expected_rows g) i = Some r ->
  exists category location shipping : string,
    nth_error combinations i = Some (category, location, shipping)
    /\ r = {| Product_Category := category;
              Location := location;
              Shipping_Method := shipping;
              Delivery_Time_Hours := estimate category location shipping (rng_drop i g) |}.
Proof.
  unfold expected_rows. intros H.
  rewrite nth_error_map in H.
  destruct (nth_error (combine _ _) i) as [[j [[category location] shipping]] | ] eqn:Hc;
    [ | discriminate].
  injection H as <-.
  assert (Hj : nth_error (seq 0 (length combinations)) i = Some j
               /\ nth_error combinations i = Some (category, location, shipping)).
  { clear - Hc. revert Hc. generalize 0%nat at 1 2 as a.
    generalize combinations as cs. intros cs. revert i.
    induction cs as [ | k cs IH]; intros i a Hc.
    - destruct i; discriminate.
    - destruct i as [ | i]; cbn in Hc |- *.
      + injection Hc as <- <-. split; reflexivity.
      + apply (IH i (S a)). exact Hc. }
  destruct Hj as [Hj Hk].
  assert (i < length combinations)%nat by (apply nth_error_Some; congruence).
  rewrite nth_error_seq in Hj.
  destruct (Nat.ltb_spec i (length combinations)); [ | lia].
  injection Hj as <-.
  exists category, location, shipping. split; [exact Hk | reflexivity].
Qed.

Lemma combinations_valid (category location shipping : string) :
  In (category, location, shipping) combinations ->
  In location locations /\ In shipping shipping_methods.
Proof.
  unfold combinations. intros H.
  apply in_flat_map in H. destruct H as (c & _ & H).
  apply in_flat_map in H. destruct H as (l & Hl & H).
  apply in_map_iff in H. destruct H as (s & E & Hs).
  injection E as <- <- <-. split; assumption.
Qed.


(** ** Exact roundings *)

Lemma iter_xO_value (m d : positive) : Zpos (Pos.iter xO m d) = Zpos m * 2 ^ Zpos d.
Proof.
  induction d as [ | d IH] using Pos.peano_ind.
  - cbn [Pos.iter]. rewrite Z.pow_1_r. lia.
  - rewrite Pos.iter_succ, Pos2Z.inj_xO, IH, Pos2Z.inj_succ, Z.pow_succ_r by lia. ring.
Qed.

(** Aligning a mantissa to a smaller or equal exponent keeps its value. *)
Lemma shl_align_value (m : positive) (e e' : Z) :
  e' <= e ->
  snd (shl_align m e e') = e' /\ Zpos (fst (shl_align m e e')) = Zpos m * 2 ^ (e - e').
Proof.
  intros He. unfold shl_align.
  destruct (e' - e) as [ | d | d] eqn:Hd; try lia.
  - assert (e = e') by lia. subst e'. cbn [fst snd]. rewrite Z.sub_diag, Z.pow_0_r. lia.
  - cbn [fst snd]. split; [reflexivity | ].
    rewrite iter_xO_value. f_equal. f_equal. lia.
Qed.

Lemma shl_align_keep (m : positive) (e e' : Z) :
  e <= e' -> shl_align m e e' = (m, e).
Proof.
  intros He. unfold shl_align. destruct (e' - e) as [ | d | d] eqn:Hd; try lia; reflexivity.
Qed.

Lemma digits2_pos_shift (u n : positive) (j : Z) :
  0 <= j -> Zpos n = Zpos u * 2 ^ j ->
  Zpos (digits2_pos n) = Zpos (digits2_pos u) + j.
Proof.
  intros Hj Hn. apply digits2_pos_unique.
  pose proof (digits2_pos_bounds u) as [L U].
  rewrite Hn.
  replace (Zpos (digits2_pos u) + j - 1) with (Zpos (digits2_pos u) - 1 + j) by lia.
  rewrite !Z.pow_add_r by lia.
  assert (0 < 2 ^ j) by (apply Z.pow_pos_nonneg; lia).
  split; [apply Z.mul_le_mono_nonneg_r; lia | apply Z.mul_lt_mono_pos_r; lia].
Qed.

(** Rounding a mantissa [n = u * 2^j] whose odd part [u] fits in 53 bits
    is exact: the result is the canonical form of [u * 2^(e + j)]. *)
Lemma binary_round_exact (s : bool) (u n : positive) (j e : Z) :
  0 <= j -> Zpos n = Zpos u * 2 ^ j ->
  Zpos (digits2_pos u) <= 53 ->
  -1074 <= e + j + Zpos (digits2_pos u) - 53 <= 970 ->
  exists m' : positive,
    binary_round prec emax s n e
      = S754_finite s m' (e + j + Zpos (digits2_pos u) - 53)
    /\ Zpos m' = Zpos u * 2 ^ (53 - Zpos (digits2_pos u)).
Proof.
  intros Hj Hn Hu Hr.
  pose proof (digits2_pos_shift u n j Hj Hn) as Hd.
  set (du := Zpos (digits2_pos u)) in *.
  unfold binary_round.
  assert (Hf : fexp prec emax (Zpos (digits2_pos n) + e) = e + (du + j - 53)).
  { unfold fexp, emin. change prec with 53. change emax with 1024. lia. }
  rewrite Hf.
  destruct (Z_lt_le_dec (du + j) 53) as [Hshort | Hlong].
  - (* fewer than 53 digits: shifted left *)
    pose proof (shl_align_value n e (e + (du + j - 53)) ltac:(lia)) as [Hs Hv].
    destruct (shl_align n e (e + (du + j - 53))) as [mz ez]. cbn [fst snd] in Hs, Hv.
    subst ez.
    replace (e - (e + (du + j - 53))) with (53 - du - j) in Hv by lia.
    assert (Hmz : Zpos mz = Zpos u * 2 ^ (53 - du)).
    { rewrite Hv, Hn, <- Z.mul_assoc, <- Z.pow_add_r by lia. f_equal. f_equal. lia. }
    assert (Dmz : Zpos (digits2_pos mz) = 0 + 53).
    { rewrite (digits2_pos_shift u mz (53 - du)) by (lia || exact Hmz). fold du. lia. }
    destruct (binary_round_aux_pos s mz (e + (du + j - 53)) 0 Dmz ltac:(lia) ltac:(lia) ltac:(lia))
      as (m' & e' & E & D & B & V).
    rewrite rne_shift_exact in V by (lia || (rewrite Z.pow_0_r; apply Z.mod_1_r)).
    rewrite Z.pow_0_r, Z.div_1_r in V.
    assert (e' = e + (du + j - 53)).
    { destruct (Z.eq_dec e' (e + (du + j - 53) + 0)) as [? | Hne]; [lia | exfalso].
      replace (e' - (e + (du + j - 53) + 0)) with 1 in V by lia.
      pose proof (digits2_pos_bounds m') as [L' _]. rewrite D in L'.
      pose proof (digits2_pos_bounds mz) as [_ U']. rewrite Dmz in U'.
      change (2 ^ (53 - 1)) with 4503599627370496 in L'.
      change (2 ^ (0 + 53)) with 9007199254740992 in U'.
      change (2 ^ 1) with 2 in V. lia. }
    subst e'. rewrite Z.add_0_r, Z.sub_diag, Z.pow_0_r in V.
    exists m'. rewrite E. split; [f_equal; lia | lia].
  - (* at least 53 digits: shifted right by an exact division *)
    rewrite shl_align_keep by lia.
    assert (Hk : Zpos (digits2_pos n) = (du + j - 53) + 53) by lia.
    destruct (binary_round_aux_pos s n e (du + j - 53) Hk ltac:(lia) ltac:(lia) ltac:(lia))
      as (m' & e' & E & D & B & V).
    assert (Hsplit : Zpos n = (Zpos u * 2 ^ (53 - du)) * 2 ^ (du + j - 53)).
    { rewrite Hn, <- Z.mul_assoc, <- Z.pow_add_r by lia. f_equal. f_equal. lia. }
    assert (Hp : 0 < 2 ^ (du + j - 53)) by (apply Z.pow_pos_nonneg; lia).
    rewrite rne_shift_exact in V by (lia || (rewrite Hsplit; apply Z.mod_mul; lia)).
    rewrite Hsplit, Z.div_mul in V by lia.
    assert (Ubound : Zpos u * 2 ^ (53 - du) < 2 ^ 53).
    { pose proof (digits2_pos_bounds u) as [_ U]. fold du in U.
      replace 53 with (du + (53 - du)) at 2 by lia. rewrite Z.pow_add_r by lia.
      apply Z.mul_lt_mono_pos_r; [apply Z.pow_pos_nonneg; lia | exact U]. }
    assert (e' = e + (du + j - 53)).
    { destruct (Z.eq_dec e' (e + (du + j - 53))) as [? | Hne]; [assumption | exfalso].
      replace (e' - (e + (du + j - 53))) with 1 in V by lia.
      pose proof (digits2_pos_bounds m') as [L' _]. rewrite D in L'.
      change (2 ^ (53 - 1)) with 4503599627370496 in L'.
      change (2 ^ 53) with 9007199254740992 in Ubound.
      change (2 ^ 1) with 2 in V. lia. }
    subst e'. rewrite Z.sub_diag, Z.pow_0_r in V.
    exists m'. rewrite E. split; [f_equal; lia | lia].
Qed.

(** ** Floor division of a float by 24 *)

Lemma valid_binary_normal (s : bool) (m : positive) (e : Z) :
  Zpos (digits2_pos m) = 53 -> -1074 <= e <= 971 ->
  valid_binary (S754_finite s m e) = true.
Proof.
  intros Hd He. unfold SpecFloat.valid_binary, bounded, canonical_mantissa, fexp, emin.
  rewrite Hd. change prec with 53. change emax with 1024.
  apply andb_true_iff. split; [apply Z.eqb_eq | apply Z.leb_le]; lia.
Qed.

Lemma Prim2SF_SF2Prim_normal (s : bool) (m : positive) (e : Z) :
  Zpos (digits2_pos m) = 53 -> -1074 <= e <= 971 ->
  Prim2SF (SF2Prim (S754_finite s m e)) = S754_finite s m e.
Proof. intros Hd He. apply Prim2SF_SF2Prim, valid_binary_normal; assumption. Qed.

(** A canonical mantissa: [u] shifted left to 53 digits. *)
Lemma canonical_digits (u m : positive) :
  Zpos (digits2_pos u) <= 53 ->
  Zpos m = Zpos u * 2 ^ (53 - Zpos (digits2_pos u)) ->
  Zpos (digits2_pos m) = 53.
Proof.
  intros Hu Hm.
  rewrite (digits2_pos_shift u m (53 - Zpos (digits2_pos u)) ltac:(lia) Hm). lia.
Qed.

(** Subtracting a smaller positive float when the difference [u * 2^E]
    fits in 53 bits: the result is exact. *)
Lemma SF64sub_exact (mx my u : positive) (ex ey j : Z) :
  let ez := Z.min ex ey in
  0 <= j ->
  Zpos mx * 2 ^ (ex - ez) - Zpos my * 2 ^ (ey - ez) = Zpos u * 2 ^ j ->
  Zpos (digits2_pos u) <= 53 ->
  -1074 <= ez + j + Zpos (digits2_pos u) - 53 <= 970 ->
  exists m' : positive,
    SF64sub (S754_finite false mx ex) (S754_finite false my ey)
      = S754_finite false m' (ez + j + Zpos (digits2_pos u) - 53)
    /\ Zpos m' = Zpos u * 2 ^ (53 - Zpos (digits2_pos u)).
Proof.
  intros ez Hj Hn Hu Hr.
  unfold SF64sub, SFsub. fold ez. cbn [cond_Zopp].
  pose proof (shl_align_value mx ex ez ltac:(unfold ez; lia)) as [_ Vx].
  pose proof (shl_align_value my ey ez ltac:(unfold ez; lia)) as [_ Vy].
  rewrite Vx, Vy, Hn.
  assert (Hpos : 0 < Zpos u * 2 ^ j)
    by (apply Z.mul_pos_pos; [lia | apply Z.pow_pos_nonneg; lia]).
  destruct (Zpos u * 2 ^ j) as [ | n | n] eqn:En; try lia.
  cbn [binary_normalize].
  apply (binary_round_exact false u n j ez); (assumption || (symmetry; assumption)).
Qed.

Lemma SF64sub_self (m : positive) (e : Z) :
  SF64sub (S754_finite false m e) (S754_finite false m e) = S754_zero false.
Proof.
  unfold SF64sub, SFsub. cbn [cond_Zopp]. rewrite Z.sub_diag. reflexivity.
Qed.
(** Rounding an exactly known mantissa [n = u * 2^j] of at least 53 digits
    whose odd part [u] fits in 53 bits is exact. *)
Lemma binary_round_aux_exact (s : bool) (u n : positive) (j e : Z) :
  0 <= j -> Zpos n = Zpos u * 2 ^ j ->
  Zpos (digits2_pos u) <= 53 -> 53 <= Zpos (digits2_pos u) + j ->
  -1074 <= e + j + Zpos (digits2_pos u) - 53 <= 970 ->
  exists m' : positive,
    binary_round_aux prec emax s (Zpos n) e loc_Exact
      = S754_finite s m' (e + j + Zpos (digits2_pos u) - 53)
    /\ Zpos m' = Zpos u * 2 ^ (53 - Zpos (digits2_pos u)).
Proof.
  intros Hj Hn Hu Hlong Hr.
  pose proof (digits2_pos_shift u n j Hj Hn) as Hd.
  set (du := Zpos (digits2_pos u)) in *.
  assert (Hk : Zpos (digits2_pos n) = (du + j - 53) + 53) by lia.
  destruct (binary_round_aux_pos s n e (du + j - 53) Hk ltac:(lia) ltac:(lia) ltac:(lia))
    as (m' & e' & E & D & B & V).
  assert (Hsplit : Zpos n = (Zpos u * 2 ^ (53 - du)) * 2 ^ (du + j - 53)).
  { rewrite Hn, <- Z.mul_assoc, <- Z.pow_add_r by lia. f_equal. f_equal. lia. }
  assert (Hp : 0 < 2 ^ (du + j - 53)) by (apply Z.pow_pos_nonneg; lia).
  rewrite rne_shift_exact in V by (lia || (rewrite Hsplit; apply Z.mod_mul; lia)).
  rewrite Hsplit, Z.div_mul in V by lia.
  assert (Ubound : Zpos u * 2 ^ (53 - du) < 2 ^ 53).
  { pose proof (digits2_pos_bounds u) as [_ U]. fold du in U.
    replace 53 with (du + (53 - du)) at 2 by lia. rewrite Z.pow_add_r by lia.
    apply Z.mul_lt_mono_pos_r; [apply Z.pow_pos_nonneg; lia | exact U]. }
  assert (e' = e + (du + j - 53)).
  { destruct (Z.eq_dec e' (e + (du + j - 53))) as [? | Hne]; [assumption | exfalso].
    replace (e' - (e + (du + j - 53))) with 1 in V by lia.
    pose proof (digits2_pos_bounds m') as [L' _]. rewrite D in L'.
    change (2 ^ (53 - 1)) with 4503599627370496 in L'.
    change (2 ^ 53) with 9007199254740992 in Ubound.
    change (2 ^ 1) with 2 in V. lia. }
  subst e'. rewrite Z.sub_diag, Z.pow_0_r in V.
  exists m'. rewrite E. split; [f_equal; lia | lia].
Qed.

(** Mantissa of the float 24: [24 = 3 * 2^51 * 2^-48]. *)
Lemma Prim2SF_24 : Prim2SF 24 = S754_finite false 6755399441055744 (-48).
Proof. vm_compute. reflexivity. Qed.

(** Dividing by 24 a normal float whose mantissa is a multiple of 3: the
    quotient is exact. *)
Lemma SF64div_24 (mt w : positive) (et : Z) :
  Zpos mt = 3 * Zpos w -> Zpos (digits2_pos mt) = 53 ->
  -1000 <= et <= 900 ->
  exists m' : positive,
    SF64div (S754_finite false mt et) (S754_finite false 6755399441055744 (-48))
      = S754_finite false m' (et + Zpos (digits2_pos w) - 56)
    /\ Zpos m' = Zpos w * 2 ^ (53 - Zpos (digits2_pos w)).
Proof.
  intros Hmt Hd He.
  pose proof (digits2_pos_bounds mt) as [Lt Ut]. rewrite Hd in Lt, Ut.
  pose proof (digits2_pos_bounds w) as [Lw Uw].
  set (dw := Zpos (digits2_pos w)) in *.
  assert (Hdw : 51 <= dw <= 52).
  { change (2 ^ (53 - 1)) with 4503599627370496 in Lt.
    change (2 ^ 53) with 9007199254740992 in Ut.
    destruct (Z_lt_le_dec dw 51) as [H | H].
    - assert (2 ^ dw <= 2 ^ 50) by (apply Z.pow_le_mono_r; lia).
      change (2 ^ 50) with 1125899906842624 in *. lia.
    - destruct (Z_lt_le_dec 52 dw) as [H' | H']; [ | lia].
      assert (2 ^ 52 <= 2 ^ (dw - 1)) by (apply Z.pow_le_mono_r; lia).
      change (2 ^ 52) with 4503599627370496 in *. lia. }
  unfold SF64div, SFdiv, SFdiv_core_binary. cbn [xorb Zdigits2].
  rewrite Hd. change (Zpos (digits2_pos 6755399441055744)) with 53.
  assert (Hf : Z.min (fexp prec emax (53 + et - (53 + -48))) (et - -48) = et - 5).
  { unfold fexp, emin. change prec with 53. change emax with 1024. lia. }
  rewrite Hf.
  replace (et - -48 - (et - 5)) with 53 by lia.
  rewrite Z.shiftl_mul_pow2 by lia.
  assert (Hq : Zpos mt * 2 ^ 53 = Zpos (w~0~0) * 6755399441055744).
  { rewrite Hmt. change (Zpos w~0~0) with (2 * (2 * Zpos w)).
    change (2 ^ 53) with 9007199254740992. lia. }
  pose proof (Z.div_eucl_eq (Zpos mt * 2 ^ 53) 6755399441055744 ltac:(lia)) as Heq.
  pose proof (Z.mod_pos_bound (Zpos mt * 2 ^ 53) 6755399441055744 ltac:(lia)) as Hb.
  unfold Z.modulo in Hb.
  destruct (Z.div_eucl (Zpos mt * 2 ^ 53) 6755399441055744) as [q r].
  assert (Hq' : q = Zpos w~0~0 /\ r = 0).
  { rewrite Hq in Heq. clear - Heq Hb. nia. }
  destruct Hq' as [-> ->].
  change (new_location 6755399441055744 0) with loc_Exact.
  destruct (binary_round_aux_exact false w (w~0~0) 2 (et - 5)) as (m' & E & V);
    fold dw; try lia.
  exists m'. rewrite E. split; [f_equal; unfold dw; lia | exact V].
Qed.
(** An integral float is its own floor. *)
Lemma floor_integral (x : float) (q md : positive) :
  Zpos (digits2_pos q) <= 53 ->
  Prim2SF x = S754_finite false md (Zpos (digits2_pos q) - 53) ->
  Zpos md = Zpos q * 2 ^ (53 - Zpos (digits2_pos q)) ->
  Py.floor x = x.
Proof.
  intros Hq Hx Hm. unfold Py.floor. rewrite Hx.
  set (dq := Zpos (digits2_pos q)) in *.
  destruct (dq - 53) as [ | p | p] eqn:Hp; try reflexivity.
  cbn [cond_Zopp]. rewrite Hm.
  replace (53 - dq) with (Zpos p) by lia.
  rewrite Z.div_mul by (apply Z.pow_nonzero; lia).
  cbn [binary_normalize].
  destruct (binary_round_exact false q q 0 0) as (m' & E & V);
    fold dq; try lia.
  fold dq in E, V. rewrite E.
  assert (m' = md) by (apply Pos2Z.inj; rewrite V, Hm; reflexivity).
  subst m'. replace (0 + 0 + dq - 53) with (Zneg p) by lia.
  rewrite <- Hx. apply SF2Prim_Prim2SF.
Qed.

Section FloorDiv24.

Variables (f : float) (m : positive) (e : Z).
Hypothesis Hf : Prim2SF f = S754_finite false m e.
Hypothesis Hd : Zpos (digits2_pos m) = 53.
Hypothesis He : -48 <= e <= 0.
Hypothesis Hge : 24 * 2 ^ (- e) <= Zpos m.

Let B : Z := 24 * 2 ^ (- e).
Let Qd : Z := Zpos m / B.
Let R : Z := Zpos m mod B.

Lemma fd24_facts :
  0 < 2 ^ (- e) /\ 0 < B /\ Zpos m = B * Qd + R /\ 0 <= R < B /\ 1 <= Qd
  /\ Zpos m < 2 ^ 53.
Proof.
  assert (Hp : 0 < 2 ^ (- e)) by (apply Z.pow_pos_nonneg; lia).
  assert (HB : 0 < B) by (unfold B; lia).
  pose proof (digits2_pos_bounds m) as [_ U]. rewrite Hd in U.
  split; [exact Hp | ]. split; [exact HB | ].
  split; [apply Z.div_mod; lia | ].
  split; [apply Z.mod_pos_bound; exact HB | ].
  split; [ | exact U].
  unfold Qd. apply Z.div_le_lower_bound; [exact HB | fold B in Hge; lia].
Qed.

Lemma fd24_fmod :
  (R = 0 /\ Py.fmod f 24 = PrimFloat.zero)
  \/ (exists Rp mr : positive,
        R = Zpos Rp
        /\ Zpos (digits2_pos Rp) <= 53
        /\ Prim2SF (Py.fmod f 24)
           = S754_finite false mr (e + Zpos (digits2_pos Rp) - 53)
        /\ Zpos mr = Zpos Rp * 2 ^ (53 - Zpos (digits2_pos Rp))).
Proof.
  destruct fd24_facts as (Hp & HB & Hdiv & HR & HQ & HU).
  assert (H48 : 0 < 2 ^ (e + 48)) by (apply Z.pow_pos_nonneg; lia).
  assert (Hmod : (Zpos m * 2 ^ (e - Z.min e (-48)))
                 mod (6755399441055744 * 2 ^ (-48 - Z.min e (-48)))
                 = R * 2 ^ (e + 48)).
  { replace (Z.min e (-48)) with (-48) by lia.
    replace (-48 - -48) with 0 by lia. replace (e - -48) with (e + 48) by lia.
    rewrite Z.pow_0_r, Z.mul_1_r.
    assert (Hb : 6755399441055744 = B * 2 ^ (e + 48)).
    { unfold B. rewrite <- Z.mul_assoc, <- Z.pow_add_r by lia.
      replace (- e + (e + 48)) with 48 by lia. reflexivity. }
    rewrite Hb. rewrite Z.mul_mod_distr_r by lia. reflexivity. }
  unfold Py.fmod. rewrite Hf, Prim2SF_24. cbv beta iota zeta. rewrite Hmod.
  replace (Z.min e (-48)) with (-48) by lia.
  destruct R as [ | Rp | Rp] eqn:ER; try lia.
  - left. split; reflexivity.
  - right.
    assert (DR : Zpos (digits2_pos Rp) <= 53).
    { destruct (Z_le_gt_dec (Zpos (digits2_pos Rp)) 53) as [H | H]; [exact H | exfalso].
      pose proof (digits2_pos_bounds Rp) as [L _].
      assert (2 ^ 53 <= 2 ^ (Zpos (digits2_pos Rp) - 1)) by (apply Z.pow_le_mono_r; lia).
      assert (2 ^ (- e) <= 2 ^ 48) by (apply Z.pow_le_mono_r; lia).
      unfold B in HR.
      change (2 ^ 53) with 9007199254740992 in *.
      change (2 ^ 48) with 281474976710656 in *. lia. }
    destruct (Zpos Rp * 2 ^ (e + 48)) as [ | rp | rp] eqn:Er; try lia.
    cbn [cond_Zopp binary_normalize].
    destruct (binary_round_exact false Rp rp (e + 48) (-48)) as (mr & E & V);
      try lia.
    exists Rp, mr. split; [reflexivity | ]. split; [exact DR | ].
    split; [ | exact V].
    rewrite E.
    replace (-48 + (e + 48) + Zpos (digits2_pos Rp) - 53)
      with (e + Zpos (digits2_pos Rp) - 53) by lia.
    apply Prim2SF_SF2Prim_normal; [ | lia].
    apply (canonical_digits Rp); assumption.
Qed.

(** The difference [f - fmod(f, 24)] is the float [24 * Qd = 3 Qd * 2^3]. *)
Lemma fd24_sub :
  exists U3 mt : positive,
    Zpos U3 = 3 * Qd
    /\ Zpos (digits2_pos U3) <= 50
    /\ Prim2SF (f - Py.fmod f 24) = S754_finite false mt (Zpos (digits2_pos U3) - 50)
    /\ Zpos mt = Zpos U3 * 2 ^ (53 - Zpos (digits2_pos U3)).
Proof.
  destruct fd24_facts as (Hp & HB & Hdiv & HR & HQ & HU).
  destruct (3 * Qd) as [ | U3 | U3] eqn:EU; try lia.
  exists U3.
  assert (HN : Zpos m - R = Zpos U3 * 2 ^ (3 - e)).
  { rewrite <- EU. replace (3 - e) with (3 + - e) by lia.
    rewrite Z.pow_add_r by lia. change (2 ^ 3) with 8. unfold B in Hdiv. lia. }
  assert (D3 : Zpos (digits2_pos U3) <= 50).
  { destruct (Z_le_gt_dec (Zpos (digits2_pos U3)) 50) as [H | H]; [exact H | exfalso].
    pose proof (digits2_pos_bounds U3) as [L _].
    assert (2 ^ 50 <= 2 ^ (Zpos (digits2_pos U3) - 1)) by (apply Z.pow_le_mono_r; lia).
    assert (2 ^ 3 <= 2 ^ (3 - e)) by (apply Z.pow_le_mono_r; lia).
    change (2 ^ 53) with (2 ^ 50 * 2 ^ 3) in HU.
    assert (2 ^ 50 * 2 ^ 3 <= Zpos U3 * 2 ^ (3 - e)) by (apply Z.mul_le_mono_nonneg; lia).
    lia. }
  rewrite sub_spec, Hf.
  destruct fd24_fmod as [[ER ->] | (Rp & mr & ER & DR & Er & Vr)].
  - (* the remainder is zero: the difference is [f] itself *)
    exists m. split; [reflexivity | ]. split; [exact D3 | ].
    rewrite ER, Z.sub_0_r in HN.
    pose proof (digits2_pos_shift U3 m (3 - e) ltac:(lia) HN) as Hsh.
    assert (Hexp : e = Zpos (digits2_pos U3) - 50) by lia.
    split; [rewrite <- Hexp; reflexivity | ].
    rewrite HN. f_equal. f_equal. lia.
  - rewrite Er.
    set (dR := Zpos (digits2_pos Rp)) in *.
    assert (Hmin : Z.min e (e + dR - 53) = e + dR - 53) by lia.
    destruct (SF64sub_exact m mr U3 e (e + dR - 53) (56 - e - dR)) as (mt & E & V);
      rewrite ?Hmin; try lia.
    + replace (e - (e + dR - 53)) with (53 - dR) by lia.
      rewrite Z.sub_diag, Z.pow_0_r, Z.mul_1_r, Vr, <- Z.mul_sub_distr_r.
      rewrite <- ER, HN, <- Z.mul_assoc, <- Z.pow_add_r by lia.
      f_equal. f_equal. lia.
    + exists mt. split; [reflexivity | ]. split; [exact D3 | ].
      split; [ | exact V].
      rewrite E, Hmin. f_equal. lia.
Qed.

(** The quotient [(f - fmod(f, 24)) / 24] is the float [Qd]. *)
Lemma fd24_div :
  exists Qp md : positive,
    Qd = Zpos Qp
    /\ Zpos (digits2_pos Qp) <= 53
    /\ Prim2SF ((f - Py.fmod f 24) / 24)
       = S754_finite false md (Zpos (digits2_pos Qp) - 53)
    /\ Zpos md = Zpos Qp * 2 ^ (53 - Zpos (digits2_pos Qp)).
Proof.
  destruct fd24_facts as (Hp & HB & Hdiv & HR & HQ & HU).
  destruct fd24_sub as (U3 & mt & EU & D3 & Et & Vt).
  destruct Qd as [ | Qp | Qp] eqn:EQ; try lia.
  exists Qp.
  assert (Dmono : Zpos (digits2_pos Qp) <= Zpos (digits2_pos U3)).
  { apply digits2_pos_mono. change (Zpos Qp <= Zpos U3). lia. }
  set (d3 := Zpos (digits2_pos U3)) in *.
  set (dQ := Zpos (digits2_pos Qp)) in *.
  assert (Hpw : 0 < 2 ^ (53 - d3)) by (apply Z.pow_pos_nonneg; lia).
  destruct (Zpos Qp * 2 ^ (53 - d3)) as [ | w | w] eqn:Ew; try lia.
  assert (Dw : Zpos (digits2_pos w) = dQ + (53 - d3)).
  { apply (digits2_pos_shift Qp w (53 - d3)); [lia | symmetry; exact Ew]. }
  assert (Dmt : Zpos (digits2_pos mt) = 53).
  { apply (canonical_digits U3); [fold d3; lia | exact Vt]. }
  assert (Hmt3 : Zpos mt = 3 * Zpos w) by (rewrite Vt, EU, <- Ew; ring).
  destruct (SF64div_24 mt w (d3 - 50) Hmt3 Dmt ltac:(lia)) as (md & E & V).
  exists md. split; [reflexivity | ]. split; [lia | ].
  rewrite div_spec, Et, Prim2SF_24, E, Dw.
  split; [f_equal; lia | ].
  rewrite V, Dw, <- Ew, <- Z.mul_assoc, <- Z.pow_add_r by lia.
  f_equal. f_equal. lia.
Qed.


(** CPython's floored division by 24 of a float in [24, 2^53): the
    quotient and the remainder are exact. *)
Lemma fd24_div_mod :
  exists div rem : float,
    Py.float_div_mod f 24 = (div, rem)
    /\ Py.int (Py.Float div) = inr Qd
    /\ Py.int (Py.Float rem) = inr (R / 2 ^ (- e)).
Proof.
  destruct fd24_facts as (Hp & HB & Hdiv & HR & HQ & HU).
  destruct fd24_div as (Qp & md & EQ & DQ & Ed & Vd).
  set (div := ((f - Py.fmod f 24) / 24)%float) in *.
  assert (Hnz : Py.nonzero div = true).
  { unfold Py.nonzero. rewrite FloatAxioms.eqb_spec, Ed. reflexivity. }
  assert (Hfl : Py.floor div = div) by (apply (floor_integral div Qp md); assumption).
  assert (Hhalf : (0.5 <? div - div)%float = false).
  { rewrite ltb_spec, sub_spec, Ed, SF64sub_self. reflexivity. }
  assert (Hint : Py.int (Py.Float div) = inr Qd).
  { unfold Py.int. rewrite Ed, EQ. cbn [cond_Zopp]. f_equal.
    destruct (Zpos (digits2_pos Qp) - 53) as [ | p | p] eqn:Hp53; try lia.
    - rewrite Vd. replace (53 - Zpos (digits2_pos Qp)) with 0 by lia. ring.
    - rewrite Vd. replace (53 - Zpos (digits2_pos Qp)) with (Zpos p) by lia.
      apply Z.div_mul. apply Z.pow_nonzero; lia. }
  exists div.
  unfold Py.float_div_mod. fold div.
  destruct fd24_fmod as [[ER Er] | (Rp & mr & ER & DR & Er & Vr)].
  - exists PrimFloat.zero. rewrite Er.
    change (Py.nonzero PrimFloat.zero) with false.
    change (Py.signed_zero 24) with PrimFloat.zero.
    cbv beta iota zeta. rewrite Hnz, Hfl, Hhalf.
    split; [reflexivity | ]. split; [exact Hint | ].
    rewrite ER. reflexivity.
  - exists (Py.fmod f 24).
    assert (Hnr : Py.nonzero (Py.fmod f 24) = true).
    { unfold Py.nonzero. rewrite FloatAxioms.eqb_spec, Er. reflexivity. }
    assert (Hneg : (Py.fmod f 24 <? 0)%float = false).
    { rewrite ltb_spec, Er. reflexivity. }
    rewrite Hnr, Hneg.
    change (24 <? 0)%float with false.
    cbv beta iota zeta. cbn [xorb]. rewrite Hnz, Hfl, Hhalf.
    split; [reflexivity | ]. split; [exact Hint | ].
    unfold Py.int. rewrite Er, ER. cbn [cond_Zopp]. f_equal.
    set (dR := Zpos (digits2_pos Rp)) in *.
    destruct (e + dR - 53) as [ | p | p] eqn:Hp53; try lia.
    + rewrite Vr.
      replace (53 - dR) with 0 by lia. replace (- e) with 0 by lia.
      rewrite !Z.pow_0_r, Z.div_1_r. ring.
    + rewrite Vr.
      replace (Zpos p) with ((53 - dR) + - e) by lia.
      rewrite Z.pow_add_r by lia.
      rewrite (Z.mul_comm (2 ^ (53 - dR)) (2 ^ (- e))).
      apply Z.div_mul_cancel_r; apply Z.pow_nonzero; lia.
Qed.

End FloorDiv24.

(** ** The formatter on exact values *)

Lemma Qfloor_Qmake (n : Z) (d : positive) : Qfloor (n # d) = n / Zpos d.
Proof. reflexivity. Qed.

Lemma truncate_inject_Z (z : Z) : truncate (inject_Z z) = z.
Proof.
  unfold truncate. destruct (Qle_bool 0 (inject_Z z)).
  - apply Qfloor_Z.
  - apply Qceiling_Z.
Qed.

(** The integer part of a positive or negative dyadic rational. *)
Lemma truncate_Qmake (s : bool) (n : Z) (d : positive) :
  0 <= n -> truncate (cond_Zopp s n # d) = cond_Zopp s (n / Zpos d).
Proof.
  intros Hn. unfold truncate, Qle_bool. cbn [Qnum Qden].
  rewrite Z.mul_1_r. change (0 * Zpos d) with 0.
  destruct s; cbn [cond_Zopp].
  - destruct (Z.leb_spec 0 (- n)) as [H | H].
    + assert (n = 0) by lia. subst n. reflexivity.
    + unfold Qceiling, Qopp. cbn [Qnum Qden]. rewrite Qfloor_Qmake, Z.opp_involutive.
      reflexivity.
  - destruct (Z.leb_spec 0 n) as [H | H]; [apply Qfloor_Qmake | lia].
Qed.

Lemma int_finite_float (f : float) :
  is_finite (Py.Float f) = true ->
  Py.int (Py.Float f) = inr (truncate (Py.F2Q f)).
Proof.
  unfold is_finite, Py.int, Py.F2Q, Py.SF2Q.
  destruct (Prim2SF f) as [s | s | | s m e]; try discriminate; intros _.
  - reflexivity.
  - f_equal. destruct e as [ | p | p].
    + rewrite Z.pow_0_r, !Z.mul_1_r.
      change (inject_Z (cond_Zopp s (Zpos m))) with (cond_Zopp s (Zpos m) # 1).
      rewrite truncate_Qmake by lia. rewrite Z.div_1_r. reflexivity.
    + replace (cond_Zopp s (Zpos m) * 2 ^ Zpos p)
        with (cond_Zopp s (Zpos m * 2 ^ Zpos p)) by (destruct s; cbn [cond_Zopp]; ring).
      change (inject_Z (cond_Zopp s (Zpos m * 2 ^ Zpos p)))
        with (cond_Zopp s (Zpos m * 2 ^ Zpos p) # 1).
      rewrite truncate_Qmake by lia. rewrite Z.div_1_r. reflexivity.
    + rewrite truncate_Qmake by lia. rewrite Pos2Z.inj_pow. reflexivity.
Qed.

Lemma int_finite (x : Py.num) :
  is_finite x = true -> Py.int x = inr (truncate (exact_value x)).
Proof.
  destruct x as [z | f]; intros H.
  - cbn. rewrite truncate_inject_Z. reflexivity.
  - apply int_finite_float. exact H.
Qed.

(** On finite numbers [x < 24] is the comparison of the exact values. *)
Lemma lt_Int_exact (x : Py.num) (n : Z) :
  is_finite x = true ->
  Py.lt x (Py.Int n) = negb (Qle_bool (inject_Z n) (exact_value x)).
Proof.
  intros H. unfold Py.lt.
  assert (Hc : Py.compare x (Py.Int n) = Some (exact_value x ?= inject_Z n)%Q).
  { destruct x as [z | f]; cbn [Py.compare exact_value].
    - unfold Qcompare. cbn. rewrite !Z.mul_1_r. reflexivity.
    - unfold is_finite in H. unfold Py.SFcompare_Z, Py.F2Q.
      destruct (Prim2SF f) as [s | s | | s m e]; try discriminate; try reflexivity.
      cbn [Py.SF2Q]. unfold Qcompare. cbn. rewrite Z.mul_1_r. reflexivity. }
  rewrite Hc.
  destruct (Qcompare_spec (exact_value x) (inject_Z n)) as [E | L | G].
  - symmetry. apply negb_false_iff. apply Qle_bool_iff. rewrite E. apply Qle_refl.
  - symmetry. apply negb_true_iff. apply not_true_is_false. intros C.
    apply Qle_bool_iff in C. apply (Qlt_irrefl (inject_Z n)).
    eapply Qle_lt_trans; eassumption.
  - symmetry. apply negb_false_iff. apply Qle_bool_iff. apply Qlt_le_weak. exact G.
Qed.

(** The limit of [str]: its value, and the integer parts of finite floats,
    which stay below it. *)
Lemma int_max_str_bound_value : Py.int_max_str_bound = 10 ^ 4300.
Proof. vm_compute. reflexivity. Qed.

Lemma int_max_str_bound_float : 2 ^ 1024 <= Py.int_max_str_bound.
Proof. vm_compute. discriminate. Qed.

Lemma str_cases (z : Z) :
  Py.str z = if too_long z then inl Py.ValueError else inr (Py.numeral z).
Proof. reflexivity. Qed.

Lemma too_long_small (z : Z) : Z.abs z < 2 ^ 1024 -> too_long z = false.
Proof.
  intros H. unfold too_long. apply Z.leb_gt.
  eapply Z.lt_le_trans; [exact H | apply int_max_str_bound_float].
Qed.

Lemma str_small (z : Z) : Z.abs z < 2 ^ 1024 -> Py.str z = inr (Py.numeral z).
Proof. intros H. rewrite str_cases, (too_long_small z H). reflexivity. Qed.

Lemma truncate_float_bound (f : float) :
  is_finite (Py.Float f) = true -> Z.abs (truncate (Py.F2Q f)) < 2 ^ 1024.
Proof.
  intros Hfin. pose proof (int_finite_float f Hfin) as Hi.
  unfold Py.int in Hi.
  assert (H2 : 2 ^ 1024 = 2 ^ 53 * 2 ^ 971) by (rewrite <- Z.pow_add_r by lia; reflexivity).
  assert (P53 : 0 < 2 ^ 53) by (apply Z.pow_pos_nonneg; lia).
  assert (P971 : 0 < 2 ^ 971) by (apply Z.pow_pos_nonneg; lia).
  destruct (Prim2SF f) as [s | s | | s m e] eqn:Hf; try discriminate.
  - assert (E : truncate (Py.F2Q f) = 0) by congruence.
    rewrite E, H2. cbn [Z.abs]. apply Z.mul_pos_pos; assumption.
  - set (v := match e with
              | Zneg p => Zpos m / 2 ^ Zpos p
              | _ => Zpos m * 2 ^ e
              end) in *.
    assert (E : truncate (Py.F2Q f) = cond_Zopp s v) by congruence.
    rewrite E. clear E Hi.
    destruct (Prim2SF_finite_canonical f s m e Hf) as [Hr Hc].
    pose proof (digits2_pos_bounds m) as [_ Um].
    assert (Hm : Zpos m < 2 ^ 53).
    { eapply Z.lt_le_trans; [exact Um | ]. apply Z.pow_le_mono_r; lia. }
    clear Um Hc Hf Hfin.
    assert (Hv : 0 <= v < 2 ^ 1024).
    { rewrite H2. clear H2. unfold v.
      destruct e as [ | p | p].
      - rewrite Z.pow_0_r, Z.mul_1_r. split; [lia | ].
        generalize dependent (2 ^ 53). generalize dependent (2 ^ 971). intros; nia.
      - assert (H1 : 2 ^ Zpos p <= 2 ^ 971) by (apply Z.pow_le_mono_r; lia).
        assert (H3 : 0 < 2 ^ Zpos p) by (apply Z.pow_pos_nonneg; lia).
        generalize dependent (2 ^ 53). generalize dependent (2 ^ 971).
        generalize dependent (2 ^ Zpos p). intros; nia.
      - assert (H3 : 0 < 2 ^ Zpos p) by (apply Z.pow_pos_nonneg; lia).
        split; [apply Z.div_pos; lia | ].
        apply Z.le_lt_trans with (Zpos m).
        + apply Z.div_le_upper_bound; [exact H3 | ].
          clear - H3. generalize dependent (2 ^ Zpos p). intros; nia.
        + apply Z.lt_le_trans with (2 ^ 53 * 1); [rewrite Z.mul_1_r; exact Hm | ].
          apply Z.mul_le_mono_nonneg_l; [apply Z.lt_le_incl; exact P53 | ].
          apply Z.lt_pred_le. exact P971. }
    clear H2 P53 P971 Hm Hr. clearbody v.
    generalize dependent (2 ^ 1024). intros B Hv.
    destruct s; cbn [cond_Zopp]; lia.
Qed.

(** Below a day: the whole hours, truncated toward zero, and always the
    plural noun; an int of too many digits is refused. *)
Lemma hours_to_readable_below_24 (hours : Py.num) :
  is_finite hours = true -> Py.lt hours (Py.Int 24) = true ->
  hours_to_readable hours
  = (if too_long (truncate (exact_value hours)) then inl Py.ValueError
     else inr (Py.numeral (truncate (exact_value hours)) ++ " hours"))
  /\ readable_duration (exact_value hours)
     = Py.numeral (truncate (exact_value hours)) ++ " hours"
  /\ leading_count (exact_value hours) = truncate (exact_value hours).
Proof.
  intros Hfin Hlt. unfold hours_to_readable, readable_duration, leading_count.
  rewrite Hlt, (int_finite hours Hfin). cbn [Py.rbind].
  rewrite (lt_Int_exact hours 24 Hfin) in Hlt.
  apply negb_true_iff in Hlt. change (inject_Z 24) with 24%Q in Hlt.
  rewrite Hlt, str_cases.
  split; [ | split; reflexivity].
  destruct (too_long _); reflexivity.
Qed.

(** The text built from the days and the remaining hours. *)
Lemma readable_text (days remaining_hours : Z) :
  (if remaining_hours =? 0 then
     Py.numeral days ++ " day" ++ (if days >? 1 then "s" else "")
   else
     Py.numeral days ++ " day" ++ (if days >? 1 then "s" else "")
     ++ " and " ++ Py.numeral remaining_hours
     ++ " hour" ++ (if remaining_hours >? 1 then "s" else ""))
  = (if remaining_hours =? 0 then
       Py.numeral days ++ " " ++ pluralize "day" days
     else
       Py.numeral days ++ " " ++ pluralize "day" days
       ++ " and " ++ Py.numeral remaining_hours ++ " " ++ pluralize "hour" remaining_hours).
Proof.
  unfold pluralize.
  destruct (remaining_hours =? 0), (days >? 1), (remaining_hours >? 1); reflexivity.
Qed.

(** The remaining hours are never too long for [str]. *)
Lemma str_remaining_hours (h : Z) : 0 <= h < 24 -> Py.str h = inr (Py.numeral h).
Proof.
  intros H. apply str_small. rewrite Z.abs_eq by lia.
  eapply Z.lt_le_trans; [apply H | ].
  apply Z.le_trans with (2 ^ 5); [discriminate | ].
  apply Z.pow_le_mono_r; [reflexivity | discriminate].
Qed.

(** The text of a day or more, from the days and the remaining hours. *)
Lemma day_text (days remaining_hours : Z) :
  0 <= remaining_hours < 24 ->
  (if remaining_hours =? 0 then
     shown_days <-? Py.str days ;;
     inr (shown_days ++ " day" ++ (if days >? 1 then "s" else ""))
   else
     shown_days <-? Py.str days ;;
     shown_hours <-? Py.str remaining_hours ;;
     inr (shown_days ++ " day" ++ (if days >? 1 then "s" else "")
          ++ " and " ++ shown_hours
          ++ " hour" ++ (if remaining_hours >? 1 then "s" else "")))
  = (if too_long days then inl Py.ValueError
     else inr (if remaining_hours =? 0 then
                 Py.numeral days ++ " " ++ pluralize "day" days
               else
                 Py.numeral days ++ " " ++ pluralize "day" days
                 ++ " and " ++ Py.numeral remaining_hours
                 ++ " " ++ pluralize "hour" remaining_hours)).
Proof.
  intros Hr. rewrite (str_remaining_hours remaining_hours Hr), str_cases.
  rewrite <- readable_text.
  destruct (too_long days), (remaining_hours =? 0); reflexivity.
Qed.

Lemma hours_to_readable_Int (z : Z) :
  hours_to_readable (Py.Int z)
  = if too_long (leading_count (inject_Z z)) then inl Py.ValueError
    else inr (readable_duration (inject_Z z)).
Proof.
  destruct (Py.lt (Py.Int z) (Py.Int 24)) eqn:Hlt.
  - destruct (hours_to_readable_below_24 (Py.Int z) eq_refl Hlt) as (H1 & H2 & H3).
    cbn [exact_value] in H1, H2, H3. rewrite H1, H2, H3. reflexivity.
  - unfold hours_to_readable. rewrite Hlt.
    rewrite (lt_Int_exact (Py.Int z) 24 eq_refl) in Hlt.
    apply negb_false_iff in Hlt. cbn [exact_value] in Hlt.
    unfold readable_duration, leading_count.
    change (inject_Z 24) with 24%Q in Hlt. rewrite Hlt.
    cbn [Py.floordiv Py.modulo Py.rbind Py.int]. change (24 =? 0) with false.
    cbv beta iota. cbn [Py.rbind Py.int].
    assert (Hd : Qfloor (inject_Z z / 24) = z / 24).
    { unfold Qdiv, Qinv, Qmult, inject_Z. cbn [Qnum Qden].
      rewrite Qfloor_Qmake, Z.mul_1_r. reflexivity. }
    assert (Hr : Qfloor (inject_Z z - inject_Z (24 * (z / 24))) = z mod 24).
    { unfold Qminus, Qplus, Qopp, inject_Z. cbn [Qnum Qden].
      rewrite Qfloor_Qmake, !Z.mul_1_r, Z.div_1_r, Z.mod_eq by lia. ring. }
    rewrite Hd, Hr.
    apply day_text. apply Z.mod_pos_bound. lia.
Qed.

(** A float from 24 up to (and excluding) 2^53: a normal mantissa with an
    exponent between -48 and 0. *)
Lemma float_day_range (f : float) :
  is_finite (Py.Float f) = true ->
  Py.lt (Py.Float f) (Py.Int 24) = false ->
  Py.lt (Py.Float f) (Py.Int (2 ^ 53)) = true ->
  exists (m : positive) (e : Z),
    Prim2SF f = S754_finite false m e
    /\ Zpos (digits2_pos m) = 53
    /\ -48 <= e <= 0
    /\ 24 * 2 ^ (- e) <= Zpos m.
Proof.
  intros Hfin H24 H53.
  rewrite (lt_Int_exact _ _ Hfin) in H24. rewrite (lt_Int_exact _ _ Hfin) in H53.
  apply negb_false_iff, Qle_bool_iff in H24.
  apply negb_true_iff in H53.
  assert (H53' : ~ (inject_Z (2 ^ 53) <= exact_value (Py.Float f))%Q).
  { intros C. apply Qle_bool_iff in C. congruence. }
  clear H53. cbn [exact_value] in H24, H53'. unfold Py.F2Q in H24, H53'.
  destruct (Prim2SF f) as [s | s | | s m e] eqn:Hf;
    try (cbn in H24; unfold Qle in H24; cbn in H24; lia).
  destruct (Prim2SF_finite_canonical f s m e Hf) as [Hr Hc].
  pose proof (digits2_pos_bounds m) as [Lm Um].
  unfold Py.SF2Q, Qle in H24, H53'.
  change (2 ^ 53) with 9007199254740992 in *.
  destruct s.
  { exfalso. cbn [cond_Zopp] in H24.
    destruct e as [ | p | p]; cbn [Qnum Qden inject_Z] in H24;
      try (assert (0 < 2 ^ Zpos p) by (apply Z.pow_pos_nonneg; lia)); nia. }
  cbn [cond_Zopp] in H24, H53'.
  exists m, e. split; [reflexivity | ].
  destruct e as [ | p | p]; cbn [Qnum Qden inject_Z] in H24, H53'.
  - rewrite Z.pow_0_r, Z.mul_1_r in *.
    assert (Hd : Zpos (digits2_pos m) = 53) by (destruct Hc as [Hc | [Hc _]]; [exact Hc | lia]).
    split; [exact Hd | ]. split; [lia | ]. cbn. lia.
  - exfalso.
    assert (Hd : Zpos (digits2_pos m) = 53) by (destruct Hc as [Hc | [Hc _]]; [exact Hc | lia]).
    rewrite Hd in Lm. change (2 ^ (53 - 1)) with 4503599627370496 in Lm.
    assert (2 ^ 1 <= 2 ^ Zpos p) by (apply Z.pow_le_mono_r; lia).
    change (2 ^ 1) with 2 in *. nia.
  - rewrite Pos2Z.inj_pow in H24.
    assert (Hp : 0 < 2 ^ Zpos p) by (apply Z.pow_pos_nonneg; lia).
    assert (Hd : Zpos (digits2_pos m) = 53).
    { destruct Hc as [Hc | [Hc Hlt]]; [exact Hc | exfalso].
      assert (Hm : Zpos m < 2 ^ 53).
      { eapply Z.lt_le_trans; [exact Um | ]. apply Z.pow_le_mono_r; lia. }
      assert (2 ^ 53 <= 2 ^ Zpos p) by (apply Z.pow_le_mono_r; lia).
      lia. }
    rewrite Hd in Um. change (2 ^ 53) with 9007199254740992 in Um.
    split; [exact Hd | ].
    assert (Hp48 : Zpos p <= 48).
    { destruct (Z_le_gt_dec (Zpos p) 48) as [H | H]; [exact H | exfalso].
      assert (2 ^ 49 <= 2 ^ Zpos p) by (apply Z.pow_le_mono_r; lia).
      change (2 ^ 49) with 562949953421312 in *. lia. }
    split; [lia | ].
    change (- Zneg p) with (Zpos p). lia.
Qed.
(** The days and remaining hours of a dyadic rational [m / 2^t]. *)
Lemma readable_duration_dyadic (m : positive) (t : Z) (q : Q) :
  0 <= t -> (q == Qmake (Zpos m) (Z.to_pos (2 ^ t)))%Q ->
  24 * 2 ^ t <= Zpos m ->
  readable_duration q
  = (let days := Zpos m / (24 * 2 ^ t) in
     let remaining_hours := Zpos m mod (24 * 2 ^ t) / 2 ^ t in
     if remaining_hours =? 0 then
       Py.numeral days ++ " " ++ pluralize "day" days
     else
       Py.numeral days ++ " " ++ pluralize "day" days
       ++ " and " ++ Py.numeral remaining_hours ++ " " ++ pluralize "hour" remaining_hours).
Proof.
  intros Ht Hq Hge.
  assert (Hp : 0 < 2 ^ t) by (apply Z.pow_pos_nonneg; lia).
  set (d := Z.to_pos (2 ^ t)) in *.
  assert (Hd : Zpos d = 2 ^ t) by (unfold d; apply Z2Pos.id; exact Hp).
  unfold readable_duration.
  assert (H24 : Qle_bool 24 q = true).
  { apply Qle_bool_iff. rewrite Hq. unfold Qle. cbn [Qnum Qden]. rewrite Hd. lia. }
  rewrite H24.
  assert (Hdays : Qfloor (q / 24) = Zpos m / (24 * 2 ^ t)).
  { rewrite Hq. unfold Qdiv, Qinv, Qmult. cbn [Qnum Qden].
    rewrite Qfloor_Qmake, Pos2Z.inj_mul, Hd, Z.mul_1_r. f_equal. ring. }
  rewrite Hdays.
  assert (Hrem : Qfloor (q - inject_Z (24 * (Zpos m / (24 * 2 ^ t))))
                 = Zpos m mod (24 * 2 ^ t) / 2 ^ t).
  { rewrite Hq. unfold Qminus, Qplus, Qopp, inject_Z. cbn [Qnum Qden].
    rewrite Qfloor_Qmake, Pos2Z.inj_mul, Hd, !Z.mul_1_r.
    rewrite (Z.mod_eq (Zpos m) (24 * 2 ^ t)) by lia. f_equal. ring. }
  rewrite Hrem. reflexivity.
Qed.

Lemma hours_to_readable_Float_day (f : float) :
  is_finite (Py.Float f) = true ->
  Py.lt (Py.Float f) (Py.Int 24) = false ->
  Py.lt (Py.Float f) (Py.Int (2 ^ 53)) = true ->
  hours_to_readable (Py.Float f) = inr (readable_duration (Py.F2Q f)).
Proof.
  intros Hfin H24 H53.
  destruct (float_day_range f Hfin H24 H53) as (m & e & Hf & Hd & He & Hge).
  destruct (fd24_div_mod f m e Hf Hd He Hge) as (div & rem & Edm & Hdiv & Hrem).
  unfold hours_to_readable. rewrite H24.
  unfold Py.floordiv, Py.modulo.
  change (Py.to_float (Py.Float f)) with (@inr Py.exn float f).
  change (Py.to_float (Py.Int 24)) with (@inr Py.exn float 24%float).
  cbn [Py.rbind]. change (24 =? 0)%float with false. cbv beta iota.
  rewrite Edm. cbn [fst snd Py.rbind]. rewrite Hdiv, Hrem. cbn [Py.rbind].
  assert (Hp : 0 < 2 ^ (- e)) by (apply Z.pow_pos_nonneg; lia).
  assert (Hrange : 0 <= Zpos m mod (24 * 2 ^ (- e)) / 2 ^ (- e) < 24).
  { pose proof (Z.mod_pos_bound (Zpos m) (24 * 2 ^ (- e)) ltac:(lia)) as [B1 B2].
    split; [apply Z.div_pos; [exact B1 | exact Hp] | ].
    apply Z.div_lt_upper_bound; [exact Hp | ].
    rewrite (Z.mul_comm (2 ^ (- e)) 24). exact B2. }
  rewrite (day_text _ _ Hrange).
  assert (Hlong : too_long (Zpos m / (24 * 2 ^ (- e))) = false).
  { apply too_long_small.
    assert (H0 : 0 <= Zpos m / (24 * 2 ^ (- e))) by (apply Z.div_pos; lia).
    rewrite Z.abs_eq by exact H0.
    apply Z.le_lt_trans with (Zpos m).
    - apply Z.div_le_upper_bound; [lia | ].
      clear - Hp. generalize dependent (2 ^ (- e)). intros. nia.
    - pose proof (digits2_pos_bounds m) as [_ Um]. rewrite Hd in Um.
      eapply Z.lt_le_trans; [exact Um | ]. apply Z.pow_le_mono_r; lia. }
  rewrite Hlong. f_equal.
  rewrite (readable_duration_dyadic m (- e)); try lia.
  - reflexivity.
  - unfold Py.F2Q. rewrite Hf.
    destruct e as [ | p | p]; try lia.
    + unfold Py.SF2Q. cbn. unfold Qeq. cbn. lia.
    + unfold Py.SF2Q. cbn [cond_Zopp]. change (- Zneg p) with (Zpos p).
      unfold Qeq. cbn [Qnum Qden].
      rewrite Z2Pos.id by (apply Z.pow_pos_nonneg; lia).
      rewrite Pos2Z.inj_pow. reflexivity.
Qed.

(** On every finite float below 2^53 the rendering is exact. *)
Lemma hours_to_readable_Float_exact (f : float) :
  is_finite (Py.Float f) = true ->
  Py.lt (Py.Float f) (Py.Int (2 ^ 53)) = true ->
  hours_to_readable (Py.Float f) = inr (readable_duration (Py.F2Q f)).
Proof.
  intros Hfin H53.
  destruct (Py.lt (Py.Float f) (Py.Int 24)) eqn:H24.
  - destruct (hours_to_readable_below_24 _ Hfin H24) as (H1 & H2 & _).
    cbn [exact_value] in H1, H2.
    rewrite (too_long_small _ (truncate_float_bound f Hfin)) in H1.
    rewrite H1, H2. reflexivity.
  - apply hours_to_readable_Float_day; assumption.
Qed.
(** ** The order of floats and their products *)

Lemma round53_scale (k : Z) :
  0 <= k -> forall p : positive, 53 <= Zpos (digits2_pos p) ->
  round53 (Zpos p * 2 ^ k) = round53 (Zpos p) * 2 ^ k.
Proof.
  intros Hk. pattern k. apply natlike_ind; [ | | exact Hk].
  - intros p _. rewrite Z.pow_0_r, !Z.mul_1_r. reflexivity.
  - intros n Hn IH p Hp.
    rewrite Z.pow_succ_r by exact Hn.
    replace (Zpos p * (2 * 2 ^ n)) with (Zpos p~0 * 2 ^ n)
      by (change (Zpos p~0) with (2 * Zpos p); ring).
    rewrite IH by (cbn [digits2_pos]; lia).
    rewrite round53_double by exact Hp. ring.
Qed.

(** Two 53-digit mantissas with their exponents are ordered as the
    integers they denote over a common exponent. *)
Lemma normal_le_scaled (m1 m2 : positive) (e1 e2 E : Z) :
  Zpos (digits2_pos m1) = 53 -> Zpos (digits2_pos m2) = 53 ->
  E <= e1 -> E <= e2 ->
  (Zpos m1 * 2 ^ (e1 - E) <= Zpos m2 * 2 ^ (e2 - E)
   <-> e1 < e2 \/ (e1 = e2 /\ Zpos m1 <= Zpos m2)).
Proof.
  intros D1 D2 H1 H2.
  pose proof (digits2_pos_bounds m1) as [L1 U1]. rewrite D1 in L1, U1.
  pose proof (digits2_pos_bounds m2) as [L2 U2]. rewrite D2 in L2, U2.
  change (53 - 1) with 52 in *.
  assert (E53 : 2 ^ 53 = 2 * 2 ^ 52) by reflexivity.
  generalize dependent (2 ^ 53). generalize dependent (2 ^ 52).
  intros P52 L1 L2 P53 U1 U2 E53. subst P53.
  assert (Hs : forall a b, E <= a -> a < b ->
            exists c, 2 <= c /\ 2 ^ (b - E) = c * 2 ^ (a - E) /\ 0 < 2 ^ (a - E)).
  { intros a b Ha Hab. exists (2 ^ (b - a)). split; [ | split].
    - change 2 with (2 ^ 1) at 1. apply Z.pow_le_mono_r; lia.
    - rewrite <- Z.pow_add_r by lia. f_equal. lia.
    - apply Z.pow_pos_nonneg; lia. }
  split.
  - intros H.
    destruct (Z.lt_trichotomy e1 e2) as [Hlt | [Heq | Hgt]]; [left; exact Hlt | | exfalso].
    + right. split; [exact Heq | ]. subst e2.
      assert (0 < 2 ^ (e1 - E)) by (apply Z.pow_pos_nonneg; lia). nia.
    + destruct (Hs e2 e1 H2 Hgt) as (c & Hc & Hp & Hpos). rewrite Hp in H. nia.
  - intros [Hlt | [Heq Hm]].
    + destruct (Hs e1 e2 H1 Hlt) as (c & Hc & Hp & Hpos). rewrite Hp. nia.
    + subst e2. assert (0 < 2 ^ (e1 - E)) by (apply Z.pow_pos_nonneg; lia). nia.
Qed.

Lemma normal_leb_inv (x y : spec_float) :
  normal_leb x y = true ->
  exists (mx my : positive) (ex ey : Z),
    x = S754_finite false mx ex /\ y = S754_finite false my ey
    /\ Zpos (digits2_pos mx) = 53 /\ Zpos (digits2_pos my) = 53
    /\ (ex < ey \/ (ex = ey /\ Zpos mx <= Zpos my)).
Proof.
  unfold normal_leb.
  destruct x as [ | | | [ | ] mx ex]; try discriminate.
  destruct y as [ | | | [ | ] my ey]; try discriminate.
  intros H. apply andb_true_iff in H. destruct H as [H H3].
  apply andb_true_iff in H. destruct H as [H1 H2].
  apply Z.eqb_eq in H1, H2.
  exists mx, my, ex, ey. repeat split; try assumption.
  apply orb_true_iff in H3. destruct H3 as [H3 | H3].
  - left. apply Z.ltb_lt. exact H3.
  - right. apply andb_true_iff in H3. destruct H3 as [H3 H4].
    apply Z.eqb_eq in H3. apply Z.leb_le in H4. split; assumption.
Qed.

Lemma normal_leb_intro (mx my : positive) (ex ey : Z) :
  Zpos (digits2_pos mx) = 53 -> Zpos (digits2_pos my) = 53 ->
  ex < ey \/ (ex = ey /\ Zpos mx <= Zpos my) ->
  normal_leb (S754_finite false mx ex) (S754_finite false my ey) = true.
Proof.
  intros D1 D2 H. unfold normal_leb. rewrite D1, D2. cbn [Z.eqb Pos.eqb andb].
  destruct H as [H | [H1 H2]].
  - apply Z.ltb_lt in H. rewrite H. reflexivity.
  - apply Z.eqb_eq in H1. apply Z.leb_le in H2. rewrite H1, H2. apply orb_true_r.
Qed.

(** Multiplication of positive normal floats is monotone, away from the
    subnormal and overflow ranges. *)
Lemma SF64mul_mono (mx1 mx2 my1 my2 : positive) (ex1 ex2 ey1 ey2 : Z) :
  normal_leb (S754_finite false mx1 ex1) (S754_finite false mx2 ex2) = true ->
  normal_leb (S754_finite false my1 ey1) (S754_finite false my2 ey2) = true ->
  -1126 <= ex1 + ey1 -> ex2 + ey2 <= 917 ->
  normal_leb (SF64mul (S754_finite false mx1 ex1) (S754_finite false my1 ey1))
             (SF64mul (S754_finite false mx2 ex2) (S754_finite false my2 ey2)) = true.
Proof.
  intros Hx Hy Hlo Hhi.
  apply normal_leb_inv in Hx. destruct Hx as (? & ? & ? & ? & E1 & E2 & Dx1 & Dx2 & Ox).
  injection E1 as <- <-. injection E2 as <- <-.
  apply normal_leb_inv in Hy. destruct Hy as (? & ? & ? & ? & E1 & E2 & Dy1 & Dy2 & Oy).
  injection E1 as <- <-. injection E2 as <- <-.
  assert (Hex : ex1 <= ex2) by lia. assert (Hey : ey1 <= ey2) by lia.
  destruct (SF64mul_pos mx1 my1 ex1 ey1 Dx1 Dy1 ltac:(lia)) as (m1 & e1 & M1 & D1 & B1 & V1).
  destruct (SF64mul_pos mx2 my2 ex2 ey2 Dx2 Dy2 ltac:(lia)) as (m2 & e2 & M2 & D2 & B2 & V2).
  rewrite M1, M2. apply normal_leb_intro; [exact D1 | exact D2 | ].
  apply (normal_le_scaled m1 m2 e1 e2 (ex1 + ey1) D1 D2); [lia | lia | ].
  rewrite V1.
  set (d := (ex2 + ey2) - (ex1 + ey1)).
  assert (Hd : 0 <= d) by (unfold d; lia).
  replace (e2 - (ex1 + ey1)) with (e2 - (ex2 + ey2) + d) by (unfold d; lia).
  rewrite Z.pow_add_r, Z.mul_assoc, V2 by lia.
  change (Zpos mx2 * Zpos my2) with (Zpos (mx2 * my2)).
  rewrite <- round53_scale by (try exact Hd; rewrite (digits2_pos_mul mx2 my2 Dx2 Dy2) || pose proof (digits2_pos_mul mx2 my2 Dx2 Dy2); lia).
  assert (Hp : 0 < 2 ^ d) by (apply Z.pow_pos_nonneg; lia).
  assert (Hle : Zpos (mx1 * my1) <= Zpos (mx2 * my2) * 2 ^ d).
  { apply (normal_le_scaled mx1 mx2 ex1 ex2 ex1 Dx1 Dx2 ltac:(lia) Hex) in Ox.
    apply (normal_le_scaled my1 my2 ey1 ey2 ey1 Dy1 Dy2 ltac:(lia) Hey) in Oy.
    rewrite Z.sub_diag, Z.pow_0_r, Z.mul_1_r in Ox, Oy.
    replace d with ((ex2 - ex1) + (ey2 - ey1)) by (unfold d; lia).
    rewrite Z.pow_add_r by lia. rewrite !Pos2Z.inj_mul.
    assert (0 < 2 ^ (ex2 - ex1)) by (apply Z.pow_pos_nonneg; lia).
    assert (0 < 2 ^ (ey2 - ey1)) by (apply Z.pow_pos_nonneg; lia).
    transitivity (Zpos mx2 * 2 ^ (ex2 - ex1) * (Zpos my2 * 2 ^ (ey2 - ey1))); [ | lia].
    apply Z.mul_le_mono_nonneg; lia. }
  destruct (Zpos (mx2 * my2) * 2 ^ d) as [ | q | q] eqn:Eq; try lia.
  change (Zpos mx1 * Zpos my1) with (Zpos (mx1 * my1)).
  apply round53_mono; [ | exact Hle].
  pose proof (digits2_pos_mul mx1 my1 Dx1 Dy1). lia.
Qed.

Lemma product_order_all :
  forallb (fun x => forallb (product_order_ok x) settings) settings = true.
Proof. vm_compute. reflexivity. Qed.

Lemma product_gap_all :
  forallb (fun x => forallb (product_gap_ok x) settings) settings = true.
Proof. vm_compute. reflexivity. Qed.

Lemma normal_leb_Qle (x y : spec_float) :
  normal_leb x y = true -> (Py.SF2Q x <= Py.SF2Q y)%Q.
Proof.
  intros H. apply normal_leb_inv in H.
  destruct H as (mx & my & ex & ey & -> & -> & Dx & Dy & O).
  set (E := Z.min (Z.min ex ey) (-1)).
  assert (HE : E < 0) by (unfold E; lia).
  rewrite (SF2Q_scaled mx ex E HE ltac:(unfold E; lia)).
  rewrite (SF2Q_scaled my ey E HE ltac:(unfold E; lia)).
  unfold Qle. cbn [Qnum Qden].
  apply Z.mul_le_mono_nonneg_r; [lia | ].
  apply (normal_le_scaled mx my ex ey E Dx Dy); [unfold E; lia | unfold E; lia | exact O].
Qed.

Lemma normal_leb_trans (x y z : spec_float) :
  normal_leb x y = true -> normal_leb y z = true -> normal_leb x z = true.
Proof.
  intros H1 H2.
  apply normal_leb_inv in H1. destruct H1 as (mx & my & ex & ey & -> & -> & Dx & Dy & O1).
  apply normal_leb_inv in H2. destruct H2 as (my' & mz & ey' & ez & E & -> & _ & Dz & O2).
  injection E as <- <-.
  apply normal_leb_intro; [exact Dx | exact Dz | ]. lia.
Qed.

(** On positive normal floats [<=] is [normal_leb]. *)
Lemma SFleb_normal (mx my : positive) (ex ey : Z) :
  Zpos (digits2_pos mx) = 53 -> Zpos (digits2_pos my) = 53 ->
  SFleb (S754_finite false mx ex) (S754_finite false my ey)
  = normal_leb (S754_finite false mx ex) (S754_finite false my ey).
Proof.
  intros Dx Dy. unfold SFleb, SFcompare, normal_leb.
  rewrite Dx, Dy. cbn [Z.eqb Pos.eqb andb].
  destruct (Z.compare_spec ex ey) as [E | L | G].
  - subst ey. rewrite Z.ltb_irrefl, Z.eqb_refl. cbn [orb andb].
    rewrite Pos.compare_cont_spec. cbn [Pos.switch_Eq].
    unfold Z.leb. cbn [Z.compare].
    destruct (Pos.compare mx my); reflexivity.
  - apply Z.ltb_lt in L. rewrite L. reflexivity.
  - assert (H1 : (ex <? ey) = false) by (apply Z.ltb_ge; lia).
    assert (H2 : (ex =? ey) = false) by (apply Z.eqb_neq; lia).
    rewrite H1, H2. reflexivity.
Qed.

Lemma leb_normal (x y : float) (mx my : positive) (ex ey : Z) :
  Prim2SF x = S754_finite false mx ex -> Zpos (digits2_pos mx) = 53 ->
  Prim2SF y = S754_finite false my ey -> Zpos (digits2_pos my) = 53 ->
  (x <=? y)%float = normal_leb (Prim2SF x) (Prim2SF y).
Proof.
  intros Hx Dx Hy Dy. rewrite leb_spec, Hx, Hy. apply SFleb_normal; assumption.
Qed.

Lemma product_ok_inv (c : float) :
  product_ok c = true ->
  exists (mc : positive) (ec : Z),
    Prim2SF c = S754_finite false mc ec /\ Zpos (digits2_pos mc) = 53 /\ -60 <= ec <= -3.
Proof.
  unfold product_ok.
  destruct (Prim2SF c) as [ | | | [ | ] mc ec]; try discriminate.
  intros Hok.
  repeat (apply andb_true_iff in Hok; destruct Hok as [Hok ?]).
  apply Z.eqb_eq in Hok.
  repeat match goal with H : (_ <=? _) = true |- _ => apply Z.leb_le in H end.
  exists mc, ec. repeat split; assumption.
Qed.

(** The jittered product follows the product and the jitter. *)
Lemma mul_jitter_mono (c1 c2 j1 j2 : float) :
  product_ok c1 = true -> product_ok c2 = true ->
  normal_leb (Prim2SF c1) (Prim2SF c2) = true ->
  Spec.jitter_ok j1 -> Spec.jitter_ok j2 -> (j1 <=? j2)%float = true ->
  normal_leb (Prim2SF (c1 * j1)) (Prim2SF (c2 * j2)) = true.
Proof.
  intros H1 H2 Hc J1 J2 Hj.
  destruct (product_ok_inv c1 H1) as (m1 & e1 & E1 & D1 & R1).
  destruct (product_ok_inv c2 H2) as (m2 & e2 & E2 & D2 & R2).
  destruct (jitter_ok_inv j1 J1) as (n1 & f1 & F1 & G1 & C1).
  destruct (jitter_ok_inv j2 J2) as (n2 & f2 & F2 & G2 & C2).
  assert (B1 : -53 <= f1 <= -52) by (destruct C1 as [[-> _] | [-> _]]; split; discriminate).
  assert (B2 : -53 <= f2 <= -52) by (destruct C2 as [[-> _] | [-> _]]; split; discriminate).
  clear C1 C2 H1 H2 J1 J2.
  rewrite (leb_normal j1 j2 n1 n2 f1 f2 F1 G1 F2 G2) in Hj.
  rewrite F1, F2 in Hj. rewrite E1, E2 in Hc.
  rewrite !mul_spec, E1, E2, F1, F2.
  apply SF64mul_mono; try assumption; lia.
Qed.

Lemma tenths_mono (p1 p2 : float) :
  normal_leb (Prim2SF p1) (Prim2SF p2) = true -> tenths p1 <= tenths p2.
Proof.
  intros H. unfold tenths. apply round_half_even_mono.
  apply Qmult_le_compat_r; [ | vm_compute; discriminate].
  apply normal_leb_Qle. exact H.
Qed.

(** Rounding a jittered product to one decimal: the decimal read back. *)
Lemma round_tenths (c j : float) :
  product_ok c = true -> Spec.jitter_ok j ->
  Py.round (c * j) 1 = decimal (tenths (c * j)) /\ 52 <= tenths (c * j) <= 1450.
Proof.
  intros Hok Hj.
  destruct (product_ok_bounds c j Hok Hj) as (m & e & E & Lo & Hi).
  unfold Py.round, tenths, decimal, Py.F2Q. rewrite E.
  set (q := Py.SF2Q (S754_finite false m e)) in *.
  change (inject_Z (10 ^ Z.of_N 1)) with (inject_Z 10).
  assert (H10 : (0 <= inject_Z 10)%Q) by (vm_compute; discriminate).
  pose proof (round_half_even_mono _ _ (Qmult_le_compat_r _ _ _ Lo H10)) as L.
  pose proof (round_half_even_mono _ _ (Qmult_le_compat_r _ _ _ Hi H10)) as U.
  change (Py.round_half_even ((5184 # 1000) * inject_Z 10)) with 52 in L.
  change (Py.round_half_even ((145 # 1) * inject_Z 10)) with 1450 in U.
  destruct (Py.round_half_even (q * inject_Z 10)) as [ | d | d]; try lia.
  split; [reflexivity | lia].
Qed.
Lemma decimal_step_all : forallb decimal_step_ok decimals = true.
Proof. vm_compute. reflexivity. Qed.

Lemma decimal_compare_all : forallb decimal_compare_ok decimals = true.
Proof. vm_compute. reflexivity. Qed.

Lemma decimal_text_all : forallb decimal_text_ok decimals = true.
Proof. vm_compute. reflexivity. Qed.

Lemma decimals_In (d : Z) : 52 <= d <= 1450 -> In d decimals.
Proof.
  intros Hd. unfold decimals. rewrite <- (Z2Nat.id d) by lia.
  apply in_map. apply in_seq. lia.
Qed.

(** The strict order of two positive normal floats. *)
Lemma normal_lt_inv (x y : spec_float) :
  normal_leb x y = true -> normal_leb y x = false ->
  exists (mx my : positive) (ex ey : Z),
    x = S754_finite false mx ex /\ y = S754_finite false my ey
    /\ Zpos (digits2_pos mx) = 53 /\ Zpos (digits2_pos my) = 53
    /\ (ex < ey \/ (ex = ey /\ Zpos mx < Zpos my)).
Proof.
  intros H1 H2. apply normal_leb_inv in H1.
  destruct H1 as (mx & my & ex & ey & -> & -> & Dx & Dy & O).
  exists mx, my, ex, ey. repeat split; try assumption.
  destruct (Z_lt_le_dec ex ey) as [L | G]; [left; exact L | right].
  destruct (Z_lt_le_dec (Zpos mx) (Zpos my)) as [L' | G']; [lia | exfalso].
  rewrite normal_leb_intro in H2; [discriminate | assumption | assumption | lia].
Qed.

Lemma lt_Float_normal (a b : float) (ma mb : positive) (ea eb : Z) :
  Prim2SF a = S754_finite false ma ea -> Prim2SF b = S754_finite false mb eb ->
  ea < eb \/ (ea = eb /\ Zpos ma < Zpos mb) ->
  Py.lt (Py.Float a) (Py.Float b) = true.
Proof.
  intros Ha Hb O. unfold Py.lt, Py.compare. rewrite Ha, Hb. unfold SFcompare.
  destruct (Z.compare_spec ea eb) as [E | L | G]; [ | reflexivity | exfalso; lia].
  destruct O as [O | [_ O]]; [exfalso; lia | ].
  rewrite Pos.compare_cont_spec. cbn [Pos.switch_Eq].
  apply Pos2Z.pos_lt_pos in O. apply Pos.compare_lt_iff in O. rewrite O. reflexivity.
Qed.

Lemma le_Float_normal (a b : float) :
  normal_leb (Prim2SF a) (Prim2SF b) = true -> Py.le (Py.Float a) (Py.Float b) = true.
Proof.
  intros H. pose proof H as H'. apply normal_leb_inv in H'.
  destruct H' as (ma & mb & ea & eb & Ha & Hb & Da & Db & _).
  rewrite Ha, Hb in H. rewrite <- SFleb_normal in H by assumption.
  unfold Py.le, Py.compare. rewrite Ha, Hb. unfold SFleb in H.
  destruct (SFcompare _ _) as [[ | | ] | ]; try discriminate; reflexivity.
Qed.

(** The floats of the tenths from 5.2 to 145.1 are positive normal floats
    in the order of the tenths. *)
Lemma decimal_lt_normal (n : nat) (d : Z) :
  52 <= d -> d + 1 + Z.of_nat n <= 1451 ->
  exists (ma mb : positive) (ea eb : Z),
    Prim2SF (decimal d) = S754_finite false ma ea
    /\ Prim2SF (decimal (d + 1 + Z.of_nat n)) = S754_finite false mb eb
    /\ Zpos (digits2_pos ma) = 53 /\ Zpos (digits2_pos mb) = 53
    /\ (ea < eb \/ (ea = eb /\ Zpos ma < Zpos mb)).
Proof.
  assert (Step : forall k, 52 <= k <= 1450 ->
            exists (ma mb : positive) (ea eb : Z),
              Prim2SF (decimal k) = S754_finite false ma ea
              /\ Prim2SF (decimal (k + 1)) = S754_finite false mb eb
              /\ Zpos (digits2_pos ma) = 53 /\ Zpos (digits2_pos mb) = 53
              /\ (ea < eb \/ (ea = eb /\ Zpos ma < Zpos mb))).
  { intros k Hk. pose proof decimal_step_all as H.
    rewrite forallb_forall in H. specialize (H k (decimals_In k Hk)).
    unfold decimal_step_ok in H. apply andb_true_iff in H. destruct H as [H1 H2].
    apply negb_true_iff in H2. apply normal_lt_inv; assumption. }
  induction n as [ | n IH]; intros Hlo Hhi.
  - rewrite Z.add_0_r. apply Step. lia.
  - destruct IH as (ma & mb & ea & eb & Ha & Hb & Da & Db & O); [lia | lia | ].
    destruct (Step (d + 1 + Z.of_nat n)) as (mb' & mc & eb' & ec & Hb' & Hc & _ & Dc & O');
      [lia | ].
    rewrite Hb in Hb'. injection Hb' as <- <-.
    replace (d + 1 + Z.of_nat (S n)) with (d + 1 + Z.of_nat n + 1) by lia.
    exists ma, mc, ea, ec. repeat split; try assumption. lia.
Qed.

Lemma decimal_lt (d1 d2 : Z) :
  52 <= d1 -> d1 < d2 -> d2 <= 1450 ->
  Py.lt (Py.Float (decimal d1)) (Py.Float (decimal d2)) = true.
Proof.
  intros H1 H12 H2.
  destruct (decimal_lt_normal (Z.to_nat (d2 - d1 - 1)) d1) as
    (ma & mb & ea & eb & Ha & Hb & _ & _ & O); [lia | lia | ].
  replace (d1 + 1 + Z.of_nat (Z.to_nat (d2 - d1 - 1))) with d2 in Hb by lia.
  eapply lt_Float_normal; eassumption.
Qed.

Lemma decimal_le (d1 d2 : Z) :
  52 <= d1 -> d1 <= d2 -> d2 <= 1450 ->
  Py.le (Py.Float (decimal d1)) (Py.Float (decimal d2)) = true.
Proof.
  intros H1 H12 H2.
  assert (C : d1 = d2 \/ d1 < d2) by lia. destruct C as [<- | C].
  - destruct (decimal_lt_normal 0 d1) as (ma & mb & ea & eb & Ha & _ & Da & _ & _);
      [lia | lia | ].
    apply le_Float_normal. rewrite Ha. apply normal_leb_intro; try assumption. lia.
  - pose proof (decimal_lt d1 d2 H1 C H2) as H. unfold Py.lt in H. unfold Py.le.
    destruct (Py.compare _ _) as [[ | | ] | ]; try discriminate; reflexivity.
Qed.

Lemma decimal_compare (d : Z) :
  52 <= d <= 1450 ->
  Py.gt (Py.Float (decimal d)) (Py.Int 72) = (720 <? d)
  /\ Py.lt (Py.Float (decimal d)) (Py.Int 24) = (d <? 240).
Proof.
  intros Hd. pose proof decimal_compare_all as H.
  rewrite forallb_forall in H. specialize (H d (decimals_In d Hd)).
  unfold decimal_compare_ok in H. apply andb_true_iff in H. destruct H as [H1 H2].
  apply Bool.eqb_prop in H1, H2. split; assumption.
Qed.

Lemma decimal_text (d : Z) :
  52 <= d <= 1450 ->
  hours_to_readable (Py.Float (decimal d)) = inr (readable_duration (d # 10)).
Proof.
  intros Hd. pose proof decimal_text_all as H.
  rewrite forallb_forall in H. specialize (H d (decimals_In d Hd)).
  unfold decimal_text_ok in H.
  destruct (hours_to_readable (Py.Float (decimal d))) as [e | s]; [discriminate | ].
  apply String.eqb_eq in H. rewrite H. reflexivity.
Qed.

(** ** The estimator over the settings of the rate tables *)

Lemma settings_In (category : string) (l : Spec.Location) (s : Spec.ShippingMethod) :
  In (Spec.categoryHours category, l, s) settings.
Proof.
  unfold settings. apply in_prod; [apply in_prod | ].
  - apply categoryHours_cases.
  - destruct l; cbn; tauto.
  - destruct s; cbn; tauto.
Qed.

Lemma settings_forall (P : setting -> bool) :
  forallb P settings = true ->
  forall (category : string) (l : Spec.Location) (s : Spec.ShippingMethod),
    P (Spec.categoryHours category, l, s) = true.
Proof.
  intros H category l s. rewrite forallb_forall in H. apply H. apply settings_In.
Qed.

Lemma settings_forall2 (P : setting -> setting -> bool) :
  forallb (fun x => forallb (P x) settings) settings = true ->
  forall x y : setting, In x settings -> In y settings -> P x y = true.
Proof.
  intros H x y Hx Hy. rewrite forallb_forall in H. specialize (H x Hx).
  rewrite forallb_forall in H. apply H. exact Hy.
Qed.

Lemma product_ok_setting (x : setting) : In x settings -> product_ok (product x) = true.
Proof.
  destruct x as [[b l] s]. unfold settings. intros H.
  apply in_prod_iff in H. destruct H as [H _].
  apply in_prod_iff in H. destruct H as [H _].
  apply product_ok_all. exact H.
Qed.

Lemma product_refl (x : setting) :
  In x settings -> normal_leb (Prim2SF (product x)) (Prim2SF (product x)) = true.
Proof.
  intros H. destruct (product_ok_inv _ (product_ok_setting x H)) as (m & e & E & D & _).
  rewrite E. apply normal_leb_intro; try assumption. lia.
Qed.

Lemma jitter_ok_lo : Spec.jitter_ok 0.9.
Proof. split; vm_compute; reflexivity. Qed.

Lemma jitter_ok_hi : Spec.jitter_ok 1.1.
Proof. split; vm_compute; reflexivity. Qed.

(** The tenths of an estimate lie between those of the least and of the
    greatest jitter. *)
Lemma tenths_between (x : setting) (j : float) :
  In x settings -> Spec.jitter_ok j ->
  tenths (product x * 0.9) <= tenths (product x * j) <= tenths (product x * 1.1).
Proof.
  intros Hx Hj. pose proof (product_ok_setting x Hx) as Hok.
  pose proof (product_refl x Hx) as Hr.
  split; apply tenths_mono; apply mul_jitter_mono; try assumption;
    try apply jitter_ok_lo; try apply jitter_ok_hi; apply Hj.
Qed.

(** The estimator on a setting of the tables, with a jitter in its
    interval: the float of the tenths of the jittered product. *)
Lemma predict_delivery_time_tenths
    (category : string) (l : Spec.Location) (s : Spec.ShippingMethod) (g : rng) :
  Spec.jitter_ok (g 0%nat) ->
  let d := tenths (product (Spec.categoryHours category, l, s) * g 0%nat) in
  predict_delivery_time category (Spec.location_name l) (Spec.shipping_name s) g
    = (inr (Py.Float (decimal d)), rng_tail g)
  /\ 52 <= d <= 1450.
Proof.
  intros Hj d.
  destruct (predict_delivery_time_valid category l s g Hj) as (Hp & _).
  pose proof (product_ok_setting _ (settings_In category l s)) as Hok.
  destruct (round_tenths _ _ Hok Hj) as [Hr Hd].
  rewrite Hp. unfold Spec.predicted. cbn [product] in Hr, Hd. fold d in Hd.
  split; [ | exact Hd]. rewrite Hr. reflexivity.
Qed.
(** The days and hours of an exact duration of a day or more: a division
    with remainder of the whole hours by 24. *)
Lemma readable_duration_parts (q : Q) :
  (24 <= q)%Q ->
  exists days remaining_hours : Z,
    1 <= days /\ 0 <= remaining_hours < 24
    /\ 24 * days + remaining_hours = Qfloor q
    /\ readable_duration q
       = (if remaining_hours =? 0 then
            Py.numeral days ++ " " ++ pluralize "day" days
          else
            Py.numeral days ++ " " ++ pluralize "day" days
            ++ " and " ++ Py.numeral remaining_hours ++ " " ++ pluralize "hour" remaining_hours).
Proof.
  intros H. unfold readable_duration.
  assert (Hb : Qle_bool 24 q = true) by (apply Qle_bool_iff; exact H).
  rewrite Hb. destruct q as [a b].
  unfold Qle in H. cbn [Qnum Qden] in H. rewrite Z.mul_1_r in H.
  assert (Hdays : Qfloor ((a # b) / 24) = a / Zpos b / 24).
  { unfold Qdiv, Qinv, Qmult. cbn [Qnum Qden].
    rewrite Qfloor_Qmake, Pos2Z.inj_mul, Z.mul_1_r, Z.div_div by lia. reflexivity. }
  rewrite Hdays.
  assert (Hrem : Qfloor ((a # b) - inject_Z (24 * (a / Zpos b / 24))) = (a / Zpos b) mod 24).
  { unfold Qminus, Qplus, Qopp, inject_Z. cbn [Qnum Qden].
    rewrite Qfloor_Qmake, Pos.mul_1_r, !Z.mul_1_r.
    rewrite Z.div_add by lia. rewrite (Z.mod_eq (a / Zpos b) 24) by lia. ring. }
  rewrite Hrem.
  exists (a / Zpos b / 24), ((a / Zpos b) mod 24).
  assert (H24 : 24 <= a / Zpos b) by (apply Z.div_le_lower_bound; lia).
  split; [apply Z.div_le_lower_bound; lia | ].
  split; [apply Z.mod_pos_bound; lia | ].
  split; [ | reflexivity].
  rewrite Qfloor_Qmake. rewrite (Z.div_mod (a / Zpos b) 24) at 3 by lia. reflexivity.
Qed.

Lemma Qle_24_exact (hours : Py.num) :
  is_finite hours = true -> Py.lt hours (Py.Int 24) = false ->
  (24 <= exact_value hours)%Q.
Proof.
  intros Hfin H. rewrite (lt_Int_exact _ _ Hfin) in H.
  apply negb_false_iff, Qle_bool_iff in H. exact H.
Qed.

(** ** Non-negative durations *)

Lemma compare_Int_exact (x : Py.num) (n : Z) :
  is_finite x = true ->
  Py.compare x (Py.Int n) = Some (exact_value x ?= inject_Z n)%Q.
Proof.
  intros H. destruct x as [z | f]; cbn [Py.compare exact_value].
  - unfold Qcompare. cbn. rewrite !Z.mul_1_r. reflexivity.
  - unfold is_finite in H. unfold Py.SFcompare_Z, Py.F2Q.
    destruct (Prim2SF f) as [s | s | | s m e]; try discriminate; try reflexivity.
    cbn [Py.SF2Q]. unfold Qcompare. cbn. rewrite Z.mul_1_r. reflexivity.
Qed.

Lemma ge_Int_exact (x : Py.num) (n : Z) :
  is_finite x = true -> Py.ge x (Py.Int n) = true -> (inject_Z n <= exact_value x)%Q.
Proof.
  intros H. unfold Py.ge. rewrite (compare_Int_exact x n H).
  destruct (Qcompare_spec (exact_value x) (inject_Z n)) as [E | L | G];
    intros C; try discriminate.
  - rewrite E. apply Qle_refl.
  - apply Qlt_le_weak. exact G.
Qed.

(** A number between two ints is finite. *)
Lemma finite_between (x : Py.num) (a b : Z) :
  Py.ge x (Py.Int a) = true -> Py.lt x (Py.Int b) = true -> is_finite x = true.
Proof.
  destruct x as [z | f]; [reflexivity | ].
  unfold Py.ge, Py.lt, Py.compare, Py.SFcompare_Z, is_finite.
  destruct (Prim2SF f) as [s | s | | s m e]; try reflexivity;
    [destruct s | ]; intros H1 H2; discriminate.
Qed.

Lemma leading_count_Int (z : Z) :
  leading_count (inject_Z z) = if z <? 24 then z else z / 24.
Proof.
  unfold leading_count.
  assert (Hb : Qle_bool 24 (inject_Z z) = negb (z <? 24)).
  { unfold Qle_bool. cbn [Qnum Qden inject_Z]. rewrite !Z.mul_1_r.
    rewrite Z.ltb_antisym, negb_involutive. reflexivity. }
  rewrite Hb. destruct (z <? 24); cbn [negb].
  - apply truncate_inject_Z.
  - unfold Qdiv, Qinv, Qmult, inject_Z. cbn [Qnum Qden].
    rewrite Qfloor_Qmake, Z.mul_1_r. reflexivity.
Qed.

Lemma too_long_value (z : Z) : too_long z = (10 ^ 4300 <=? Z.abs z).
Proof. unfold too_long. rewrite int_max_str_bound_value. reflexivity. Qed.


(** The whole hours of a non-negative duration below a day. *)
Lemma truncate_sub_day (q : Q) :
  (0 <= q)%Q -> Qle_bool 24 q = false -> 0 <= truncate q < 24.
Proof.
  intros H0 H24. unfold truncate.
  assert (Hb : Qle_bool 0 q = true) by (apply Qle_bool_iff; exact H0).
  rewrite Hb. split.
  - change 0 with (Qfloor 0). apply Qfloor_resp_le. exact H0.
  - assert (Hlt : (q < 24)%Q).
    { apply Qnot_le_lt. intros C. apply Qle_bool_iff in C. congruence. }
    destruct q as [a b]. unfold Qlt in Hlt. cbn [Qnum Qden] in Hlt.
    rewrite Z.mul_1_r in Hlt. rewrite Qfloor_Qmake.
    apply Z.div_lt_upper_bound; lia.
Qed.
Lemma product_range_all : forallb product_range_ok settings = true.
Proof. vm_compute. reflexivity. Qed.

Lemma product_shipping_all : forallb product_shipping_ok settings = true.
Proof. vm_compute. reflexivity. Qed.

Lemma decimal_52 : decimal 52 = 5.2%float.
Proof. vm_compute. reflexivity. Qed.

Lemma decimal_1441 : decimal 1441 = 144.1%float.
Proof. vm_compute. reflexivity. Qed.

(** The notes of the insight rules, rule by rule. *)
Lemma get_delivery_insights_notes
    (category location shipping : string) (predicted_hours : Py.num) :
  get_delivery_insights category location shipping predicted_hours
  = (Spec.notes (Spec.shipping_rule shipping)
     ++ Spec.notes (Spec.location_rule location)
     ++ Spec.notes (Spec.category_rule category)
     ++ Spec.notes (Spec.duration_rule predicted_hours))%list.
Proof.
  unfold get_delivery_insights, Spec.shipping_rule, Spec.location_rule,
    Spec.category_rule, Spec.duration_rule.
  destruct (String.eqb shipping "Overnight"), (String.eqb shipping "Economy"),
    (String.eqb location "Rural"), (String.eqb location "Urban"),
    (String.eqb category "Home & Garden"), (String.eqb category "Books"),
    (Py.gt predicted_hours (Py.Int 72)), (Py.lt predicted_hours (Py.Int 24));
    reflexivity.
Qed.

(** A note of the duration rule is no note of the three other rules. *)
Lemma duration_note_only (note : string) (category location shipping : string) :
  note = Spec.suggest_express_note \/ note = Spec.fast_delivery_note ->
  ~ In note (Spec.notes (Spec.shipping_rule shipping)
             ++ Spec.notes (Spec.location_rule location)
             ++ Spec.notes (Spec.category_rule category))%list.
Proof.
  intros Hn Hin.
  unfold Spec.shipping_rule, Spec.location_rule, Spec.category_rule in Hin.
  destruct (String.eqb shipping "Overnight"), (String.eqb shipping "Economy"),
    (String.eqb location "Rural"), (String.eqb location "Urban"),
    (String.eqb category "Home & Garden"), (String.eqb category "Books");
    cbn in Hin;
    repeat (destruct Hin as [Hin | Hin]; [destruct Hn as [-> | ->]; discriminate Hin | ]);
    exact Hin.
Qed.

Lemma locations_names (location : string) :
  In location locations -> exists l : Spec.Location, location = Spec.location_name l.
Proof.
  cbn. intros [<- | [<- | [<- | []]]];
    [exists Spec.Urban | exists Spec.Suburban | exists Spec.Rural]; reflexivity.
Qed.

Lemma shipping_methods_names (shipping : string) :
  In shipping shipping_methods ->
  exists s : Spec.ShippingMethod, shipping = Spec.shipping_name s.
Proof.
  cbn. intros [<- | [<- | [<- | [<- | []]]]];
    [exists Spec.Standard | exists Spec.Express | exists Spec.Overnight | exists Spec.Economy];
    reflexivity.
Qed.

Lemma location_name_inj (l1 l2 : Spec.Location) :
  Spec.location_name l1 = Spec.location_name l2 -> l1 = l2.
Proof. destruct l1, l2; cbn; intros H; try reflexivity; discriminate H. Qed.

Lemma shipping_name_inj (s1 s2 : Spec.ShippingMethod) :
  Spec.shipping_name s1 = Spec.shipping_name s2 -> s1 = s2.
Proof. destruct s1, s2; cbn; intros H; try reflexivity; discriminate H. Qed.

Lemma rng_drop_0 (i : nat) (g : rng) : rng_drop i g 0%nat = g i.
Proof.
  revert g. induction i as [ | i IH]; intros g; [reflexivity | ].
  unfold rng_drop in *. rewrite Nat.iter_succ_r. rewrite IH. reflexivity.
Qed.

(** The estimate of a row of the table, with a jitter in its interval. *)
Lemma estimate_tenths
    (category : string) (l : Spec.Location) (s : Spec.ShippingMethod) (g : rng) :
  Spec.jitter_ok (g 0%nat) ->
  estimate category (Spec.location_name l) (Spec.shipping_name s) g
  = Py.Float (decimal (tenths (product (Spec.categoryHours category, l, s) * g 0%nat))).
Proof.
  intros Hj. unfold estimate.
  destruct (predict_delivery_time_tenths category l s g Hj) as [-> _]. reflexivity.
Qed.

(** The tenths of two estimates whose rates are ordered, one of them
    strictly: the lower rates give fewer tenths, whatever the two jitters. *)
Lemma tenths_gap (x y : setting) (j1 j2 : float) :
  In x settings -> In y settings ->
  rates_leb x y = true -> rates_ltb x y = true ->
  Spec.jitter_ok j1 -> Spec.jitter_ok j2 ->
  tenths (product x * j1) < tenths (product y * j2).
Proof.
  intros Hx Hy Hle Hlt J1 J2.
  pose proof (settings_forall2 product_gap_ok product_gap_all x y Hx Hy) as H.
  unfold product_gap_ok in H. rewrite Hle, Hlt in H. cbn [andb implb] in H.
  apply Z.ltb_lt in H.
  pose proof (tenths_between x j1 Hx J1) as [_ B1].
  pose proof (tenths_between y j2 Hy J2) as [B2 _].
  lia.
Qed.

(** The tenths of two estimates follow the rates and the jitter. *)
Lemma tenths_order (x y : setting) (j1 j2 : float) :
  In x settings -> In y settings ->
  rates_leb x y = true ->
  Spec.jitter_ok j1 -> Spec.jitter_ok j2 -> (j1 <=? j2)%float = true ->
  tenths (product x * j1) <= tenths (product y * j2).
Proof.
  intros Hx Hy Hle J1 J2 Hj.
  pose proof (settings_forall2 product_order_ok product_order_all x y Hx Hy) as H.
  unfold product_order_ok in H. rewrite Hle in H. cbn [implb] in H.
  apply tenths_mono. apply mul_jitter_mono; try assumption;
    apply product_ok_setting; assumption.
Qed.

(** The tenths of an estimate lie between 52 and 1441. *)
Lemma tenths_range (x : setting) (j : float) :
  In x settings -> Spec.jitter_ok j -> 52 <= tenths (product x * j) <= 1441.
Proof.
  intros Hx Hj. pose proof (tenths_between x j Hx Hj) as [B1 B2].
  pose proof product_range_all as Hr. rewrite forallb_forall in Hr.
  specialize (Hr x Hx). unfold product_range_ok in Hr.
  apply andb_true_iff in Hr. destruct Hr as [R1 R2].
  apply Z.leb_le in R1, R2. lia.
Qed.

(** A row of the table: its place, its combination and its estimate. *)
Lemma expected_rows_In (g : rng) (r : row) :
  In r (expected_rows g) ->
  exists (i : nat) (l : Spec.Location) (s : Spec.ShippingMethod),
    (i < 84)%nat
    /\ Location r = Spec.location_name l
    /\ Shipping_Method r = Spec.shipping_name s
    /\ Delivery_Time_Hours r
       = estimate (Product_Category r) (Spec.location_name l) (Spec.shipping_name s)
                  (rng_drop i g).
Proof.
  intros Hin. apply In_nth_error in Hin. destruct Hin as [i Hi].
  destruct (expected_rows_nth g i r Hi) as (category & location & shipping & Hk & ->).
  assert (Hlt : (i < 84)%nat).
  { change 84%nat with (length combinations). apply nth_error_Some. congruence. }
  apply nth_error_In in Hk. apply combinations_valid in Hk. destruct Hk as [Hl Hs].
  destruct (locations_names location Hl) as [l ->].
  destruct (shipping_methods_names shipping Hs) as [s ->].
  exists i, l, s. cbn [Product_Category Location Shipping_Method Delivery_Time_Hours].
  repeat split. exact Hlt.
Qed.

(** What the duration rule says of the float of [d / 10]. *)
Lemma duration_rule_decimal (d : Z) :
  52 <= d <= 1450 ->
  Spec.duration_rule (Py.Float (decimal d))
  = if 720 <? d then Some Spec.suggest_express_note
    else if d <? 240 then Some Spec.fast_delivery_note
    else None.
Proof.
  intros Hd. destruct (decimal_compare d Hd) as [Hgt Hlt].
  unfold Spec.duration_rule. rewrite Hgt, Hlt. reflexivity.
Qed.

(** The tenths of an estimate, by shipping method. *)
Lemma tenths_fast_shipping (b : Z) (l : Spec.Location) (s : Spec.ShippingMethod) (j : float) :
  In (b, l, s) settings -> Spec.jitter_ok j ->
  s = Spec.Overnight \/ s = Spec.Express ->
  tenths (product (b, l, s) * j) <= 720.
Proof.
  intros Hx Hj Hs.
  pose proof (tenths_between _ j Hx Hj) as [_ B].
  pose proof product_shipping_all as H. rewrite forallb_forall in H.
  specialize (H _ Hx). unfold product_shipping_ok in H. cbn [snd] in H.
  destruct Hs as [E | E]; rewrite E in H, B |- *; apply Z.leb_le in H; lia.
Qed.

Lemma tenths_economy_shipping (b : Z) (l : Spec.Location) (j : float) :
  In (b, l, Spec.Economy) settings -> Spec.jitter_ok j ->
  240 <= tenths (product (b, l, Spec.Economy) * j).
Proof.
  intros Hx Hj.
  pose proof (tenths_between _ j Hx Hj) as [B _].
  pose proof product_shipping_all as H. rewrite forallb_forall in H.
  specialize (H _ Hx). unfold product_shipping_ok in H. cbn [snd] in H.
  apply Z.leb_le in H. lia.
Qed.

(** A note the duration rule does not give is not among the insights. *)
Lemma duration_note_absent (note category location shipping : string) (hours : Py.num) :
  note = Spec.suggest_express_note \/ note = Spec.fast_delivery_note ->
  Spec.duration_rule hours <> Some note ->
  ~ In note (get_delivery_insights category location shipping hours).
Proof.
  intros Hn Hd Hin.
  rewrite get_delivery_insights_notes, !app_assoc in Hin.
  apply in_app_or in Hin. destruct Hin as [Hin | Hin].
  - rewrite <- !app_assoc in Hin.
    apply (duration_note_only note category location shipping Hn Hin).
  - destruct (Spec.duration_rule hours) as [n | ]; cbn in Hin.
    + destruct Hin as [Hin | []]. apply Hd. rewrite Hin. reflexivity.
    + exact Hin.
Qed.

(** ** The claims *)

(** C1: for every category, location and shipping method of the
    enumerations and every jitter in [0.9, 1.1], the estimator returns
    exactly max(2.0, round(base * locationFactor * shippingFactor * jitter, 1))
    with the base hours and factors of the specification's tables, and
    draws one number from the generator. *)
Theorem predict_is_formula
    (c : Spec.Category) (l : Spec.Location) (s : Spec.ShippingMethod) (g : rng) :
  Spec.jitter_ok (g 0%nat) ->
  predict_delivery_time (Spec.category_name c) (Spec.location_name l)
                        (Spec.shipping_name s) g
  = (inr (Py.Float (Spec.result (Spec.base c) l s (g 0%nat))), rng_tail g).
Proof.
  intros Hj.
  destruct (predict_delivery_time_valid (Spec.category_name c) l s g Hj)
    as (Hp & _ & Hgt & _).
  rewrite categoryHours_valid in Hp, Hgt.
  rewrite Hp. unfold Spec.result, Spec.fmax. rewrite Hgt. reflexivity.
Qed.

Lemma predict_is_formula_witness :
  predict_delivery_time "Books" "Urban" "Overnight" (fun _ => 0.9%float)
  = (inr (Py.Float 5.2), rng_tail (fun _ => 0.9%float)).
Proof.
  apply (predict_is_formula Spec.Books Spec.Urban Spec.Overnight (fun _ => 0.9%float)).
  split; vm_compute; reflexivity.
Defined.

(** C2: for every category string, every location and shipping method of
    the enumerations and any number of repeated calls, every value the
    estimator returns is at least 2.0, whatever numbers the generator
    yields (in particular for every jitter in [0.9, 1.1]). *)
Theorem predict_at_least_2
    (category : string) (l : Spec.Location) (s : Spec.ShippingMethod)
    (n : nat) (g : rng) :
  exists vs : list Py.num,
    repeat_call n (predict_delivery_time category (Spec.location_name l)
                                         (Spec.shipping_name s)) g
      = (inr vs, Nat.iter n rng_tail g)
    /\ length vs = n
    /\ Forall (fun v => Py.ge v (Py.Float 2) = true) vs.
Proof.
  revert g. induction n as [ | n IH]; intros g.
  - exists []. repeat split. constructor.
  - destruct (predict_delivery_time_ge_2 category l s g) as (v & Hv & Hge).
    destruct (IH (rng_tail g)) as (vs & Hvs & Hlen & Hall).
    exists (v :: vs). cbn [repeat_call]. unfold bind at 1. rewrite Hv.
    unfold bind at 1. rewrite Hvs. unfold ret.
    split; [ | split; [cbn; congruence | constructor; assumption]].
    f_equal. symmetry. apply Nat.iter_succ_r.
Qed.

(** C3: for every category string and every state of the generator, the
    estimator raises an error for the offending key, without drawing a
    number and without any default, whenever the location is outside
    {Urban, Suburban, Rural} or the shipping method is outside
    {Overnight, Express, Standard, Economy}. *)
Theorem predict_rejects_unknown (category location shipping : string) (g : rng) :
  ~ Spec.valid_location location \/ ~ Spec.valid_shipping shipping ->
  exists key : string,
    (key = location \/ key = shipping)
    /\ predict_delivery_time category location shipping g = (inl (Py.KeyError key), g).
Proof.
  intros H. rewrite predict_delivery_time_unfold.
  destruct (dict_lookup location_multipliers location) as [lf | ] eqn:Hl.
  - destruct H as [H | H].
    + rewrite dict_lookup_none in Hl by exact H. discriminate.
    + rewrite dict_lookup_none by exact H.
      exists shipping. split; [right | ]; reflexivity.
  - exists location. split; [left | ]; reflexivity.
Qed.

Lemma predict_rejects_unknown_witness :
  (exists key : string,
      (key = "Moon" \/ key = "Standard")
      /\ predict_delivery_time "Electronics" "Moon" "Standard" (fun _ => 1%float)
         = (inl (Py.KeyError key), fun _ => 1%float))
  /\ (exists key : string,
      (key = "Urban" \/ key = "Teleport")
      /\ predict_delivery_time "Electronics" "Urban" "Teleport" (fun _ => 1%float)
         = (inl (Py.KeyError key), fun _ => 1%float)).
Proof.
  split.
  - apply (predict_rejects_unknown "Electronics" "Moon" "Standard" (fun _ => 1%float)).
    left. intros H. cbn in H. repeat (destruct H as [H | H]; [discriminate | ]). exact H.
  - apply (predict_rejects_unknown "Electronics" "Urban" "Teleport" (fun _ => 1%float)).
    right. intros H. cbn in H. repeat (destruct H as [H | H]; [discriminate | ]). exact H.
Defined.

(** C4: for every location and shipping method of the enumerations and
    every state of the generator, a category string outside the seven
    categories does not make the estimator fail: the base is the default of
    48 hours, and the call returns what it returns, from the same state, for
    Electronics, Sports and Toys. *)
Theorem predict_unknown_category
    (category : string) (l : Spec.Location) (s : Spec.ShippingMethod) (g : rng) :
  ~ Spec.valid_category category ->
  let call c := predict_delivery_time c (Spec.location_name l) (Spec.shipping_name s) g in
  call category
    = (inr (Py.max (Py.Int 2)
              (Py.Float (Py.round (Spec.predicted Spec.default_base l s (g 0%nat)) 1))),
       rng_tail g)
  /\ call category = call "Electronics"
  /\ call category = call "Sports"
  /\ call category = call "Toys".
Proof.
  intros Hn call. unfold call.
  rewrite !predict_delivery_time_unfold,
    location_multipliers_lookup, shipping_multipliers_lookup.
  rewrite (categoryHours_unknown category Hn).
  repeat split.
Qed.

Lemma predict_unknown_category_witness :
  predict_delivery_time "Furniture" "Rural" "Economy" (fun _ => 1%float)
  = predict_delivery_time "Electronics" "Rural" "Economy" (fun _ => 1%float).
Proof.
  apply (predict_unknown_category "Furniture" Spec.Rural Spec.Economy (fun _ => 1%float)).
  intros H. cbn in H. repeat (destruct H as [H | H]; [discriminate | ]). exact H.
Defined.

(** C9: for every category string, every location and shipping method of
    the enumerations and every jitter in [0.9, 1.1], the value before
    rounding, base * locationFactor * shippingFactor * jitter, is at least
    5.184 (and so above the floor of 2); the clamp does not decide the
    result, which is exactly the rounded value, and that value is at
    least 5.2. *)
Theorem predict_clamp_unreached
    (category : string) (l : Spec.Location) (s : Spec.ShippingMethod) (g : rng) :
  Spec.jitter_ok (g 0%nat) ->
  let p := Spec.predicted (Spec.categoryHours category) l s (g 0%nat) in
  (5184 # 1000 <= Py.F2Q p)%Q
  /\ (2 < Py.F2Q p)%Q
  /\ predict_delivery_time category (Spec.location_name l) (Spec.shipping_name s) g
     = (inr (Py.Float (Py.round p 1)), rng_tail g)
  /\ (52 # 10 <= Py.F2Q (Py.round p 1))%Q.
Proof.
  intros Hj p.
  destruct (predict_delivery_time_valid category l s g Hj) as (Hp & Hlo & _ & Hr).
  fold p in Hp, Hlo, Hr.
  split; [exact Hlo | ]. split; [ | split; [exact Hp | exact Hr]].
  eapply Qlt_le_trans; [ | exact Hlo]. reflexivity.
Qed.

Lemma predict_clamp_unreached_witness :
  (5184 # 1000 <= Py.F2Q (Spec.predicted 24 Spec.Urban Spec.Overnight 0.9))%Q
  /\ (2 < Py.F2Q (Spec.predicted 24 Spec.Urban Spec.Overnight 0.9))%Q
  /\ predict_delivery_time "Books" "Urban" "Overnight" (fun _ => 0.9%float)
     = (inr (Py.Float 5.2), rng_tail (fun _ => 0.9%float))
  /\ (52 # 10 <= Py.F2Q 5.2)%Q.
Proof.
  apply (predict_clamp_unreached "Books" Spec.Urban Spec.Overnight (fun _ => 0.9%float)).
  split; vm_compute; reflexivity.
Defined.

(** C6: the insights are a function of the four inputs: the notes of the
    shipping rule, the location rule, the category rule and the duration
    rule, in that order, each rule giving at most one note; the duration
    rule suggests express exactly above 72 hours, announces a fast delivery
    exactly below 24 hours and is silent from 24 to 72 hours inclusive; the
    two examples of the specification evaluate as stated. *)
Theorem insights_rules (category location shipping : string) (predictedHours : Py.num) :
  get_delivery_insights category location shipping predictedHours
  = (Spec.notes (Spec.shipping_rule shipping)
     ++ Spec.notes (Spec.location_rule location)
     ++ Spec.notes (Spec.category_rule category)
     ++ Spec.notes (Spec.duration_rule predictedHours))%list
  /\ (forall r : option string, length (Spec.notes r) <= 1)%nat
  /\ (Spec.duration_rule predictedHours = Some Spec.suggest_express_note
      <-> Py.gt predictedHours (Py.Int 72) = true)
  /\ (Spec.duration_rule predictedHours = Some Spec.fast_delivery_note
      <-> Py.lt predictedHours (Py.Int 24) = true)
  /\ (Py.ge predictedHours (Py.Int 24) = true ->
      Py.le predictedHours (Py.Int 72) = true ->
      Spec.duration_rule predictedHours = None)
  /\ get_delivery_insights "Books" "Urban" "Overnight" (Py.Int 10)
     = [Spec.overnight_note; Spec.urban_note; Spec.books_note; Spec.fast_delivery_note]
  /\ get_delivery_insights "Electronics" "Suburban" "Standard" (Py.Int 50) = [].
Proof.
  split.
  { unfold get_delivery_insights, Spec.shipping_rule, Spec.location_rule,
      Spec.category_rule, Spec.duration_rule.
    destruct (String.eqb shipping "Overnight"), (String.eqb shipping "Economy"),
      (String.eqb location "Rural"), (String.eqb location "Urban"),
      (String.eqb category "Home & Garden"), (String.eqb category "Books"),
      (Py.gt predictedHours (Py.Int 72)), (Py.lt predictedHours (Py.Int 24));
      reflexivity. }
  split; [intros [n | ]; cbn; lia | ].
  unfold Spec.duration_rule.
  split; [ | split; [ | split; [ | split; reflexivity]]].
  - destruct (Py.gt predictedHours (Py.Int 72)); [tauto | ].
    destruct (Py.lt predictedHours (Py.Int 24)); split; discriminate.
  - destruct (Py.lt predictedHours (Py.Int 24)) eqn:Hlt.
    + rewrite (lt_gt_exclusive predictedHours 24 72 ltac:(lia) Hlt). tauto.
    + destruct (Py.gt predictedHours (Py.Int 72)); split; discriminate.
  - unfold Py.ge, Py.le, Py.gt, Py.lt.
    destruct (Py.compare predictedHours (Py.Int 24)) as [[ | | ] | ]; try discriminate;
      destruct (Py.compare predictedHours (Py.Int 72)) as [[ | | ] | ]; try discriminate;
      reflexivity.
Qed.

(** C7: the synthesizer never fails and returns 84 rows, one for each
    element of the 7 x 3 x 4 cross-product, each combination exactly once,
    in nested order (category outermost, location in the middle, shipping
    method innermost); the [i]-th row holds what the [i]-th call of the
    estimator returned, and the generator has been drawn from 84 times. *)
Theorem synthesize_rows (g : rng) :
  generate_sample_data g = (inr (expected_rows g), rng_drop 84 g)
  /\ length (expected_rows g) = 84%nat
  /\ map row_key (expected_rows g) = combinations
  /\ NoDup (map row_key (expected_rows g))
  /\ (forall (c : Spec.Category) (l : Spec.Location) (s : Spec.ShippingMethod),
        count_occ key_eq_dec (map row_key (expected_rows g))
          (Spec.category_name c, Spec.location_name l, Spec.shipping_name s) = 1%nat)
  /\ (forall (i : nat) (r : row),
        nth_error (expected_rows g) i = Some r ->
        predict_delivery_time (Product_Category r) (Location r) (Shipping_Method r)
                              (rng_drop i g)
        = (inr (Delivery_Time_Hours r), rng_drop (S i) g)).
Proof.
  split; [apply generate_sample_data_rows | ].
  split; [reflexivity | ].
  rewrite expected_rows_keys.
  split; [reflexivity | ].
  split; [apply combinations_NoDup | ].
  split; [apply combinations_complete | ].
  intros i r Hr.
  destruct (expected_rows_nth g i r Hr) as (category & location & shipping & Hk & ->).
  cbn [Product_Category Location Shipping_Method Delivery_Time_Hours].
  apply nth_error_In in Hk. apply combinations_valid in Hk. destruct Hk as [Hl Hs].
  rewrite predict_delivery_time_estimate by assumption. reflexivity.
Qed.




(** C10: for every hours value with 0 <= hours < 24, the formatter returns
    the whole hours followed by the plural word "hours" whatever the count
    is: the count lies from 0 to 23 and no singular is formed; in
    particular 1 is rendered "1 hours". *)
Theorem sub_day_always_plural (hours : Py.num) :
  Py.ge hours (Py.Int 0) = true -> Py.lt hours (Py.Int 24) = true ->
  (exists count : Z,
      0 <= count < 24
      /\ count = truncate (exact_value hours)
      /\ hours_to_readable hours = inr (Py.numeral count ++ " hours"))
  /\ hours_to_readable (Py.Int 1) = inr "1 hours"
  /\ hours_to_readable (Py.Float 1) = inr "1 hours".
Proof.
  intros H0 H24.
  split; [ | split; vm_compute; reflexivity].
  pose proof (finite_between hours _ _ H0 H24) as Hfin.
  destruct (hours_to_readable_below_24 hours Hfin H24) as (Ht & _ & _).
  apply (ge_Int_exact _ _ Hfin) in H0.
  rewrite (lt_Int_exact _ _ Hfin) in H24. apply negb_true_iff in H24.
  pose proof (truncate_sub_day _ H0 H24) as Hr.
  exists (truncate (exact_value hours)).
  split; [exact Hr | ]. split; [reflexivity | ].
  rewrite Ht, (too_long_small (truncate (exact_value hours))); [reflexivity | ].
  rewrite Z.abs_eq by lia.
  eapply Z.lt_le_trans; [apply Hr | ].
  apply Z.le_trans with (2 ^ 5); [discriminate | ].
  apply Z.pow_le_mono_r; [reflexivity | discriminate].
Qed.

Lemma sub_day_always_plural_witness :
  (exists count : Z,
      0 <= count < 24
      /\ count = truncate (exact_value (Py.Float 1.5))
      /\ hours_to_readable (Py.Float 1.5) = inr (Py.numeral count ++ " hours"))
  /\ hours_to_readable (Py.Int 1) = inr "1 hours"
  /\ hours_to_readable (Py.Float 1) = inr "1 hours".
Proof.
  apply (sub_day_always_plural (Py.Float 1.5)); vm_compute; reflexivity.
Defined.
(** ** Further properties of the formatter *)

(** X1: for every finite number below 24, negative numbers included, the
    formatter shows the whole hours, truncated toward zero, followed by
    " hours", the plural whatever the count is; it raises ValueError
    instead exactly when that count has more than 4300 digits, which only
    an int can have. *)
Theorem readable_sub_day (hours : Py.num) :
  is_finite hours = true -> Py.lt hours (Py.Int 24) = true ->
  hours_to_readable hours
  = if 10 ^ 4300 <=? Z.abs (truncate (exact_value hours)) then inl Py.ValueError
    else inr (Py.numeral (truncate (exact_value hours)) ++ " hours").
Proof.
  intros Hfin Hlt.
  destruct (hours_to_readable_below_24 hours Hfin Hlt) as (H & _ & _).
  rewrite H, too_long_value. reflexivity.
Qed.

Lemma readable_sub_day_witness :
  hours_to_readable (Py.Float 1.5) = inr "1 hours"
  /\ hours_to_readable (Py.Float (-3.5)) = inr "-3 hours"
  /\ hours_to_readable (Py.Int (- 10 ^ 4300)) = inl Py.ValueError.
Proof.
  split; [ | split].
  - rewrite (readable_sub_day (Py.Float 1.5)); vm_compute; reflexivity.
  - rewrite (readable_sub_day (Py.Float (-3.5))); vm_compute; reflexivity.
  - rewrite (readable_sub_day (Py.Int (- 10 ^ 4300))); vm_compute; reflexivity.
Defined.

(** X2: on every int the formatter either returns the rendering of the
    exact duration (the whole days, and the whole hours left after them) or
    refuses: it raises ValueError exactly when the number it shows first,
    the whole hours below 24 and the whole days from 24 on, has more than
    4300 digits. *)
Theorem readable_exact_on_int (z : Z) :
  hours_to_readable (Py.Int z)
  = if 10 ^ 4300 <=? Z.abs (if z <? 24 then z else z / 24) then inl Py.ValueError
    else inr (readable_duration (inject_Z z)).
Proof.
  rewrite hours_to_readable_Int, leading_count_Int, too_long_value. reflexivity.
Qed.

(** X3: on every finite float below 2^53 the float floor division and the
    float remainder by 24 lose nothing: the formatter returns the
    rendering of the exact value of the float. *)
Theorem readable_exact_on_float (f : float) :
  is_finite (Py.Float f) = true ->
  Py.lt (Py.Float f) (Py.Int (2 ^ 53)) = true ->
  hours_to_readable (Py.Float f) = inr (readable_duration (Py.F2Q f)).
Proof.
  intros Hfin H53. apply hours_to_readable_Float_exact; assumption.
Qed.

Lemma readable_exact_on_float_witness :
  hours_to_readable (Py.Float 49.5) = inr "2 days and 1 hour".
Proof.
  apply (readable_exact_on_float 49.5); vm_compute; reflexivity.
Defined.

(** X4: for every finite number from 24 up to 2^53, the days and the hours
    the formatter shows are a division with remainder of the whole hours:
    at least one day, from 0 to 23 hours, and 24 * days + hours is the
    input rounded down; the hours are left out when they are 0, and a
    count of 1 is in the singular. *)
Theorem readable_day_parts (hours : Py.num) :
  is_finite hours = true ->
  Py.lt hours (Py.Int 24) = false ->
  Py.lt hours (Py.Int (2 ^ 53)) = true ->
  exists days remaining_hours : Z,
    1 <= days /\ 0 <= remaining_hours < 24
    /\ 24 * days + remaining_hours = Qfloor (exact_value hours)
    /\ hours_to_readable hours
       = inr (if remaining_hours =? 0 then
                Py.numeral days ++ " " ++ pluralize "day" days
              else
                Py.numeral days ++ " " ++ pluralize "day" days
                ++ " and " ++ Py.numeral remaining_hours
                ++ " " ++ pluralize "hour" remaining_hours).
Proof.
  intros Hfin H24 H53.
  pose proof (Qle_24_exact hours Hfin H24) as Hq.
  destruct (readable_duration_parts (exact_value hours) Hq)
    as (days & remaining_hours & Hd & Hr & Hsum & Htext).
  exists days, remaining_hours.
  split; [exact Hd | ]. split; [exact Hr | ]. split; [exact Hsum | ].
  rewrite <- Htext. destruct hours as [z | f].
  - rewrite hours_to_readable_Int, leading_count_Int.
    cbn [exact_value] in Hq. unfold Qle in Hq. cbn [Qnum Qden inject_Z] in Hq.
    rewrite !Z.mul_1_r in Hq.
    unfold Py.lt, Py.compare in H53.
    destruct (Z.compare_spec z (2 ^ 53)) as [E | L | G]; try discriminate.
    assert (Hz : (z <? 24) = false) by (apply Z.ltb_ge; exact Hq).
    rewrite Hz, too_long_small; [reflexivity | ].
    assert (H0 : 0 <= z / 24) by (apply Z.div_pos; lia).
    rewrite Z.abs_eq by exact H0.
    apply Z.le_lt_trans with z; [apply Z.div_le_upper_bound; lia | ].
    eapply Z.lt_le_trans; [exact L | ]. apply Z.pow_le_mono_r; lia.
  - apply hours_to_readable_Float_exact; assumption.
Qed.

Lemma readable_day_parts_witness :
  exists days remaining_hours : Z,
    1 <= days /\ 0 <= remaining_hours < 24
    /\ 24 * days + remaining_hours = 49
    /\ hours_to_readable (Py.Float 49.5)
       = inr (if remaining_hours =? 0 then
                Py.numeral days ++ " " ++ pluralize "day" days
              else
                Py.numeral days ++ " " ++ pluralize "day" days
                ++ " and " ++ Py.numeral remaining_hours
                ++ " " ++ pluralize "hour" remaining_hours).
Proof.
  apply (readable_day_parts (Py.Float 49.5)); vm_compute; reflexivity.
Defined.

(** X5: on a float that is not finite the formatter raises: OverflowError
    on minus infinity, which takes the branch below 24, and ValueError on
    plus infinity and on NaN, whose quotient by 24 is NaN. *)
Theorem readable_rejects_non_finite (f : float) :
  is_finite (Py.Float f) = false ->
  hours_to_readable (Py.Float f)
  = inl (if (f <? 0)%float then Py.OverflowError else Py.ValueError).
Proof.
  unfold is_finite. intros H. rewrite <- (SF2Prim_Prim2SF f).
  destruct (Prim2SF f) as [s | [ | ] | | s m e]; try discriminate;
    vm_compute; reflexivity.
Qed.

Lemma readable_rejects_non_finite_witness :
  hours_to_readable (Py.Float neg_infinity) = inl Py.OverflowError
  /\ hours_to_readable (Py.Float infinity) = inl Py.ValueError
  /\ hours_to_readable (Py.Float nan) = inl Py.ValueError.
Proof.
  split; [ | split].
  - apply (readable_rejects_non_finite neg_infinity). vm_compute. reflexivity.
  - apply (readable_rejects_non_finite infinity). vm_compute. reflexivity.
  - apply (readable_rejects_non_finite nan). vm_compute. reflexivity.
Defined.

(** ** Further properties of the estimator *)

(** X6: an unknown location is the key the estimator reports, whatever the
    category and the shipping method are, an unknown shipping method
    included: the location is looked up first, and nothing is drawn. *)
Theorem predict_reports_location_first (category location shipping : string) (g : rng) :
  ~ Spec.valid_location location ->
  predict_delivery_time category location shipping g = (inl (Py.KeyError location), g).
Proof.
  intros H. rewrite predict_delivery_time_unfold.
  rewrite dict_lookup_none by exact H. reflexivity.
Qed.

Lemma predict_reports_location_first_witness :
  predict_delivery_time "Books" "Moon" "Teleport" (fun _ => 1%float)
  = (inl (Py.KeyError "Moon"), fun _ => 1%float).
Proof.
  apply (predict_reports_location_first "Books" "Moon" "Teleport" (fun _ => 1%float)).
  intros H. cbn in H. repeat (destruct H as [H | H]; [discriminate | ]). exact H.
Defined.

(** X7: an unknown shipping method is reported when the location is one
    of the table: the estimator then raises KeyError for the shipping
    method, whatever the category is, and nothing is drawn. *)
Theorem predict_reports_shipping_second
    (category : string) (l : Spec.Location) (shipping : string) (g : rng) :
  ~ Spec.valid_shipping shipping ->
  predict_delivery_time category (Spec.location_name l) shipping g
  = (inl (Py.KeyError shipping), g).
Proof.
  intros H. rewrite predict_delivery_time_unfold, location_multipliers_lookup.
  rewrite dict_lookup_none by exact H. reflexivity.
Qed.

Lemma predict_reports_shipping_second_witness :
  predict_delivery_time "Books" "Rural" "Teleport" (fun _ => 1%float)
  = (inl (Py.KeyError "Teleport"), fun _ => 1%float).
Proof.
  apply (predict_reports_shipping_second "Books" Spec.Rural "Teleport" (fun _ => 1%float)).
  intros H. cbn in H. repeat (destruct H as [H | H]; [discriminate | ]). exact H.
Defined.

(** X8: for every category string, every location and shipping method of
    the tables and every jitter in [0.9, 1.1], the estimate is the float of
    a one-decimal number d / 10 with d from 52 to 1441: it lies between 5.2
    and 144.1, both included. *)
Theorem predict_range
    (category : string) (l : Spec.Location) (s : Spec.ShippingMethod) (g : rng) :
  Spec.jitter_ok (g 0%nat) ->
  exists d : Z,
    52 <= d <= 1441
    /\ predict_delivery_time category (Spec.location_name l) (Spec.shipping_name s) g
       = (inr (Py.Float (decimal d)), rng_tail g)
    /\ Py.le (Py.Float 5.2) (Py.Float (decimal d)) = true
    /\ Py.le (Py.Float (decimal d)) (Py.Float 144.1) = true.
Proof.
  intros Hj.
  destruct (predict_delivery_time_tenths category l s g Hj) as [Hp _].
  pose proof (tenths_range _ (g 0%nat) (settings_In category l s) Hj) as Hr.
  exists (tenths (product (Spec.categoryHours category, l, s) * g 0%nat)).
  split; [exact Hr | ]. split; [exact Hp | ].
  rewrite <- decimal_52, <- decimal_1441.
  split; apply decimal_le; lia.
Qed.

Lemma predict_range_witness :
  exists d : Z,
    52 <= d <= 1441
    /\ predict_delivery_time "Home & Garden" "Rural" "Economy" (fun _ => 1.1%float)
       = (inr (Py.Float (decimal d)), rng_tail (fun _ => 1.1%float))
    /\ Py.le (Py.Float 5.2) (Py.Float (decimal d)) = true
    /\ Py.le (Py.Float (decimal d)) (Py.Float 144.1) = true.
Proof.
  apply (predict_range "Home & Garden" Spec.Rural Spec.Economy (fun _ => 1.1%float)).
  split; vm_compute; reflexivity.
Defined.

(** X9: the estimate follows the rates and the jitter: if the base hours,
    the location factor, the shipping factor and the jitter of one call are
    each at most those of another call, its estimate is at most the
    other's. *)
Theorem predict_monotone
    (category1 category2 : string) (l1 l2 : Spec.Location)
    (s1 s2 : Spec.ShippingMethod) (g1 g2 : rng) :
  Spec.jitter_ok (g1 0%nat) -> Spec.jitter_ok (g2 0%nat) ->
  Spec.categoryHours category1 <= Spec.categoryHours category2 ->
  (Spec.locationFactor l1 <=? Spec.locationFactor l2)%float = true ->
  (Spec.shippingFactor s1 <=? Spec.shippingFactor s2)%float = true ->
  (g1 0%nat <=? g2 0%nat)%float = true ->
  exists v1 v2 : Py.num,
    predict_delivery_time category1 (Spec.location_name l1) (Spec.shipping_name s1) g1
      = (inr v1, rng_tail g1)
    /\ predict_delivery_time category2 (Spec.location_name l2) (Spec.shipping_name s2) g2
       = (inr v2, rng_tail g2)
    /\ Py.le v1 v2 = true.
Proof.
  intros J1 J2 Hb Hl Hs Hj.
  destruct (predict_delivery_time_tenths category1 l1 s1 g1 J1) as [P1 R1].
  destruct (predict_delivery_time_tenths category2 l2 s2 g2 J2) as [P2 R2].
  eexists. eexists. split; [exact P1 | ]. split; [exact P2 | ].
  apply decimal_le; try lia.
  apply tenths_order; try assumption; try apply settings_In.
  unfold rates_leb. rewrite Hl, Hs. apply Z.leb_le in Hb. rewrite Hb. reflexivity.
Qed.

Lemma predict_monotone_witness :
  exists v1 v2 : Py.num,
    predict_delivery_time "Books" "Urban" "Express" (fun _ => 0.95%float)
      = (inr v1, rng_tail (fun _ => 0.95%float))
    /\ predict_delivery_time "Toys" "Urban" "Standard" (fun _ => 1.05%float)
       = (inr v2, rng_tail (fun _ => 1.05%float))
    /\ Py.le v1 v2 = true.
Proof.
  apply (predict_monotone "Books" "Toys" Spec.Urban Spec.Urban Spec.Express Spec.Standard
           (fun _ => 0.95%float) (fun _ => 1.05%float));
    try (split; vm_compute; reflexivity); try (vm_compute; reflexivity).
  vm_compute. discriminate.
Defined.

(** X10: a lower rate outweighs the jitter: if the base hours, the
    location factor and the shipping factor of one call are each at most
    those of another call, and one of the three is smaller, the estimate of
    the first call is smaller than that of the second, whatever the two
    jitters in [0.9, 1.1] are. *)
Theorem predict_order_survives_jitter
    (category1 category2 : string) (l1 l2 : Spec.Location)
    (s1 s2 : Spec.ShippingMethod) (g1 g2 : rng) :
  Spec.jitter_ok (g1 0%nat) -> Spec.jitter_ok (g2 0%nat) ->
  Spec.categoryHours category1 <= Spec.categoryHours category2 ->
  (Spec.locationFactor l1 <=? Spec.locationFactor l2)%float = true ->
  (Spec.shippingFactor s1 <=? Spec.shippingFactor s2)%float = true ->
  Spec.categoryHours category1 < Spec.categoryHours category2
  \/ (Spec.locationFactor l1 <? Spec.locationFactor l2)%float = true
  \/ (Spec.shippingFactor s1 <? Spec.shippingFactor s2)%float = true ->
  exists v1 v2 : Py.num,
    predict_delivery_time category1 (Spec.location_name l1) (Spec.shipping_name s1) g1
      = (inr v1, rng_tail g1)
    /\ predict_delivery_time category2 (Spec.location_name l2) (Spec.shipping_name s2) g2
       = (inr v2, rng_tail g2)
    /\ Py.lt v1 v2 = true.
Proof.
  intros J1 J2 Hb Hl Hs Hlt.
  destruct (predict_delivery_time_tenths category1 l1 s1 g1 J1) as [P1 R1].
  destruct (predict_delivery_time_tenths category2 l2 s2 g2 J2) as [P2 R2].
  eexists. eexists. split; [exact P1 | ]. split; [exact P2 | ].
  apply decimal_lt; try lia.
  apply tenths_gap; try assumption; try apply settings_In.
  - unfold rates_leb. rewrite Hl, Hs. apply Z.leb_le in Hb. rewrite Hb. reflexivity.
  - unfold rates_ltb. destruct Hlt as [H | [H | H]].
    + apply Z.ltb_lt in H. rewrite H. reflexivity.
    + rewrite H. apply orb_true_iff. left. apply orb_true_r.
    + rewrite H. apply orb_true_r.
Qed.

Lemma predict_order_survives_jitter_witness :
  exists v1 v2 : Py.num,
    predict_delivery_time "Books" "Urban" "Standard" (fun _ => 1.1%float)
      = (inr v1, rng_tail (fun _ => 1.1%float))
    /\ predict_delivery_time "Books" "Suburban" "Standard" (fun _ => 0.9%float)
       = (inr v2, rng_tail (fun _ => 0.9%float))
    /\ Py.lt v1 v2 = true.
Proof.
  apply (predict_order_survives_jitter "Books" "Books" Spec.Urban Spec.Suburban
           Spec.Standard Spec.Standard (fun _ => 1.1%float) (fun _ => 0.9%float));
    try (split; vm_compute; reflexivity); try (vm_compute; reflexivity).
  - vm_compute. discriminate.
  - right. left. vm_compute. reflexivity.
Defined.

(** ** The estimate in the formatter and in the insight rules *)

(** X11: the formatter never fails on an estimate: for every category
    string, every location and shipping method of the tables and every
    jitter in [0.9, 1.1], the estimate is the float of some d / 10 and the
    text shown for it is the rendering of d / 10 itself: the binary value
    of the float never moves the days or the hours. *)
Theorem readable_of_estimate
    (category : string) (l : Spec.Location) (s : Spec.ShippingMethod) (g : rng) :
  Spec.jitter_ok (g 0%nat) ->
  exists d : Z,
    predict_delivery_time category (Spec.location_name l) (Spec.shipping_name s) g
      = (inr (Py.Float (decimal d)), rng_tail g)
    /\ hours_to_readable (Py.Float (decimal d)) = inr (readable_duration (d # 10)).
Proof.
  intros Hj.
  destruct (predict_delivery_time_tenths category l s g Hj) as [Hp Hd].
  eexists. split; [exact Hp | ]. apply decimal_text. exact Hd.
Qed.

Lemma readable_of_estimate_witness :
  exists d : Z,
    predict_delivery_time "Electronics" "Suburban" "Standard" (fun _ => 1%float)
      = (inr (Py.Float (decimal d)), rng_tail (fun _ => 1%float))
    /\ hours_to_readable (Py.Float (decimal d)) = inr (readable_duration (d # 10)).
Proof.
  apply (readable_of_estimate "Electronics" Spec.Suburban Spec.Standard (fun _ => 1%float)).
  split; vm_compute; reflexivity.
Defined.

(** X12: the insights of an estimate fit the shipping method it was made
    for: with Overnight or Express the estimate is never above 72 hours, so
    the note that suggests express shipping is not among the insights; with
    Economy the estimate is never below 24 hours, so the note that announces
    a fast delivery is not among them.  This holds for every category
    string, every location of the table and every jitter in [0.9, 1.1]. *)
Theorem insights_fit_shipping
    (category : string) (l : Spec.Location) (s : Spec.ShippingMethod) (g : rng) :
  Spec.jitter_ok (g 0%nat) ->
  exists v : Py.num,
    predict_delivery_time category (Spec.location_name l) (Spec.shipping_name s) g
      = (inr v, rng_tail g)
    /\ (s = Spec.Overnight \/ s = Spec.Express ->
        ~ In Spec.suggest_express_note
             (get_delivery_insights category (Spec.location_name l) (Spec.shipping_name s) v))
    /\ (s = Spec.Economy ->
        ~ In Spec.fast_delivery_note
             (get_delivery_insights category (Spec.location_name l) (Spec.shipping_name s) v)).
Proof.
  intros Hj.
  destruct (predict_delivery_time_tenths category l s g Hj) as [Hp Hd].
  eexists. split; [exact Hp | ].
  pose proof (settings_In category l s) as Hx.
  split.
  - intros Hs. apply duration_note_absent; [left; reflexivity | ].
    rewrite (duration_rule_decimal _ Hd).
    pose proof (tenths_fast_shipping _ l s (g 0%nat) Hx Hj Hs) as Hle.
    apply Z.ltb_ge in Hle. rewrite Hle.
    destruct (_ <? 240); discriminate.
  - intros ->. apply duration_note_absent; [right; reflexivity | ].
    rewrite (duration_rule_decimal _ Hd).
    pose proof (tenths_economy_shipping _ l (g 0%nat) Hx Hj) as Hge.
    apply Z.ltb_ge in Hge. rewrite Hge.
    destruct (720 <? _); discriminate.
Qed.

Lemma insights_fit_shipping_witness :
  exists v : Py.num,
    predict_delivery_time "Home & Garden" "Rural" "Express" (fun _ => 1.1%float)
      = (inr v, rng_tail (fun _ => 1.1%float))
    /\ (Spec.Express = Spec.Overnight \/ Spec.Express = Spec.Express ->
        ~ In Spec.suggest_express_note
             (get_delivery_insights "Home & Garden" "Rural" "Express" v))
    /\ (Spec.Express = Spec.Economy ->
        ~ In Spec.fast_delivery_note
             (get_delivery_insights "Home & Garden" "Rural" "Express" v)).
Proof.
  apply (insights_fit_shipping "Home & Garden" Spec.Rural Spec.Express (fun _ => 1.1%float)).
  split; vm_compute; reflexivity.
Defined.

(** ** Further properties of the synthesizer *)

(** X13: whatever numbers the generator yields, the synthesizer returns
    its table and every row of it holds at least 2.0 hours. *)
Theorem sample_rows_at_least_2 (g : rng) :
  exists rows : list row,
    generate_sample_data g = (inr rows, rng_drop 84 g)
    /\ Forall (fun r => Py.ge (Delivery_Time_Hours r) (Py.Float 2) = true) rows.
Proof.
  exists (expected_rows g). split; [apply generate_sample_data_rows | ].
  apply Forall_forall. intros r Hr.
  destruct (expected_rows_In g r Hr) as (i & l & s & _ & _ & _ & ->).
  destruct (predict_delivery_time_ge_2 (Product_Category r) l s (rng_drop i g))
    as (v & Hv & Hge).
  unfold estimate. rewrite Hv. exact Hge.
Qed.

(** X14: when the 84 numbers the synthesizer draws are jitters in
    [0.9, 1.1], every row of the table holds the float of a one-decimal
    number d / 10 with d from 52 to 1441: from 5.2 to 144.1 hours. *)
Theorem sample_rows_range (g : rng) :
  (forall i : nat, (i < 84)%nat -> Spec.jitter_ok (g i)) ->
  exists rows : list row,
    generate_sample_data g = (inr rows, rng_drop 84 g)
    /\ Forall (fun r => exists d : Z,
                 52 <= d <= 1441 /\ Delivery_Time_Hours r = Py.Float (decimal d)) rows.
Proof.
  intros Hg.
  exists (expected_rows g). split; [apply generate_sample_data_rows | ].
  apply Forall_forall. intros r Hr.
  destruct (expected_rows_In g r Hr) as (i & l & s & Hi & _ & _ & ->).
  assert (Hj : Spec.jitter_ok (rng_drop i g 0%nat)) by (rewrite rng_drop_0; apply Hg, Hi).
  rewrite (estimate_tenths _ l s _ Hj).
  eexists. split; [ | reflexivity].
  apply tenths_range; [apply settings_In | exact Hj].
Qed.

Lemma sample_rows_range_witness :
  exists rows : list row,
    generate_sample_data (fun _ => 1%float) = (inr rows, rng_drop 84 (fun _ => 1%float))
    /\ Forall (fun r => exists d : Z,
                 52 <= d <= 1441 /\ Delivery_Time_Hours r = Py.Float (decimal d)) rows.
Proof.
  apply (sample_rows_range (fun _ => 1%float)).
  intros i _. split; vm_compute; reflexivity.
Defined.

(** X15: when the 84 numbers the synthesizer draws are jitters in
    [0.9, 1.1], the rows of the table are in the order of their rates: a
    row whose base hours, location factor and shipping factor are each at
    most those of another row, one of them being smaller, holds fewer hours
    than the other row, although the two rows have jitters of their own. *)
Theorem sample_rows_ordered (g : rng) :
  (forall i : nat, (i < 84)%nat -> Spec.jitter_ok (g i)) ->
  exists rows : list row,
    generate_sample_data g = (inr rows, rng_drop 84 g)
    /\ forall (r1 r2 : row) (l1 l2 : Spec.Location) (s1 s2 : Spec.ShippingMethod),
         In r1 rows -> In r2 rows ->
         Location r1 = Spec.location_name l1 ->
         Shipping_Method r1 = Spec.shipping_name s1 ->
         Location r2 = Spec.location_name l2 ->
         Shipping_Method r2 = Spec.shipping_name s2 ->
         rates_leb (Spec.categoryHours (Product_Category r1), l1, s1)
                   (Spec.categoryHours (Product_Category r2), l2, s2) = true ->
         rates_ltb (Spec.categoryHours (Product_Category r1), l1, s1)
                   (Spec.categoryHours (Product_Category r2), l2, s2) = true ->
         Py.lt (Delivery_Time_Hours r1) (Delivery_Time_Hours r2) = true.
Proof.
  intros Hg.
  exists (expected_rows g). split; [apply generate_sample_data_rows | ].
  intros r1 r2 l1 l2 s1 s2 Hr1 Hr2 L1 S1 L2 S2 Hle Hlt.
  destruct (expected_rows_In g r1 Hr1) as (i1 & l1' & s1' & Hi1 & L1' & S1' & ->).
  destruct (expected_rows_In g r2 Hr2) as (i2 & l2' & s2' & Hi2 & L2' & S2' & ->).
  rewrite L1 in L1'. apply location_name_inj in L1'. subst l1'.
  rewrite S1 in S1'. apply shipping_name_inj in S1'. subst s1'.
  rewrite L2 in L2'. apply location_name_inj in L2'. subst l2'.
  rewrite S2 in S2'. apply shipping_name_inj in S2'. subst s2'.
  assert (J1 : Spec.jitter_ok (rng_drop i1 g 0%nat)) by (rewrite rng_drop_0; apply Hg, Hi1).
  assert (J2 : Spec.jitter_ok (rng_drop i2 g 0%nat)) by (rewrite rng_drop_0; apply Hg, Hi2).
  rewrite (estimate_tenths _ l1 s1 _ J1), (estimate_tenths _ l2 s2 _ J2).
  pose proof (tenths_range _ _ (settings_In (Product_Category r1) l1 s1) J1) as R1.
  pose proof (tenths_range _ _ (settings_In (Product_Category r2) l2 s2) J2) as R2.
  apply decimal_lt; try lia.
  apply tenths_gap; try assumption; apply settings_In.
Qed.

Lemma sample_rows_ordered_witness :
  exists rows : list row,
    generate_sample_data (fun _ => 1%float) = (inr rows, rng_drop 84 (fun _ => 1%float))
    /\ forall (r1 r2 : row) (l1 l2 : Spec.Location) (s1 s2 : Spec.ShippingMethod),
         In r1 rows -> In r2 rows ->
         Location r1 = Spec.location_name l1 ->
         Shipping_Method r1 = Spec.shipping_name s1 ->
         Location r2 = Spec.location_name l2 ->
         Shipping_Method r2 = Spec.shipping_name s2 ->
         rates_leb (Spec.categoryHours (Product_Category r1), l1, s1)
                   (Spec.categoryHours (Product_Category r2), l2, s2) = true ->
         rates_ltb (Spec.categoryHours (Product_Category r1), l1, s1)
                   (Spec.categoryHours (Product_Category r2), l2, s2) = true ->
         Py.lt (Delivery_Time_Hours r1) (Delivery_Time_Hours r2) = true.
Proof.
  apply (sample_rows_ordered (fun _ => 1%float)).
  intros i _. split; vm_compute; reflexivity.
Defined.

(** X16: the table is balanced, whatever the generator yields: 12 rows for
    each of the 7 categories, 28 rows for each of the 3 locations and 21
    rows for each of the 4 shipping methods, so that every group the charts
    average over has the same number of rows. *)
Theorem sample_groups_balanced (g : rng) :
  exists rows : list row,
    generate_sample_data g = (inr rows, rng_drop 84 g)
    /\ (forall c : Spec.Category,
          count_occ string_dec (map Product_Category rows) (Spec.category_name c) = 12%nat)
    /\ (forall l : Spec.Location,
          count_occ string_dec (map Location rows) (Spec.location_name l) = 28%nat)
    /\ (forall s : Spec.ShippingMethod,
          count_occ string_dec (map Shipping_Method rows) (Spec.shipping_name s) = 21%nat).
Proof.
  exists (expected_rows g). split; [apply generate_sample_data_rows | ].
  assert (Hc : map Product_Category (expected_rows g)
               = map (fun k => fst (fst k)) combinations).
  { rewrite <- (expected_rows_keys g), map_map. reflexivity. }
  assert (Hl : map Location (expected_rows g) = map (fun k => snd (fst k)) combinations).
  { rewrite <- (expected_rows_keys g), map_map. reflexivity. }
  assert (Hs : map Shipping_Method (expected_rows g) = map (fun k => snd k) combinations).
  { rewrite <- (expected_rows_keys g), map_map. reflexivity. }
  rewrite Hc, Hl, Hs.
  split; [ | split].
  - intros c. destruct c; vm_compute; reflexivity.
  - intros l. destruct l; vm_compute; reflexivity.
  - intros s. destruct s; vm_compute; reflexivity.
Qed.

(** X17: the table depends on the first 84 numbers of the generator only:
    two states that agree on them give the same rows. *)
Theorem sample_reads_84_numbers (g1 g2 : rng) :
  (forall i : nat, (i < 84)%nat -> g1 i = g2 i) ->
  fst (generate_sample_data g1) = fst (generate_sample_data g2).
Proof.
  intros H. rewrite !generate_sample_data_rows. cbn [fst]. f_equal.
  unfold expected_rows. apply map_ext_in.
  intros [i [[category location] shipping]] Hin.
  assert (Hi : (i < 84)%nat).
  { apply in_combine_l in Hin. apply in_seq in Hin.
    change (length combinations) with 84%nat in Hin. lia. }
  f_equal. unfold estimate. rewrite !predict_delivery_time_unfold, !rng_drop_0.
  rewrite (H i Hi).
  destruct (dict_lookup location_multipliers location); [ | reflexivity].
  destruct (dict_lookup shipping_multipliers shipping); reflexivity.
Qed.

Lemma sample_reads_84_numbers_witness :
  fst (generate_sample_data (fun _ => 1%float))
  = fst (generate_sample_data (fun i => if (i <? 84)%nat then 1%float else 2%float)).
Proof.
  apply (sample_reads_84_numbers (fun _ => 1%float)
           (fun i => if (i <? 84)%nat then 1%float else 2%float)).
  intros i Hi. apply Nat.ltb_lt in Hi. rewrite Hi. reflexivity.
Defined.
